(** * cache_data.py: the cache-population workflow, embedded and verified

    A shallow embedding of [src/cache_data.py]: the season/week resolver with
    its calendar fallback, the odds flattener (the part of [cache_odds_data]
    that reshapes one week of games), the three cache writers, the backfill
    orchestrator [cache_old_data], the ATS summary builder [cache_ats_data]
    and the driver.

    Conventions.
    - JSON and cell values are [pyval]; a Python [dict] is an association
      list in insertion order (pandas derives the column order from it).
    - Code that can raise returns an [outcome]; code that talks to the
      network, the clock or the disk is a function [world -> outcome * world]
      so that what was written, printed and requested before an exception
      stays visible.
    - The upstream API and the clock are oracles over the list of requests
      issued so far ([env]): the same URL may be answered differently later
      in a run. *)

From Stdlib Require Import QArith Lia Ascii.
From stdpp Require Import base option list strings pretty gmap.

#[local] Set Warnings "-register-all".
#[local] Open Scope string_scope.
#[local] Open Scope list_scope.
#[local] Open Scope Z_scope.

(** ** Python values *)

(** A float is modelled by its exact rational value, plus a separate
    not-a-number.  Comparing two floats, or a float and an int, is exact in
    Python; adding is not, and the embedding adds only where binary floating
    point is exact (see [py_add]): on the integers and multiples of one half
    that scores and spreads are. *)
Inductive pyval :=
  | PNone
  | PBool (b : bool)
  | PInt (n : Z)
  | PFloat (q : Q)
  | PNaN
  | PStr (s : string)
  | PList (l : list pyval)
  | PDict (d : list (string * pyval)).

Abbreviation dict := (list (string * pyval)).

Inductive exn :=
  | KeyError (k : string)
  | TypeError
  | ValueError
  | IndexError
  | FileNotFoundError (path : string)
  | JSONDecodeError
  | Unsupported.

(** What a Python call ends in: a value, or a raised exception. *)
Inductive outcome (A : Type) :=
  | Ret (a : A)
  | Raise (e : exn).
Arguments Ret {A} a.
Arguments Raise {A} e.

Definition obind {A B} (o : outcome A) (k : A -> outcome B) : outcome B :=
  match o with
  | Ret a => k a
  | Raise e => Raise e
  end.

Declare Scope py_scope.
Delimit Scope py_scope with py.
Notation "'let?' x := c 'in' k" := (obind c (fun x => k))
  (at level 10, x pattern, c at level 100, k at level 200) : py_scope.
#[local] Open Scope py_scope.

Fixpoint omap_list {A B} (f : A -> outcome B) (l : list A) : outcome (list B) :=
  match l with
  | [] => Ret []
  | a :: l' =>
      let? b := f a in
      let? bs := omap_list f l' in
      Ret (b :: bs)
  end.

(** *** Strings *)

(** [sub in s] *)
Fixpoint str_in (sub s : string) : bool :=
  if String.prefix sub s then true
  else match s with
       | EmptyString => false
       | String _ s' => str_in sub s'
       end.

(** [s.endswith(suffix)] *)
Fixpoint endswith (s suffix : string) : bool :=
  if String.eqb s suffix then true
  else match s with
       | EmptyString => false
       | String _ s' => endswith s' suffix
       end.

(** [str(n)] for an [int] *)
Definition str_int (n : Z) : string := pretty n.

(** *** Dictionaries *)

(** [d.get(k)], with [None] for Python's missing key *)
Fixpoint dict_get (k : string) (d : dict) : option pyval :=
  match d with
  | [] => None
  | (k', v) :: d' => if String.eqb k' k then Some v else dict_get k d'
  end.

(** [d[k]] *)
Definition dict_item (k : string) (d : dict) : outcome pyval :=
  match dict_get k d with
  | Some v => Ret v
  | None => Raise (KeyError k)
  end.

(** [d[k] = v]: replaces in place, or appends a new key *)
Fixpoint dict_set (k : string) (v : pyval) (d : dict) : dict :=
  match d with
  | [] => [(k, v)]
  | (k', v') :: d' =>
      if String.eqb k' k then (k', v) :: d' else (k', v') :: dict_set k v d'
  end.

Definition dict_keys (d : dict) : list string := d.*1.

(** [range(lo, hi)] *)
Definition py_range (lo hi : Z) : list Z :=
  (fun i : nat => lo + Z.of_nat i) <$> seq 0 (Z.to_nat (hi - lo)).

(** [range(hi, lo, -1)]: [hi, hi-1, ..., lo+1] *)
Definition py_range_down (hi lo : Z) : list Z :=
  (fun i : nat => hi - Z.of_nat i) <$> seq 0 (Z.to_nat (hi - lo)).

(** *** Arithmetic and comparison on cells *)

Inductive number :=
  | Fin (q : Q)
  | NaN.

(** The numeric reading of a value; [bool] is a subclass of [int]. *)
Definition as_number (v : pyval) : option number :=
  match v with
  | PBool b => Some (Fin (if b then 1 else 0)%Q)
  | PInt n => Some (Fin (inject_Z n))
  | PFloat q => Some (Fin q)
  | PNaN => Some NaN
  | _ => None
  end.

(** A whole number of halves of magnitude at most 2^51.  The sum of two of
    them is a whole number of halves of magnitude at most 2^52, which a
    double holds exactly: on such operands the float addition of Python is
    the exact one (and so is its int addition, also on a 64-bit numpy
    integer). *)
Definition exact_half (q : Q) : bool :=
  ((2 * Qnum q) mod Z.pos (Qden q) =? 0)
  && (Z.abs (2 * Qnum q / Z.pos (Qden q)) <=? 2 ^ 52).

(** [a + b].  The sum of two numbers is modelled where it is exact, on
    [exact_half] operands; elsewhere Python rounds to the nearest double,
    which the rationals of the embedding do not follow, and the embedding
    stops.  Two strings or two lists concatenate in Python; no cell the
    flattener adds is one, and the embedding stops there too. *)
Definition py_add (a b : pyval) : outcome number :=
  match as_number a, as_number b with
  | Some (Fin x), Some (Fin y) =>
      if exact_half x && exact_half y then Ret (Fin (x + y)%Q) else Raise Unsupported
  | Some _, Some _ => Ret NaN
  | _, _ =>
      match a, b with
      | PStr _, PStr _ | PList _, PList _ => Raise Unsupported
      | _, _ => Raise TypeError
      end
  end.

(** [x > b] and [x < b] for a number [x]: every comparison with a NaN is
    false, and a number does not compare with a non-number. *)
Definition py_gt (x : number) (b : pyval) : outcome bool :=
  match as_number b with
  | Some y =>
      match x, y with
      | Fin p, Fin q => Ret (match (p ?= q)%Q with Gt => true | _ => false end)
      | _, _ => Ret false
      end
  | None => Raise TypeError
  end.

Definition py_lt (x : number) (b : pyval) : outcome bool :=
  match as_number b with
  | Some y =>
      match x, y with
      | Fin p, Fin q => Ret (match (p ?= q)%Q with Lt => true | _ => false end)
      | _, _ => Ret false
      end
  | None => Raise TypeError
  end.

(** [v == s] for a string literal [s] *)
Definition eq_str (v : pyval) (s : string) : bool :=
  match v with
  | PStr t => String.eqb t s
  | _ => false
  end.

Definition is_none (v : pyval) : bool :=
  match v with
  | PNone => true
  | _ => false
  end.

(** [for x in v]: what iterating a value yields *)
Definition py_iter (v : pyval) : outcome (list pyval) :=
  match v with
  | PList l => Ret l
  | PDict d => Ret (PStr <$> dict_keys d)
  | PStr s => Ret ((fun c => PStr (String c EmptyString)) <$> String.list_ascii_of_string s)
  | _ => Raise TypeError
  end.

Definition mem (s : string) (l : list string) : bool := existsb (String.eqb s) l.

(** ** Data frames *)

(** A frame keeps its column labels apart from its rows, since a frame can
    lose every row and keep its columns.  Every row carries every column. *)
Record frame := Frame { columns : list string; rows : list dict }.

Definition add_key (acc : list string) (k : string) : list string :=
  if mem k acc then acc else acc ++ [k].

(** The column labels of [pd.DataFrame(records)]: the keys of the records in
    order of first appearance. *)
Definition union_keys (records : list dict) : list string :=
  foldl (fun acc r => foldl add_key acc (dict_keys r)) [] records.

(** A key a record lacks is filled with NaN. *)
Definition cell (c : string) (r : dict) : pyval := default PNaN (dict_get c r).

Definition project (cols : list string) (r : dict) : dict :=
  (fun c => (c, cell c r)) <$> cols.

(** Column type inference of the constructor: a column holding only
    integers, floats, NaN and None becomes a float column as soon as it
    holds a float or a NaN, or a None beside an integer; its None cells
    become NaN.  Any other column (strings, booleans, lists, only None) is
    kept as objects. *)
Definition is_numeric_or_null (v : pyval) : bool :=
  match v with
  | PNone | PInt _ | PFloat _ | PNaN => true
  | _ => false
  end.

Definition is_float (v : pyval) : bool :=
  match v with
  | PFloat _ | PNaN => true
  | _ => false
  end.

Definition is_int (v : pyval) : bool :=
  match v with
  | PInt _ => true
  | _ => false
  end.

Definition float_column (vals : list pyval) : bool :=
  forallb is_numeric_or_null vals
  && (existsb is_float vals || (existsb is_none vals && existsb is_int vals)).

Definition to_float (v : pyval) : pyval :=
  match v with
  | PNone => PNaN
  | PInt n => PFloat (inject_Z n)
  | _ => v
  end.

(** [pd.DataFrame(records)] for a list of dicts *)
Definition DataFrame (records : list dict) : frame :=
  let cols := union_keys records in
  let floats :=
    List.filter (fun c => float_column ((fun r => cell c r) <$> records)) cols in
  {| columns := cols;
     rows := (fun r =>
                (fun c => (c, if mem c floats then to_float (cell c r) else cell c r))
                  <$> cols) <$> records |}.

(** A JSON array of objects as a list of dicts.  The constructor is only
    modelled on such input; any other shape ends in an exception somewhere
    on the odds path, and is cut short here. *)
Definition as_record (v : pyval) : outcome dict :=
  match v with
  | PDict d => Ret d
  | _ => Raise Unsupported
  end.

Definition as_records (v : pyval) : outcome (list dict) :=
  match v with
  | PList l => omap_list as_record l
  | _ => Raise Unsupported
  end.

(** [df[c] = values], one value per row *)
Definition set_column (c : string) (vals : list pyval) (f : frame) : frame :=
  {| columns := add_key (columns f) c;
     rows := zip_with (fun r v => dict_set c v r) (rows f) vals |}.

Definition dict_del (ks : list string) (d : dict) : dict :=
  List.filter (fun kv => negb (mem kv.1 ks)) d.

(** [df.drop(columns=ks)]: every label must exist *)
Definition drop_columns (ks : list string) (f : frame) : outcome frame :=
  match List.find (fun k => negb (mem k (columns f))) ks with
  | Some k => Raise (KeyError k)
  | None =>
      Ret {| columns := List.filter (fun c => negb (mem c ks)) (columns f);
             rows := dict_del ks <$> rows f |}
  end.

(** ** The odds flattener *)

(** [is_game_finished]: [game_data.get("Status", "") == "Final"] *)
Definition is_game_finished (game_data : dict) : bool :=
  eq_str (default (PStr "") (dict_get "Status" game_data)) "Final".

(** The loop of [compute_covered_team] over [PregameOdds]: the home spread
    of the first Consensus entry, [None] when there is none. *)
Fixpoint consensus_spread (odds : list pyval) : outcome pyval :=
  match odds with
  | [] => Ret PNone
  | PDict d :: rest =>
      let? book := dict_item "Sportsbook" d in
      if eq_str book "Consensus"
      then Ret (default PNone (dict_get "HomePointSpread" d))
      else consensus_spread rest
  | _ :: _ => Raise TypeError
  end.

Definition compute_covered_team (game_data : dict) : outcome pyval :=
  let? home_team := dict_item "HomeTeamName" game_data in
  let? away_team := dict_item "AwayTeamName" game_data in
  let? home_score := dict_item "HomeTeamScore" game_data in
  let? away_score := dict_item "AwayTeamScore" game_data in
  let? pregame := dict_item "PregameOdds" game_data in
  let? odds := py_iter pregame in
  let? home_spread := consensus_spread odds in
  if is_none home_spread || is_none home_score || is_none away_score
  then Ret (PStr "No Data")
  else
    let? adjusted_home_score := py_add home_score home_spread in
    let? above := py_gt adjusted_home_score away_score in
    if above then Ret home_team
    else
      let? below := py_lt adjusted_home_score away_score in
      if below then Ret away_team else Ret (PStr "Push").

(** The lambda of the [CoveredTeam] column *)
Definition covered_team_cell (row : dict) : outcome pyval :=
  if is_game_finished row then compute_covered_team row else Ret (PStr "Pending").

Definition columns_to_keep : list string :=
  ["Sportsbook"; "HomeMoneyLine"; "AwayMoneyLine"; "DrawMoneyLine";
   "HomePointSpread"; "AwayPointSpread"; "HomePointSpreadPayout";
   "AwayPointSpreadPayout"; "OverUnder"; "OverPayout"; "UnderPayout"; "OddType"].

Definition accepted_books : list string :=
  ["Consensus"; "DraftKings"; "FanDuel"; "PointsBet"; "BetMGM"; "Caesars"].

Definition dropped_columns : list string :=
  ["index"; "ScoreId"; "AwayTeamId"; "HomeTeamId"; "GlobalGameId";
   "GlobalAwayTeamId"; "GlobalHomeTeamId"; "PregameOdds"; "LiveOdds";
   "AlternateMarketPregameOdds"].

(** [Series.isin(accepted_books)] on one cell *)
Definition isin (v : pyval) (books : list string) : bool :=
  match v with
  | PStr s => mem s books
  | _ => false
  end.

(** The body of the [iterrows] loop: the frame of one game's quotes,
    filtered to the accepted books, cut to [columns_to_keep] and tagged with
    the game's row number. *)
Definition pregame_frame (index : Z) (pregame : pyval) : outcome frame :=
  let? entries := as_records pregame in
  let pregameOdds := DataFrame entries in
  if negb (mem "Sportsbook" (columns pregameOdds)) then Raise (KeyError "Sportsbook")
  else
    let kept :=
      List.filter (fun r => isin (cell "Sportsbook" r) accepted_books)
        (rows pregameOdds) in
    match List.find (fun c => negb (mem c (columns pregameOdds))) columns_to_keep with
    | Some c => Raise (KeyError c)
    | None =>
        Ret {| columns := (columns_to_keep ++ ["index"])%list;
               rows := (fun r => (project columns_to_keep r ++ [("index", PInt index)])%list)
                         <$> kept |}
    end.

(** [groupby('index').apply(lambda x: x.to_dict('records'))]: one list of
    records per game that kept a quote.  Up to pandas 2 the function receives
    each group with its grouping column ([include_groups = true]); from
    pandas 3 on without it.

    The code groups the frame that [pd.concat] made of all the games'
    quotes, whose columns have one type for the whole week: a column that is
    integer for one game and float for another is float for both.  The
    embedding groups each game's own frame, so the value of an entry is known
    here up to this conversion ([to_float]): what is stated about entries
    is their keys, their order, their sportsbook, and their values up to
    [to_float]. *)
Definition group_records (include_groups : bool) (f : frame) : pyval :=
  PList ((fun r => PDict (if include_groups then r else dict_del ["index"] r))
           <$> rows f).

Definition odds_groups (include_groups : bool) (frames : list (Z * frame))
  : list (Z * pyval) :=
  (fun '(i, f) => (i, group_records include_groups f))
    <$> List.filter (fun '(_, f) => negb (Nat.eqb (length (rows f)) 0)) frames.

Fixpoint lookup_group (i : Z) (grouped : list (Z * pyval)) : pyval :=
  match grouped with
  | [] => PNaN
  | (j, v) :: rest => if Z.eqb i j then v else lookup_group i rest
  end.

(** [pd.merge(week_data, grouped, on='index', how='left')].  A response that
    already has an [Odds] column would get suffixed labels, which is not
    modelled. *)
Definition merge_odds (week_data : frame) (idx : list Z) (grouped : list (Z * pyval))
  : outcome frame :=
  if mem "Odds" (columns week_data) then Raise Unsupported
  else Ret {| columns := (columns week_data ++ ["Odds"])%list;
              rows := zip_with (fun r i => (r ++ [("Odds", lookup_group i grouped)])%list)
                        (rows week_data) idx |}.

(** The 200 branch of [cache_odds_data] up to the frame it hands to
    [to_csv]. *)
Definition flatten_week (include_groups : bool) (body : pyval) : outcome frame :=
  let? records := as_records body in
  let idx := Z.of_nat <$> seq 0 (length records) in
  let week_data := set_column "index" (PInt <$> idx) (DataFrame records) in
  let? pregameOdds_list :=
    omap_list (fun '(index, row) =>
                 let? pregame := dict_item "PregameOdds" row in
                 pregame_frame index pregame)
      (zip idx (rows week_data)) in
  match pregameOdds_list with
  | [] => Raise ValueError
  | _ :: _ =>
      match odds_groups include_groups (zip idx pregameOdds_list) with
      | [] => Raise TypeError
      | ((_, first_group) :: _) as grouped =>
          let? week_data :=
            if Nat.eqb (length (rows week_data)) 1
            then Ret (set_column "Odds" [first_group] week_data)
            else merge_odds week_data idx grouped in
          let? covered := omap_list covered_team_cell (rows week_data) in
          drop_columns dropped_columns (set_column "CoveredTeam" covered week_data)
      end
  end.

(** What becomes of the game in row [index] once its [Odds] and
    [CoveredTeam] cells are known: the row [flatten_week] hands on. *)
Definition flattened_row (index : Z) (game_row : dict) (odds covered : pyval) : dict :=
  dict_del dropped_columns
    (dict_set "CoveredTeam" covered
       (dict_set "Odds" odds (dict_set "index" (PInt index) game_row))).

(** [o] is the list of records that grouping made of some game's quotes. *)
Definition group_of (include_groups : bool) (o : pyval) : Prop :=
  exists index pregame f,
    pregame_frame index pregame = Ret f /\ o = group_records include_groups f.

(** ** Calendar dates *)

Record date := Date { year : Z; month : Z; day : Z }.

Definition is_leap (y : Z) : bool :=
  (y mod 4 =? 0) && (negb (y mod 100 =? 0) || (y mod 400 =? 0)).

Definition days_before_year (y : Z) : Z :=
  let y1 := y - 1 in y1 * 365 + y1 / 4 - y1 / 100 + y1 / 400.

Definition days_in_month (y m : Z) : Z :=
  if m =? 2 then (if is_leap y then 29 else 28)
  else if (m =? 4) || (m =? 6) || (m =? 9) || (m =? 11) then 30
  else 31.

Definition days_before_month (y m : Z) : Z :=
  foldr Z.add 0 (days_in_month y <$> py_range 1 m).

(** [date.toordinal()]: 1 for 0001-01-01 *)
Definition toordinal (d : date) : Z :=
  days_before_year (year d) + days_before_month (year d) (month d) + day d.

(** [date.weekday()]: Monday is 0, Thursday is 3 *)
Definition weekday (d : date) : Z := (toordinal d + 6) mod 7.

(** [d + timedelta(days=1)] *)
Definition next_day (d : date) : date :=
  if day d <? days_in_month (year d) (month d)
  then {| year := year d; month := month d; day := day d + 1 |}
  else if month d <? 12
       then {| year := year d; month := month d + 1; day := 1 |}
       else {| year := year d + 1; month := 1; day := 1 |}.

(** The loop [while start_of_season.weekday() != 3: start_of_season +=
    timedelta(days=1)], with a bound on its iterations; [None] is a loop that
    has not ended within the bound. *)
Fixpoint advance_to_thursday (fuel : nat) (start_of_season : date) : option date :=
  match fuel with
  | O => None
  | S fuel' =>
      if negb (weekday start_of_season =? 3)
      then advance_to_thursday fuel' (next_day start_of_season)
      else Some start_of_season
  end.

(** ** The world: disk, console, network, clock *)

Inductive content :=
  | Csv (f : frame)
  | JsonDoc (v : pyval).

Record world := World {
  files : gmap string content;   (* path -> what was written there *)
  dirs : gset string;            (* the directories that exist *)
  log : list string;             (* the lines printed *)
  trace : list string            (* the URLs requested, oldest first *)
}.

(** [json] is [None] for a body that is not JSON. *)
Record response := Response { status_code : Z; json : option pyval }.

(** The collaborators of a run.  The API and the clock answer as a function
    of the requests made before; [passes_group_keys] is the behaviour of the
    installed pandas in [groupby(...).apply] (see [group_records]).  Every
    request is answered with a status; a connection that fails is not
    modelled. *)
Record env := Env {
  server : list string -> string -> response;
  clock : list string -> date;
  passes_group_keys : bool
}.

Definition M (A : Type) : Type := world -> outcome A * world.

Definition mret {A} (a : A) : M A := fun w => (Ret a, w).

Definition mraise {A} (e : exn) : M A := fun w => (Raise e, w).

Definition bind {A B} (c : M A) (k : A -> M B) : M B :=
  fun w =>
    match c w with
    | (Ret a, w') => k a w'
    | (Raise e, w') => (Raise e, w')
    end.

Definition lift {A} (o : outcome A) : M A := fun w => (o, w).

Notation "'let!' x := c 'in' k" := (bind c (fun x => k))
  (at level 10, x pattern, c at level 100, k at level 200) : py_scope.
Notation "'do!' c 'in' k" := (bind c (fun _ => k))
  (at level 10, c at level 100, k at level 200) : py_scope.

Fixpoint for_each {A} (l : list A) (body : A -> M unit) : M unit :=
  match l with
  | [] => mret tt
  | a :: l' => do! body a in for_each l' body
  end.

Definition print (line : string) : M unit :=
  fun w => (Ret tt, {| files := files w; dirs := dirs w;
                       log := (log w ++ [line])%list; trace := trace w |}).

Definition requests_get (E : env) (url : string) : M response :=
  fun w => (Ret (server E (trace w) url),
            {| files := files w; dirs := dirs w; log := log w;
               trace := (trace w ++ [url])%list |}).

Definition now (E : env) : M date := fun w => (Ret (clock E (trace w)), w).

(** [os.path.exists(path)] in a given world: a file or a directory *)
Definition exists_in (w : world) (path : string) : bool :=
  bool_decide (is_Some (files w !! path)) || bool_decide (path ∈ dirs w).

Definition path_exists (path : string) : M bool := fun w => (Ret (exists_in w path), w).

Definition makedirs (path : string) : M unit :=
  fun w => (Ret tt, {| files := files w; dirs := {[path]} ∪ dirs w;
                       log := log w; trace := trace w |}).

Definition write_file (path : string) (c : content) : M unit :=
  fun w => (Ret tt, {| files := <[path := c]> (files w); dirs := dirs w;
                       log := log w; trace := trace w |}).

(** [df.to_csv(path, index=False)] and [pd.read_csv(path)].  The CSV text is
    not modelled: a file holds the frame that was written to it. *)
Definition to_csv (path : string) (f : frame) : M unit := write_file path (Csv f).

Definition read_csv (path : string) : M frame :=
  fun w =>
    match files w !! path with
    | Some (Csv f) => (Ret f, w)
    | Some (JsonDoc _) => (Raise Unsupported, w)
    | None => (Raise (FileNotFoundError path), w)
    end.

(** [json.loads(response.text)] and [response.json()] *)
Definition json_loads (r : response) : outcome pyval :=
  match json r with
  | Some v => Ret v
  | None => Raise JSONDecodeError
  end.

Definition ensure_dir (path : string) : M unit :=
  let! there := path_exists path in
  if negb there then makedirs path else mret tt.

(** ** The season/week resolver *)

Definition key : string := "d387a5b9dd194415a38faf02fa8468ca".

Definition current_season_url : string :=
  "https://api.sportsdata.io/v3/nfl/scores/json/CurrentSeason?key=" +:+ key.

Definition current_week_url : string :=
  "https://api.sportsdata.io/v3/nfl/scores/json/CurrentWeek?key=" +:+ key.

(** The two endpoints answer with a JSON integer; the functions return what
    [response.json()] gives, and the embedding follows them on integers. *)
Definition json_int (r : response) : outcome Z :=
  let? v := json_loads r in
  match v with
  | PInt n => Ret n
  | _ => Raise Unsupported
  end.

(** The manual calculation of [fetch_current_season_year] *)
Definition fallback_season_year (today : date) : Z :=
  if 2 <=? month today then year today else year today - 1.

Definition fetch_current_season_year (E : env) : M Z :=
  let! response := requests_get E current_season_url in
  if status_code response =? 200 then lift (json_int response)
  else
    let! today := now E in
    mret (fallback_season_year today).

(** The manual calculation of [fetch_current_week]; seven rounds of the
    loop always reach a Thursday ([advance_to_thursday_total]). *)
Definition fallback_week (today_date : date) : option Z :=
  let start_of_season := {| year := year today_date; month := 9; day := 1 |} in
  start_of_season ← advance_to_thursday 7 start_of_season;
  let weeks_passed := (toordinal today_date - toordinal start_of_season) / 7 in
  Some (weeks_passed + 1).

Definition fetch_current_week (E : env) : M Z :=
  let! response := requests_get E current_week_url in
  if status_code response =? 200 then lift (json_int response)
  else
    let! today_date := now E in
    match fallback_week today_date with
    | Some week => mret week
    | None => mraise Unsupported
    end.

(** ** The cache writers *)

Section Writers.

(** The module constants [THIS_YEAR] and [THIS_WEEK]: bound once when the
    module is loaded and only read afterwards. *)
Variable E : env.
Variables THIS_YEAR THIS_WEEK : Z.

Definition odds_week_range (season : string) : list Z :=
  if str_in "PRE" season then py_range 0 4
  else if str_in "POST" season then py_range 1 5
  else if str_in (str_int THIS_YEAR) season then py_range 1 (THIS_WEEK + 1)
  else py_range 1 18.

Definition scores_week_range (season : string) : list Z :=
  if str_in "PRE" season then py_range 0 4
  else if str_in "POST" season then py_range 1 5
  else if str_in (str_int THIS_YEAR) season then py_range 1 THIS_WEEK
  else py_range 1 18.

Definition odds_url (season : string) (week : Z) : string :=
  "https://api.sportsdata.io/v3/nfl/odds/json/GameOddsByWeek/" +:+ season +:+ "/"
  +:+ str_int week +:+ "?key=" +:+ key.

Definition scores_url (season : string) (week : Z) : string :=
  "https://api.sportsdata.io/v3/nfl/scores/json/ScoresByWeek/" +:+ season +:+ "/"
  +:+ str_int week +:+ "?key=" +:+ key.

Definition schedule_url (season : string) : string :=
  "https://api.sportsdata.io/v3/nfl/scores/json/Schedules/" +:+ season +:+ "?key=" +:+ key.

Definition odds_file (season : string) (week : Z) : string :=
  "odds_data/" +:+ season +:+ "_" +:+ str_int week +:+ ".csv".

Definition current_week_file : string := "odds_data/current_week.csv".

Definition scores_file (season : string) (week : Z) : string :=
  "scores_data/" +:+ season +:+ "_" +:+ str_int week +:+ ".csv".

Definition schedule_file (season : string) : string :=
  "schedule_data/" +:+ season +:+ ".csv".

Definition odds_failure (season : string) (week status : Z) : string :=
  "Failed to fetch odds data for Week " +:+ str_int week +:+ " of Season " +:+ season
  +:+ ". Status Code: " +:+ str_int status.

Definition scores_failure (season : string) (week status : Z) : string :=
  "Failed to fetch scores data for Week " +:+ str_int week +:+ " of Season " +:+ season
  +:+ ". Status Code: " +:+ str_int status.

Definition schedule_failure (season : string) (status : Z) : string :=
  "Failed to fetch schedule data for Season " +:+ season +:+ ". Status Code: "
  +:+ str_int status.

(** One round of the loop of [cache_odds_data] *)
Definition odds_week (season : string) (current_week : Z) : M unit :=
  let! response := requests_get E (odds_url season current_week) in
  if status_code response =? 200 then
    let! body := lift (json_loads response) in
    let! week_data := lift (flatten_week (passes_group_keys E) body) in
    if negb (THIS_WEEK =? current_week)
    then to_csv (odds_file season current_week) week_data
    else to_csv current_week_file week_data
  else print (odds_failure season current_week (status_code response)).

Definition cache_odds_data (season : string) : M unit :=
  do! ensure_dir "odds_data" in
  for_each (odds_week_range season) (odds_week season).

(** [pd.DataFrame(json.loads(response.text))] for scores and schedules *)
Definition response_frame (r : response) : outcome frame :=
  let? body := json_loads r in
  let? records := as_records body in
  Ret (DataFrame records).

(** One round of the loop of [cache_scores_data] *)
Definition scores_week (season : string) (current_week : Z) : M unit :=
  let! response := requests_get E (scores_url season current_week) in
  if status_code response =? 200 then
    let! week_data := lift (response_frame response) in
    to_csv (scores_file season current_week) week_data
  else print (scores_failure season current_week (status_code response)).

Definition cache_scores_data (season : string) : M unit :=
  do! ensure_dir "scores_data" in
  for_each (scores_week_range season) (scores_week season).

Definition cache_schedule_data (season : string) : M unit :=
  do! ensure_dir "schedule_data" in
  let! response := requests_get E (schedule_url season) in
  if status_code response =? 200 then
    let! schedule_data := lift (response_frame response) in
    to_csv (schedule_file season) schedule_data
  else print (schedule_failure season (status_code response)).

(** ** The backfill orchestrator *)

Definition seasons_to_cache : list string := ["2023PRE"; "2022POST"; "2022REG"; "2022PRE"].

Definition backfill_week_range (season : string) : list Z :=
  if str_in "PRE" season then py_range 0 4
  else if str_in "POST" season then py_range 1 5
  else py_range 1 18.

Definition backfill_schedule (season : string) : M unit :=
  let! there := path_exists (schedule_file season) in
  if negb there then
    do! print ("Caching schedule data for " +:+ season) in
    do! cache_schedule_data season in
    print ("Done. Schedule data cached for " +:+ season)
  else mret tt.

Definition backfill_odds_week (season : string) (week : Z) : M unit :=
  let! there := path_exists (odds_file season week) in
  if negb there then
    do! print ("Caching odds data for " +:+ season +:+ " Week " +:+ str_int week) in
    do! cache_odds_data season in
    print ("Done. Odds data cached for " +:+ season +:+ " Week " +:+ str_int week)
  else mret tt.

Definition backfill_scores_week (season : string) (week : Z) : M unit :=
  let! there := path_exists (scores_file season week) in
  if negb there then
    do! print ("Caching scores data for " +:+ season +:+ " Week " +:+ str_int week) in
    do! cache_scores_data season in
    print ("Done. Scores data cached for " +:+ season +:+ " Week " +:+ str_int week)
  else mret tt.

(** The body of the loop over [seasons_to_cache] *)
Definition backfill_season (season : string) : M unit :=
  do! backfill_schedule season in
  let week_range := backfill_week_range season in
  do! for_each week_range (backfill_odds_week season) in
  for_each week_range (backfill_scores_week season).

Definition cache_old_data : M unit := for_each seasons_to_cache backfill_season.

(** ** The ATS summary builder *)

Definition ats_file : string := "ats_data/ATS_last_10_weeks.json".

Definition ats_columns : list string := ["HomeTeamName"; "AwayTeamName"; "CoveredTeam"].

(** [df[cols].to_dict(orient='records')] *)
Definition select_records (cols : list string) (f : frame) : outcome (list dict) :=
  match List.find (fun c => negb (mem c (columns f))) cols with
  | Some c => Raise (KeyError c)
  | None => Ret (project cols <$> rows f)
  end.

Definition week_group (season_type : string) (week : Z) (results : list dict) : pyval :=
  PDict [("season_type", PStr season_type); ("week", PInt week);
         ("results", PList (PDict <$> results))].

(** The [for week in range(end_week, start_week - 1, -1)] loop, given the
    weeks still to visit; it returns the updated [weeks_needed] and
    [weeks_data]. *)
Fixpoint ats_walk (current_season_type : string) (weeks : list Z)
    (weeks_needed : Z) (weeks_data : list pyval) : M (Z * list pyval) :=
  match weeks with
  | [] => mret (weeks_needed, weeks_data)
  | week :: rest =>
      let filename := odds_file current_season_type week in
      let! there := path_exists filename in
      if negb there && negb (THIS_WEEK =? week)
      then ats_walk current_season_type rest weeks_needed weeks_data
      else
        let! week_data := read_csv (if there then filename else current_week_file) in
        let! week_results := lift (select_records ats_columns week_data) in
        let weeks_data := weeks_data ++ [week_group current_season_type week week_results] in
        let weeks_needed := weeks_needed - 1 in
        if weeks_needed =? 0 then mret (weeks_needed, weeks_data)
        else ats_walk current_season_type rest weeks_needed weeks_data
  end.

(** The [while weeks_needed > 0] loop.  [fuel] bounds its rounds: the loop
    need not end for a season type that is neither REG nor PRE, and [None]
    is a run that used up the bound. *)
Fixpoint ats_loop (fuel : nat) (season_year : Z) (current_season_type : string)
    (end_week start_week weeks_needed : Z) (weeks_data : list pyval)
  : M (option (list pyval)) :=
  if 0 <? weeks_needed then
    match fuel with
    | O => mret None
    | S fuel' =>
        let! (weeks_needed, weeks_data) :=
          ats_walk current_season_type (py_range_down end_week (start_week - 1))
            weeks_needed weeks_data in
        if 0 <? weeks_needed then
          if endswith current_season_type "REG" then
            let current_season_type := str_int season_year +:+ "PRE" in
            let end_week := 3 in
            ats_loop fuel' season_year current_season_type end_week
              (end_week - weeks_needed + 1) weeks_needed weeks_data
          else if endswith current_season_type "PRE" then
            let weeks_needed := 0 in
            ats_loop fuel' season_year current_season_type end_week
              (end_week - weeks_needed + 1) weeks_needed weeks_data
          else
            ats_loop fuel' season_year current_season_type end_week
              (end_week - weeks_needed + 1) weeks_needed weeks_data
        else
          ats_loop fuel' season_year current_season_type end_week start_week
            weeks_needed weeks_data
    end
  else mret (Some weeks_data).

Definition cache_ats_data (fuel : nat) (current_season_type : string) (season_year : Z)
  : M (option unit) :=
  do! ensure_dir "ats_data" in
  let weeks_needed := 10 in
  let weeks_data := [] in
  let! end_week := fetch_current_week E in
  let start_week := end_week - weeks_needed + 1 in
  let! walked :=
    ats_loop fuel season_year current_season_type end_week start_week
      weeks_needed weeks_data in
  match walked with
  | None => mret None
  | Some weeks_data =>
      do! write_file ats_file (JsonDoc (PList weeks_data)) in
      mret (Some tt)
  end.

(** The [__main__] block, after the module constants are bound *)
Definition main_block (fuel : nat) : M (option unit) :=
  let! season_year := fetch_current_season_year E in
  do! cache_old_data in
  let season_type_reg := str_int season_year +:+ "REG" in
  do! print "Caching schedule data for regular season" in
  do! cache_schedule_data season_type_reg in
  do! print "Done. Caching odds data for regular season" in
  do! cache_odds_data season_type_reg in
  do! print "Done. Caching scores data for regular season" in
  do! cache_scores_data season_type_reg in
  do! print "Done. Caching ATS data." in
  let! finished := cache_ats_data fuel season_type_reg season_year in
  match finished with
  | None => mret None
  | Some _ =>
      do! print "Done. Finished." in
      mret (Some tt)
  end.

End Writers.

(** Running the file as a script: the module body binds [THIS_YEAR] and
    [THIS_WEEK], then the [__main__] block runs. *)
Definition script (E : env) (fuel : nat) : M (option unit) :=
  let! THIS_YEAR := fetch_current_season_year E in
  let! THIS_WEEK := fetch_current_week E in
  main_block E THIS_YEAR THIS_WEEK fuel.

(** ** The resolver's fallback as the specification words it *)

(** The first Thursday of September of year [y]: the one day among the
    first seven whose weekday is Thursday. *)
Definition first_thursday_of_september (y : Z) : date :=
  match List.find (fun d => weekday (Date y 9 d) =? 3) (py_range 1 8) with
  | Some d => Date y 9 d
  | None => Date y 9 1
  end.

(** "The number of complete 7-day periods elapsed since the first Thursday
    of September of the resolved year, plus one", the resolved year being
    [fallback_season_year]. *)
Definition spec_fallback_week (today : date) : Z :=
  (toordinal today - toordinal (first_thursday_of_september (fallback_season_year today))) / 7
  + 1.

(** ** Vocabulary of the statements *)

(** The world after a request that was answered with a failure status:
    one more URL in the trace, one more line on the console, the disk as it
    was. *)
Definition after_failure (w : world) (url line : string) : world :=
  {| files := files w; dirs := dirs w; log := log w ++ [line]; trace := trace w ++ [url] |}.

Definition is_resolver_url (url : string) : bool :=
  String.eqb url current_season_url || String.eqb url current_week_url.

(** The requests to the two resolver endpoints among [urls], in order. *)
Definition resolver_requests (urls : list string) : list string :=
  List.filter is_resolver_url urls.

(** The (season type, week) labels of an ATS document, in order. *)
Definition group_key (g : pyval) : option (string * Z) :=
  match g with
  | PDict d =>
      match dict_get "season_type" d, dict_get "week" d with
      | Some (PStr season_type), Some (PInt week) => Some (season_type, week)
      | _, _ => None
      end
  | _ => None
  end.

Definition group_keys (doc : content) : list (string * Z) :=
  match doc with
  | JsonDoc (PList groups) => omap group_key groups
  | _ => []
  end.

(** [path] holds a frame with the three columns the ATS builder reads. *)
Definition has_results (w : world) (path : string) : bool :=
  match files w !! path with
  | Some (Csv f) => forallb (fun c => mem c (columns f)) ats_columns
  | _ => false
  end.

(** A decimal digit, and a string of exactly four of them: the year of a
    SeasonId. *)
Definition is_digit (c : Ascii.ascii) : bool :=
  Ascii.leb "0"%char c && Ascii.leb c "9"%char.

Definition four_digits (s : string) : bool :=
  match s with
  | String a (String b (String c (String d EmptyString))) =>
      is_digit a && is_digit b && is_digit c && is_digit d
  | _ => false
  end.

(** [c] sends, in every world, requests whose resolver requests are a prefix
    of [expected], and all of [expected] when it returns. *)
Definition asks {A} (c : M A) (expected : list string) : Prop :=
  forall w, exists urls (k : nat),
    trace (snd (c w)) = trace w ++ urls
    /\ resolver_requests urls = take k expected
    /\ forall a, fst (c w) = Ret a -> resolver_requests urls = expected.

(** A quote of a sportsbook other than Consensus: a dict whose [Sportsbook]
    is present and is not the string "Consensus". *)
Definition is_other_book (v : pyval) : bool :=
  match v with
  | PDict d =>
      match dict_get "Sportsbook" d with
      | Some book => negb (eq_str book "Consensus")
      | None => false
      end
  | _ => false
  end.

(** The keys [compute_covered_team] subscripts, in the order it reads them. *)
Definition required_keys : list string :=
  ["HomeTeamName"; "AwayTeamName"; "HomeTeamScore"; "AwayTeamScore"; "PregameOdds"].

Definition lacks (d : dict) (k : string) : bool :=
  match dict_get k d with
  | Some _ => false
  | None => true
  end.

(** A quote the flattener keeps: a record whose [Sportsbook] is one of the
    accepted books. *)
Definition accepted_quote (v : pyval) : bool :=
  match v with
  | PDict d => isin (cell "Sportsbook" d) accepted_books
  | _ => false
  end.

(** [entry] is the record that the flattener keeps of the quote [quote]: its
    keys are those of [columns_to_keep], in order, followed by [index] when
    the grouping column is handed on; its sportsbook is the quote's; and each
    of its values is the quote's (NaN for a key the quote lacks), as it is
    or as a float. *)
Definition entry_of_quote (include_groups : bool) (quote entry : pyval) : Prop :=
  exists q e,
    quote = PDict q /\ entry = PDict e
    /\ dict_keys e = columns_to_keep ++ (if include_groups then ["index"] else [])
    /\ dict_get "Sportsbook" e = Some (cell "Sportsbook" q)
    /\ forall c, c ∈ columns_to_keep ->
         dict_get c e = Some (cell c q) \/ dict_get c e = Some (to_float (cell c q)).

(** [c] requests the weeks [weeks] through [url], in this order and nothing
    else: in every world the run sends the requests of the first weeks of
    the list, at least the first one, and of all of them when it returns. *)
Definition requests_weeks {A} (c : M A) (url : Z -> string) (weeks : list Z) : Prop :=
  forall w,
    (exists k : nat,
       trace (snd (c w)) = trace w ++ (url <$> take k weeks)
       /\ (weeks <> [] -> (0 < k)%nat))
    /\ (forall a, fst (c w) = Ret a -> trace (snd (c w)) = trace w ++ (url <$> weeks)).

(** [path] holds a frame. *)
Definition holds_frame (w : world) (path : string) : bool :=
  match files w !! path with
  | Some (Csv _) => true
  | _ => false
  end.

(** The season type of every group of an ATS document is one of [types]. *)
Definition group_types_among (types : list string) (groups : list pyval) : Prop :=
  Forall (fun g => exists season_type week,
                     group_key g = Some (season_type, week) /\ season_type ∈ types)
    groups.

(** ** Sample data *)

Definition sample_quote (book : string) (home_spread : pyval) : pyval :=
  PDict [("Sportsbook", PStr book); ("HomeMoneyLine", PInt (-150));
         ("AwayMoneyLine", PInt 130); ("DrawMoneyLine", PNone);
         ("HomePointSpread", home_spread); ("AwayPointSpread", PFloat (7 # 2));
         ("HomePointSpreadPayout", PInt (-110)); ("AwayPointSpreadPayout", PInt (-110));
         ("OverUnder", PFloat (89 # 2)); ("OverPayout", PInt (-110));
         ("UnderPayout", PInt (-110)); ("OddType", PStr "pregame");
         ("SportsbookUrl", PNone)].

Definition sample_game (home away : string) (status home_score away_score : pyval)
    (odds : list pyval) : dict :=
  [("ScoreId", PInt 18000); ("Status", status);
   ("AwayTeamId", PInt 1); ("HomeTeamId", PInt 2);
   ("AwayTeamName", PStr away); ("HomeTeamName", PStr home);
   ("GlobalGameId", PInt 18000); ("GlobalAwayTeamId", PInt 1);
   ("GlobalHomeTeamId", PInt 2);
   ("AwayTeamScore", away_score); ("HomeTeamScore", home_score);
   ("PregameOdds", PList odds); ("LiveOdds", PList []);
   ("AlternateMarketPregameOdds", PList [])].

(** The scenario of the specification: home 20, away 17, Consensus home
    spread -3.5, final. *)
Definition game_kc_det : dict :=
  sample_game "KC" "DET" (PStr "Final") (PInt 20) (PInt 17)
    [sample_quote "Bovada" (PFloat (-3)); sample_quote "Consensus" (PFloat (-7 # 2))].

(** A final game whose home score is null, with a Consensus spread. *)
Definition game_nyj_buf : dict :=
  sample_game "NYJ" "BUF" (PStr "Final") PNone (PInt 16)
    [sample_quote "Consensus" (PFloat (5 # 2)); sample_quote "FanDuel" (PFloat 3)].

(** A game that went to overtime. *)
Definition game_sf_ari : dict :=
  sample_game "SF" "ARI" (PStr "F/OT") (PInt 27) (PInt 24)
    [sample_quote "Consensus" (PFloat (-6)); sample_quote "DraftKings" (PFloat (-6))].

Definition week_one_game : pyval := PList [PDict game_kc_det].

Definition week_two_games : pyval := PList [PDict game_kc_det; PDict game_nyj_buf].

Definition week_three_games : pyval :=
  PList [PDict game_kc_det; PDict game_sf_ari; PDict game_nyj_buf].

Definition empty_world : world := {| files := ∅; dirs := ∅; log := []; trace := [] |}.

(** An API that is down: every request is answered 500. *)
Definition env_down (today : date) : env :=
  {| server := fun _ _ => {| status_code := 500; json := None |};
     clock := fun _ => today;
     passes_group_keys := true |}.

(** An API that answers the odds endpoint with [week_one_game] and
    everything else with 404. *)
Definition env_odds_only (today : date) : env :=
  {| server := fun _ url =>
       if str_in "GameOddsByWeek" url
       then {| status_code := 200; json := Some week_one_game |}
       else {| status_code := 404; json := None |};
     clock := fun _ => today;
     passes_group_keys := true |}.

(** An API whose current-week endpoint says 2 the first time it is asked
    and 1 afterwards; the season is 2023, odds are served, the rest is 404. *)
Definition env_week_changes : env :=
  {| server := fun history url =>
       if String.eqb url current_week_url
       then {| status_code := 200;
               json := Some (PInt (if existsb (String.eqb current_week_url) history
                                   then 1 else 2)) |}
       else if String.eqb url current_season_url
       then {| status_code := 200; json := Some (PInt 2023) |}
       else if str_in "GameOddsByWeek" url
       then {| status_code := 200; json := Some week_one_game |}
       else {| status_code := 404; json := None |};
     clock := fun _ => Date 2023 9 14;
     passes_group_keys := true |}.

Definition sample_odds_frame : frame :=
  {| columns := ["HomeTeamName"; "AwayTeamName"; "CoveredTeam"];
     rows := [[("HomeTeamName", PStr "KC"); ("AwayTeamName", PStr "DET");
               ("CoveredTeam", PStr "DET")]] |}.

Definition with_files (paths : list string) (c : content) (w : world) : world :=
  {| files := foldr (fun path m => <[path := c]> m) (files w) paths;
     dirs := dirs w; log := log w; trace := trace w |}.

(** Every file the backfill looks for is on disk. *)
Definition fully_cached (w : world) : bool :=
  forallb (fun season =>
             exists_in w (schedule_file season)
             && forallb (fun week =>
                           exists_in w (odds_file season week)
                           && exists_in w (scores_file season week))
                  (backfill_week_range season))
    seasons_to_cache.

Definition backfill_targets : list string :=
  season ← seasons_to_cache;
  schedule_file season
    :: ((week ← backfill_week_range season;
         [odds_file season week; scores_file season week])).

Definition cached_world : world :=
  with_files backfill_targets (Csv sample_odds_frame) empty_world.

(** An API whose current week is 2; everything else is answered 404. *)
Definition env_week_two : env :=
  {| server := fun _ url =>
       if String.eqb url current_week_url
       then {| status_code := 200; json := Some (PInt 2) |}
       else {| status_code := 404; json := None |};
     clock := fun _ => Date 2023 9 14;
     passes_group_keys := true |}.

(** The odds cache of a season in its second week, as the writers leave it,
    with the three last preseason weeks. *)
Definition ats_cache_five : world :=
  with_files
    [odds_file "2023REG" 1; current_week_file;
     odds_file "2023PRE" 3; odds_file "2023PRE" 2; odds_file "2023PRE" 1]
    (Csv sample_odds_frame) empty_world.

(** The same cache with a dated file for week 2 and the preseason week 0. *)
Definition ats_cache_full : world :=
  with_files [odds_file "2023REG" 2; odds_file "2023PRE" 0] (Csv sample_odds_frame)
    ats_cache_five.

(** The frame a week flattens to (an empty frame if flattening raises), and
    the flattened sample weeks, computed once. *)
Definition flattened (body : pyval) : frame :=
  match flatten_week true body with
  | Ret fr => fr
  | Raise _ => {| columns := []; rows := [] |}
  end.

Definition flattened_one : frame := Eval vm_compute in flattened week_one_game.

Definition flattened_one_row : dict :=
  Eval vm_compute in match rows flattened_one with r :: _ => r | [] => [] end.

Definition flattened_one_quotes : list pyval :=
  Eval vm_compute in
    match dict_get "Odds" flattened_one_row with Some (PList l) => l | _ => [] end.

Definition flattened_one_quote : pyval :=
  Eval vm_compute in match flattened_one_quotes with v :: _ => v | [] => PNone end.

Definition flattened_three : frame := Eval vm_compute in flattened week_three_games.

(** An API that answers every request with 200 and an empty JSON array. *)
Definition env_empty_weeks : env :=
  {| server := fun _ _ => {| status_code := 200; json := Some (PList []) |};
     clock := fun _ => Date 2023 9 20;
     passes_group_keys := true |}.

(** An API whose current week is [week]; everything else is answered 404. *)
Definition env_at_week (week : Z) : env :=
  {| server := fun _ url =>
       if String.eqb url current_week_url
       then {| status_code := 200; json := Some (PInt week) |}
       else {| status_code := 404; json := None |};
     clock := fun _ => Date 2023 11 23;
     passes_group_keys := true |}.

(** The odds cache of a season in its twelfth week: eleven dated files and
    the current-week slot. *)
Definition ats_cache_twelve : world :=
  with_files (current_week_file :: (odds_file "2023REG" <$> py_range 1 12))
    (Csv sample_odds_frame) empty_world.

(** * Properties *)

(** ** Outcomes and lists *)

Lemma obind_Ret {A B} (o : outcome A) (k : A -> outcome B) b :
  obind o k = Ret b -> exists a, o = Ret a /\ k a = Ret b.
Proof. destruct o as [a|e]; cbn; [eauto | discriminate]. Qed.

Lemma omap_list_Forall2 {A B} (f : A -> outcome B) l bs :
  omap_list f l = Ret bs -> Forall2 (fun a b => f a = Ret b) l bs.
Proof.
  revert bs. induction l as [|a l IH]; cbn; intros bs H.
  - injection H as <-. constructor.
  - apply obind_Ret in H as (b & Hb & H).
    apply obind_Ret in H as (bs' & Hbs & H).
    injection H as <-. constructor; auto.
Qed.

(** ** Dictionaries *)

Lemma mem_true s l : mem s l = true <-> s ∈ l.
Proof.
  unfold mem. rewrite existsb_exists. split.
  - intros (x & Hx & Heq). apply String.eqb_eq in Heq as ->. by apply list_elem_of_In.
  - intros H. exists s. split; [by apply list_elem_of_In | apply String.eqb_refl].
Qed.

Lemma mem_false s l : mem s l = false <-> s ∉ l.
Proof. rewrite <- mem_true. destruct (mem s l); split; congruence. Qed.

Lemma dict_get_set_eq k v d : dict_get k (dict_set k v d) = Some v.
Proof.
  induction d as [|[k' v'] d IH]; cbn.
  - by rewrite String.eqb_refl.
  - destruct (String.eqb k' k) eqn:Hk; cbn; rewrite Hk; auto.
Qed.

Lemma dict_get_set_ne k k' v d : k <> k' -> dict_get k (dict_set k' v d) = dict_get k d.
Proof.
  intros Hne. induction d as [|[k0 v0] d IH]; cbn.
  - destruct (String.eqb_spec k' k); congruence.
  - destruct (String.eqb_spec k0 k'); cbn; destruct (String.eqb_spec k0 k); congruence.
Qed.

Lemma dict_get_app k d1 d2 :
  dict_get k (d1 ++ d2) = match dict_get k d1 with Some v => Some v | None => dict_get k d2 end.
Proof. induction d1 as [|[k' v'] d1 IH]; cbn; [done|]. by destruct (String.eqb k' k). Qed.

Lemma dict_set_absent k v d : dict_get k d = None -> dict_set k v d = d ++ [(k, v)].
Proof.
  induction d as [|[k' v'] d IH]; cbn; [done|].
  destruct (String.eqb k' k); [discriminate|]. intros H. by rewrite IH.
Qed.

Lemma dict_get_del k ks d :
  dict_get k (dict_del ks d) = if mem k ks then None else dict_get k d.
Proof.
  unfold dict_del. induction d as [|[k' v'] d IH]; cbn.
  - by destruct (mem k ks).
  - destruct (mem k' ks) eqn:Hm; cbn.
    + rewrite IH. destruct (String.eqb_spec k' k) as [->|]; [by rewrite Hm | done].
    + destruct (String.eqb_spec k' k) as [->|]; [by rewrite Hm | done].
Qed.

Lemma dict_get_tabulate k (g : string -> pyval) cols :
  dict_get k ((fun c => (c, g c)) <$> cols) = if mem k cols then Some (g k) else None.
Proof.
  induction cols as [|c cols IH]; cbn; [done|].
  rewrite String.eqb_sym.
  destruct (String.eqb_spec k c) as [->|]; cbn; [done | apply IH].
Qed.

Lemma dict_keys_tabulate (g : string -> pyval) cols :
  dict_keys ((fun c => (c, g c)) <$> cols) = cols.
Proof. unfold dict_keys. rewrite <- list_fmap_compose. apply list_fmap_id. Qed.

Lemma dict_get_project k cols r :
  dict_get k (project cols r) = if mem k cols then Some (cell k r) else None.
Proof. apply dict_get_tabulate. Qed.

Lemma dict_keys_project cols r : dict_keys (project cols r) = cols.
Proof. apply dict_keys_tabulate. Qed.

Lemma dict_keys_del_last cols r k v :
  k ∉ cols -> dict_del [k] (project cols r ++ [(k, v)]) = project cols r.
Proof.
  intros Hk. unfold dict_del, project. rewrite List.filter_app. cbn.
  rewrite String.eqb_refl. cbn. rewrite app_nil_r.
  induction cols as [|c cols IH]; cbn; [done|].
  apply not_elem_of_cons in Hk as [Hne Hk].
  destruct (String.eqb_spec c k); [congruence|]. cbn. by rewrite IH.
Qed.

(** ** Frames *)

Lemma DataFrame_rows_keys records r :
  r ∈ rows (DataFrame records) -> dict_keys r = columns (DataFrame records).
Proof.
  unfold DataFrame. cbn [rows columns]. intros Hr.
  apply list_elem_of_fmap in Hr as (r' & -> & _). apply dict_keys_tabulate.
Qed.

Lemma dict_get_None_keys k d : dict_get k d = None <-> k ∉ dict_keys d.
Proof.
  unfold dict_keys. induction d as [|[k' v'] d IH]; cbn.
  - split; [intros _; apply not_elem_of_nil | done].
  - rewrite not_elem_of_cons, <- IH.
    destruct (String.eqb_spec k' k) as [->|]; split; try done; intros []; congruence.
Qed.

Lemma mem_add_key k acc c : mem k (add_key acc c) = false -> mem k acc = false.
Proof.
  unfold add_key. destruct (mem c acc); [done|].
  rewrite !mem_false. intros H Hin. apply H. apply elem_of_app. by left.
Qed.

Lemma lookup_group_cases i grouped :
  lookup_group i grouped = PNaN \/ exists j, (j, lookup_group i grouped) ∈ grouped.
Proof.
  induction grouped as [|[j v] grouped IH]; cbn; [by left|].
  destruct (Z.eqb i j).
  - right. exists j. apply elem_of_cons. by left.
  - destruct IH as [->|[j' Hj]]; [by left|]. right. exists j'. apply elem_of_cons. by right.
Qed.

Lemma odds_groups_elem ig frames j v :
  (j, v) ∈ odds_groups ig frames -> exists f, (j, f) ∈ frames /\ v = group_records ig f.
Proof.
  unfold odds_groups. intros H.
  apply list_elem_of_fmap in H as ([i f] & Heq & Hin). injection Heq as -> ->.
  apply list_elem_of_In, List.filter_In in Hin as [Hin _].
  exists f. split; [by apply list_elem_of_In | done].
Qed.

Lemma pregame_frames_elem idx (week_rows : list dict) frames j f :
  omap_list (fun '(index, row) =>
               let? pregame := dict_item "PregameOdds" row in
               pregame_frame index pregame) (zip idx week_rows) = Ret frames ->
  (j, f) ∈ zip idx frames ->
  exists index pregame, pregame_frame index pregame = Ret f.
Proof.
  intros H Hin. apply omap_list_Forall2 in H.
  apply list_elem_of_lookup in Hin as [i Hi].
  apply lookup_zip_with_Some in Hi as (j' & f' & Heq & _ & Hf). injection Heq as <- <-.
  eapply Forall2_lookup_r in H as ([index row] & _ & Hrow); [|exact Hf].
  cbn in Hrow. apply obind_Ret in Hrow as (pregame & _ & Hrow). eauto.
Qed.

(** ** The flattened week *)

Lemma drop_columns_rows ks f f' :
  drop_columns ks f = Ret f' -> rows f' = dict_del ks <$> rows f.
Proof.
  unfold drop_columns. destruct (List.find _ ks); [discriminate|].
  intros H. by injection H as <-.
Qed.

(** The rows of the week frame once the [Odds] column is attached. *)
Lemma attach_odds_rows ig (week_data week_data' : frame) idx frames week_rows grouped first :
  (forall r, r ∈ rows week_data -> mem "Odds" (columns week_data) = false ->
             dict_get "Odds" r = None) ->
  length idx = length (rows week_data) ->
  omap_list (fun '(index, row) =>
               let? pregame := dict_item "PregameOdds" row in
               pregame_frame index pregame) (zip idx week_rows) = Ret frames ->
  odds_groups ig (zip idx frames) = first :: grouped ->
  (if Nat.eqb (length (rows week_data)) 1
   then Ret (set_column "Odds" [first.2] week_data)
   else merge_odds week_data idx (first :: grouped)) = Ret week_data' ->
  exists odds,
    rows week_data' = zip_with (fun r o => dict_set "Odds" o r) (rows week_data) odds
    /\ length odds = length (rows week_data)
    /\ Forall (fun o => o = PNaN \/ group_of ig o) odds.
Proof.
  intros Habsent Hlen Hframes Hgroups Hattach.
  assert (Hin : forall j v, (j, v) ∈ first :: grouped -> group_of ig v).
  { intros j v Hjv. rewrite <- Hgroups in Hjv.
    apply odds_groups_elem in Hjv as (f & Hf & ->).
    eapply pregame_frames_elem in Hf as (index & pregame & Hf); [|exact Hframes].
    by exists index, pregame, f. }
  destruct (Nat.eqb_spec (length (rows week_data)) 1) as [Hone|Hmany].
  - injection Hattach as <-. exists [first.2]. cbn [rows set_column].
    split; [done|]. split; [by rewrite Hone|].
    constructor; [|constructor]. right. apply (Hin first.1). destruct first. cbn. left.
  - unfold merge_odds in Hattach.
    destruct (mem "Odds" (columns week_data)) eqn:Hm; [discriminate|].
    injection Hattach as <-. cbn [rows].
    exists ((fun i => lookup_group i (first :: grouped)) <$> idx).
    split; [|split].
    + rewrite zip_with_fmap_r.
      apply Forall_zip_with_ext_l; [|done].
      apply Forall_forall. intros r Hr i.
      symmetry. apply dict_set_absent. by apply Habsent.
    + by rewrite length_fmap.
    + apply Forall_fmap, Forall_forall. intros i _. cbn.
      destruct (lookup_group_cases i (first :: grouped)) as [Heq|[j Hj]]; [by left|].
      right. by apply (Hin j).
Qed.

Lemma week_rows_lookup records (i : nat) r0 :
  rows (DataFrame records) !! i = Some r0 ->
  rows (set_column "index" (PInt <$> (Z.of_nat <$> seq 0 (length records)))
          (DataFrame records)) !! i
  = Some (dict_set "index" (PInt (Z.of_nat i)) r0).
Proof.
  intros Hr. cbn [rows set_column].
  rewrite lookup_zip_with, Hr. cbn.
  assert (Hi : (i < length records)%nat).
  { apply lookup_lt_Some in Hr. unfold DataFrame in Hr. cbn [rows] in Hr.
    by rewrite length_fmap in Hr. }
  rewrite !list_lookup_fmap, lookup_seq_lt by done. done.
Qed.

Lemma week_rows_length records :
  length (rows (set_column "index" (PInt <$> (Z.of_nat <$> seq 0 (length records)))
                  (DataFrame records))) = length records.
Proof.
  cbn [rows set_column]. rewrite length_zip_with, !length_fmap, length_seq.
  unfold DataFrame. cbn [rows]. rewrite length_fmap. lia.
Qed.

(** The rows of a flattened week, one per game and in the order of the
    response: each is the game's row of the constructor with its [Odds] and
    [CoveredTeam] cells set and the internal columns dropped. *)
Lemma flatten_week_rows ig body records fr :
  as_records body = Ret records ->
  flatten_week ig body = Ret fr ->
  length (rows fr) = length records
  /\ forall (i : nat) r0,
       rows (DataFrame records) !! i = Some r0 ->
       exists o c,
         rows fr !! i = Some (flattened_row (Z.of_nat i) r0 o c)
         /\ covered_team_cell (dict_set "Odds" o (dict_set "index" (PInt (Z.of_nat i)) r0)) = Ret c
         /\ (o = PNaN \/ group_of ig o).
Proof.
  intros Hrec Hflat. unfold flatten_week in Hflat. rewrite Hrec in Hflat.
  cbn [obind] in Hflat.
  set (idx := Z.of_nat <$> seq 0 (length records)) in *.
  set (week_data := set_column "index" (PInt <$> idx) (DataFrame records)) in *.
  apply obind_Ret in Hflat as (frames & Hframes & Hflat).
  destruct frames as [|f0 frames0]; [discriminate|].
  destruct (odds_groups ig (zip idx (f0 :: frames0))) as [|[j first] grouped] eqn:Hgroups;
    [discriminate|].
  apply obind_Ret in Hflat as (week_data' & Hattach & Hflat).
  apply obind_Ret in Hflat as (covered & Hcovered & Hdrop).
  apply drop_columns_rows in Hdrop. cbn [rows set_column] in Hdrop.
  eapply (attach_odds_rows ig week_data week_data' idx _ _ grouped (j, first))
    in Hattach as (odds & Hrows & Hlen & Hodds); cycle 1.
  { intros r Hr Hm. subst week_data. cbn [rows columns set_column] in *.
    apply elem_of_lookup_zip_with_1 in Hr as (i & r0 & v & -> & Hr0 & _).
    apply mem_add_key in Hm.
    rewrite dict_get_set_ne by done.
    apply dict_get_None_keys.
    rewrite (DataFrame_rows_keys records) by (eapply list_elem_of_lookup_2; eauto).
    by apply mem_false. }
  { subst week_data idx. by rewrite week_rows_length, !length_fmap, length_seq. }
  { exact Hframes. }
  { exact Hgroups. }
  apply omap_list_Forall2 in Hcovered.
  pose proof (Forall2_length _ _ _ Hcovered) as Hclen.
  assert (Hwl : length (rows week_data) = length records) by apply week_rows_length.
  assert (Hl' : length (rows week_data') = length records).
  { rewrite Hrows, length_zip_with. lia. }
  split.
  { rewrite Hdrop, length_fmap, length_zip_with. lia. }
  intros i r0 Hr0.
  pose proof (week_rows_lookup records i r0 Hr0) as Hwi. fold idx in Hwi. fold week_data in Hwi.
  assert (Hi : (i < length records)%nat).
  { apply lookup_lt_Some in Hwi. lia. }
  destruct (lookup_lt_is_Some_2 odds i) as [o Ho]; [lia|].
  assert (Hw'i : rows week_data' !! i = Some (dict_set "Odds" o (dict_set "index" (PInt (Z.of_nat i)) r0))).
  { rewrite Hrows, lookup_zip_with, Hwi. cbn. by rewrite Ho. }
  destruct (Forall2_lookup_l _ _ _ _ _ Hcovered Hw'i) as (c & Hc & Hcell).
  exists o, c. split; [|split].
  - rewrite Hdrop, list_lookup_fmap, lookup_zip_with, Hw'i. cbn. by rewrite Hc.
  - exact Hcell.
  - eapply Forall_lookup_1 in Hodds; eauto.
Qed.

(** ** Pending games *)

Lemma eq_str_true v s : eq_str v s = true <-> v = PStr s.
Proof.
  destruct v; cbn; try (split; [discriminate | congruence]).
  rewrite String.eqb_eq. split; congruence.
Qed.

Lemma eq_str_to_float v s : eq_str (to_float v) s = eq_str v s.
Proof. by destruct v. Qed.

Lemma DataFrame_lookup records (i : nat) g :
  records !! i = Some g ->
  exists r0,
    rows (DataFrame records) !! i = Some r0
    /\ forall k, dict_get k r0 = None
                 \/ dict_get k r0 = Some (cell k g)
                 \/ dict_get k r0 = Some (to_float (cell k g)).
Proof.
  intros Hg. unfold DataFrame. cbn [rows].
  eexists. split; [by rewrite list_lookup_fmap, Hg|].
  intros k. rewrite dict_get_tabulate.
  destruct (mem k (union_keys records)); [|by left].
  destruct (mem k _); auto.
Qed.

Lemma as_records_lookup games records (i : nat) g :
  as_records (PList games) = Ret records ->
  games !! i = Some (PDict g) -> records !! i = Some g.
Proof.
  cbn. intros H Hg. apply omap_list_Forall2 in H.
  eapply Forall2_lookup_l in H as (g' & Hg' & Heq); [|exact Hg].
  cbn in Heq. by injection Heq as ->.
Qed.

Lemma flatten_week_records ig body fr :
  flatten_week ig body = Ret fr -> exists records, as_records body = Ret records.
Proof. intros H. apply obind_Ret in H as (records & H & _). eauto. Qed.

Lemma covered_team_cell_pending row :
  is_game_finished row = false -> covered_team_cell row = Ret (PStr "Pending").
Proof. unfold covered_team_cell. by intros ->. Qed.

Lemma dict_get_flattened_row k index r0 o c :
  mem k dropped_columns = false -> k <> "CoveredTeam" -> k <> "Odds" ->
  dict_get k (flattened_row index r0 o c) = dict_get k r0.
Proof.
  intros Hk H1 H2. unfold flattened_row.
  rewrite dict_get_del, Hk, !dict_get_set_ne; try done.
  intros ->. discriminate.
Qed.

(** C10. A game whose [Status] is absent, or is anything but the string
    "Final" ("F/OT" included), gets [CoveredTeam = "Pending"] in the
    flattened week, whatever its scores and spread. *)
Theorem non_final_status_is_pending ig games fr (i : nat) g :
  flatten_week ig (PList games) = Ret fr ->
  games !! i = Some (PDict g) ->
  dict_get "Status" g <> Some (PStr "Final") ->
  exists row,
    rows fr !! i = Some row /\ dict_get "CoveredTeam" row = Some (PStr "Pending").
Proof.
  intros Hflat Hg Hstatus.
  destruct (flatten_week_records _ _ _ Hflat) as (records & Hrec).
  pose proof (as_records_lookup _ _ _ _ Hrec Hg) as Hgi.
  destruct (DataFrame_lookup _ _ _ Hgi) as (r0 & Hr0 & Hcells).
  destruct (flatten_week_rows _ _ _ _ Hrec Hflat) as [_ Hrows].
  destruct (Hrows i r0 Hr0) as (o & c & Hrow & Hcell & _).
  exists (flattened_row (Z.of_nat i) r0 o c). split; [done|].
  rewrite covered_team_cell_pending in Hcell.
  - injection Hcell as <-. unfold flattened_row.
    rewrite dict_get_del. cbn [mem existsb dropped_columns String.eqb Ascii.eqb Bool.eqb orb].
    apply dict_get_set_eq.
  - unfold is_game_finished. rewrite !dict_get_set_ne by done.
    destruct (eq_str _ "Final") eqn:Heq; [|done]. exfalso.
    apply eq_str_true in Heq.
    assert (Hcell' : eq_str (cell "Status" g) "Final" = true).
    { destruct (Hcells "Status") as [H|[H|H]]; rewrite H in Heq; cbn in Heq.
      - discriminate.
      - by apply eq_str_true.
      - rewrite <- eq_str_to_float. by apply eq_str_true. }
    apply eq_str_true in Hcell'. unfold cell in Hcell'.
    destruct (dict_get "Status" g); cbn in Hcell'; congruence.
Qed.

(** C10 on the sample week: the overtime game in row 1 is pending. *)
Lemma overtime_game_is_pending :
  exists row,
    rows flattened_three !! 1%nat = Some row
    /\ dict_get "CoveredTeam" row = Some (PStr "Pending").
Proof.
  apply (non_final_status_is_pending true
           [PDict game_kc_det; PDict game_sf_ari; PDict game_nyj_buf]
           flattened_three 1 game_sf_ari).
  - vm_compute. reflexivity.
  - reflexivity.
  - vm_compute. discriminate.
Defined.

(** ** The entries of the [Odds] column *)

Lemma pregame_frame_rows index pregame f r :
  pregame_frame index pregame = Ret f -> r ∈ rows f ->
  exists r' book,
    r = project columns_to_keep r' ++ [("index", PInt index)]
    /\ cell "Sportsbook" r' = PStr book /\ book ∈ accepted_books.
Proof.
  unfold pregame_frame. intros H Hr.
  apply obind_Ret in H as (entries & _ & H).
  destruct (negb (mem "Sportsbook" _)); [discriminate|].
  destruct (List.find _ columns_to_keep); [discriminate|].
  injection H as <-. cbn [rows] in Hr.
  apply list_elem_of_fmap in Hr as (r' & -> & Hr').
  apply list_elem_of_In, List.filter_In in Hr' as [_ Hisin].
  assert (exists book, cell "Sportsbook" r' = PStr book /\ mem book accepted_books = true)
    as (book & Hc & Hm).
  { unfold isin in Hisin. destruct (cell "Sportsbook" r'); try discriminate. eauto. }
  exists r', book. split; [reflexivity|]. split; [exact Hc|]. by apply mem_true.
Qed.

(** Every entry of a flattened [Odds] list is a record of an accepted
    sportsbook whose keys are the twelve of [columns_to_keep], in that
    order, followed by the join key [index] when pandas hands the grouping
    column to [groupby(...).apply] (as it does up to pandas 2). *)
Theorem odds_entries_shape ig body fr row quotes v :
  flatten_week ig body = Ret fr ->
  row ∈ rows fr ->
  dict_get "Odds" row = Some (PList quotes) ->
  v ∈ quotes ->
  exists entry book,
    v = PDict entry
    /\ dict_keys entry = columns_to_keep ++ (if ig then ["index"] else [])
    /\ dict_get "Sportsbook" entry = Some (PStr book)
    /\ book ∈ accepted_books.
Proof.
  intros Hflat Hrow Hodds Hv.
  destruct (flatten_week_records _ _ _ Hflat) as (records & Hrec).
  destruct (flatten_week_rows _ _ _ _ Hrec Hflat) as [Hlen Hrows].
  apply list_elem_of_lookup in Hrow as [i Hi].
  destruct (lookup_lt_is_Some_2 (rows (DataFrame records)) i) as [r0 Hr0].
  { apply lookup_lt_Some in Hi. unfold DataFrame. cbn [rows]. rewrite length_fmap. lia. }
  destruct (Hrows i r0 Hr0) as (o & c & Hrow & _ & Ho).
  rewrite Hi in Hrow. injection Hrow as ->.
  unfold flattened_row in Hodds.
  rewrite dict_get_del in Hodds. cbn [mem existsb dropped_columns String.eqb Ascii.eqb Bool.eqb orb] in Hodds.
  rewrite dict_get_set_ne, dict_get_set_eq in Hodds by done.
  injection Hodds as ->.
  destruct Ho as [Ho|(index & pregame & f & Hf & Ho)]; [discriminate|].
  unfold group_records in Ho. injection Ho as ->.
  apply list_elem_of_fmap in Hv as (r & -> & Hr).
  destruct (pregame_frame_rows _ _ _ _ Hf Hr) as (r' & book & -> & Hbook & Hacc).
  eexists _, book. split; [reflexivity|].
  destruct ig.
  - split; [|split; [|done]].
    + unfold dict_keys. rewrite fmap_app. fold (dict_keys (project columns_to_keep r')).
      by rewrite dict_keys_project.
    + rewrite dict_get_app, dict_get_project. cbn [mem existsb columns_to_keep String.eqb Ascii.eqb Bool.eqb orb].
      by rewrite Hbook.
  - rewrite dict_keys_del_last by (apply mem_false; reflexivity).
    split; [|split; [|done]].
    + by rewrite dict_keys_project, app_nil_r.
    + rewrite dict_get_project. cbn [mem existsb columns_to_keep String.eqb Ascii.eqb Bool.eqb orb].
      by rewrite Hbook.
Qed.

(** The shape of the one quote that is kept in the sample week. *)
Lemma consensus_quote_of_the_sample_week :
  exists entry book,
    flattened_one_quote = PDict entry
    /\ dict_keys entry = columns_to_keep ++ ["index"]
    /\ dict_get "Sportsbook" entry = Some (PStr book)
    /\ book ∈ accepted_books.
Proof.
  apply (odds_entries_shape true week_one_game flattened_one flattened_one_row
           flattened_one_quotes flattened_one_quote).
  - vm_compute. reflexivity.
  - apply list_elem_of_here.
  - vm_compute. reflexivity.
  - apply list_elem_of_here.
Defined.

(** C2 at its failing input.  With a pandas that hands the grouping column
    to [groupby('index').apply] (every version up to 2), the entry kept for
    the game of the sample week does not have exactly the twelve attributes
    of [columns_to_keep]: it has thirteen keys, the last being [index], the
    join key that the code adds to every quote and drops again only from the
    game's row. *)
Lemma odds_entry_carries_index :
  exists entry,
    flatten_week true week_one_game = Ret flattened_one
    /\ flattened_one_row ∈ rows flattened_one
    /\ dict_get "Odds" flattened_one_row = Some (PList [PDict entry])
    /\ dict_keys entry = columns_to_keep ++ ["index"]
    /\ dict_keys entry <> columns_to_keep.
Proof.
  eexists. split; [vm_compute; reflexivity|].
  split; [apply list_elem_of_here|].
  split; [vm_compute; reflexivity|].
  split; [reflexivity | discriminate].
Qed.

(** ** Covering the spread, row by row *)

Lemma as_number_not_none v n : as_number v = Some n -> is_none v = false.
Proof. by destruct v. Qed.

(** X1. With a home score, an away score and a Consensus spread that are
    whole numbers of halves of magnitude at most 2^51 (integers and
    half-integers, on which the float addition and the comparisons are
    exact), the team that covered is the home team when home score plus
    spread is above the away score, the away team when it is below, and
    "Push" when the two are equal. *)
Lemma compute_covered_team_numbers row home away hs as_ odds spread h a s :
  dict_get "HomeTeamName" row = Some home ->
  dict_get "AwayTeamName" row = Some away ->
  dict_get "HomeTeamScore" row = Some hs ->
  dict_get "AwayTeamScore" row = Some as_ ->
  dict_get "PregameOdds" row = Some (PList odds) ->
  consensus_spread odds = Ret spread ->
  as_number hs = Some (Fin h) -> as_number as_ = Some (Fin a) ->
  as_number spread = Some (Fin s) ->
  exact_half h = true -> exact_half a = true -> exact_half s = true ->
  compute_covered_team row
  = Ret (match (h + s ?= a)%Q with
         | Gt => home
         | Lt => away
         | Eq => PStr "Push"
         end).
Proof.
  intros Hhome Haway Hhs Has Hodds Hspread Hh Ha Hs Hxh _ Hxs.
  unfold compute_covered_team, dict_item.
  rewrite Hhome, Haway, Hhs, Has, Hodds. cbn [obind py_iter]. rewrite Hspread. cbn [obind].
  rewrite (as_number_not_none _ _ Hh), (as_number_not_none _ _ Ha),
    (as_number_not_none _ _ Hs). cbn [orb].
  unfold py_add. rewrite Hh, Hs, Hxh, Hxs. cbn [andb obind].
  unfold py_gt, py_lt. rewrite Ha. cbn [obind].
  by destruct (h + s ?= a)%Q.
Qed.

(** X2. A row whose Consensus spread, home score or away score is [None] is
    reported as "No Data"; the other two values are not looked at. *)
Lemma compute_covered_team_no_data row home away hs as_ odds spread :
  dict_get "HomeTeamName" row = Some home ->
  dict_get "AwayTeamName" row = Some away ->
  dict_get "HomeTeamScore" row = Some hs ->
  dict_get "AwayTeamScore" row = Some as_ ->
  dict_get "PregameOdds" row = Some (PList odds) ->
  consensus_spread odds = Ret spread ->
  spread = PNone \/ hs = PNone \/ as_ = PNone ->
  compute_covered_team row = Ret (PStr "No Data").
Proof.
  intros Hhome Haway Hhs Has Hodds Hspread Hnone.
  unfold compute_covered_team, dict_item.
  rewrite Hhome, Haway, Hhs, Has, Hodds. cbn [obind py_iter]. rewrite Hspread. cbn [obind].
  destruct Hnone as [-> | [-> | ->]]; cbn [is_none orb]; by rewrite ?orb_true_r.
Qed.

(** X3. A home score that is NaN is not [None]: with a numeric away score
    and spread the comparisons are both false and the game is reported as
    "Push". *)
Lemma compute_covered_team_nan_score row home away as_ odds spread a s :
  dict_get "HomeTeamName" row = Some home ->
  dict_get "AwayTeamName" row = Some away ->
  dict_get "HomeTeamScore" row = Some PNaN ->
  dict_get "AwayTeamScore" row = Some as_ ->
  dict_get "PregameOdds" row = Some (PList odds) ->
  consensus_spread odds = Ret spread ->
  as_number as_ = Some (Fin a) -> as_number spread = Some (Fin s) ->
  compute_covered_team row = Ret (PStr "Push").
Proof.
  intros Hhome Haway Hhs Has Hodds Hspread Ha Hs.
  unfold compute_covered_team, dict_item.
  rewrite Hhome, Haway, Hhs, Has, Hodds. cbn [obind py_iter]. rewrite Hspread. cbn [obind].
  rewrite (as_number_not_none _ _ Ha), (as_number_not_none _ _ Hs). cbn [is_none orb].
  unfold py_add. cbn [as_number]. rewrite Hs. cbn [obind]. unfold py_gt, py_lt. rewrite Ha. done.
Qed.

(** The scenarios of the specification. *)
Example scenario_away_covers :
  covered_team_cell game_kc_det = Ret (PStr "DET").
Proof. reflexivity. Qed.

Example scenario_push :
  covered_team_cell
    (sample_game "KC" "DET" (PStr "Final") (PInt 20) (PInt 20)
       [sample_quote "Consensus" (PInt 0)])
  = Ret (PStr "Push").
Proof. reflexivity. Qed.

(** C1 at its failing input.  In a week where another game has a home
    score, the constructor turns the null home score of a final game into
    NaN; [compute_covered_team] tests [is None], so the game is not reported
    as "No Data" but as "Push". *)
Theorem null_score_in_mixed_week_is_push :
  dict_get "Status" game_nyj_buf = Some (PStr "Final")
  /\ dict_get "HomeTeamScore" game_nyj_buf = Some PNone
  /\ exists fr row,
       flatten_week true week_two_games = Ret fr
       /\ rows fr !! 1%nat = Some row
       /\ dict_get "HomeTeamName" row = Some (PStr "NYJ")
       /\ dict_get "HomeTeamScore" row = Some PNaN
       /\ dict_get "CoveredTeam" row = Some (PStr "Push").
Proof.
  split; [reflexivity | split; [reflexivity |]].
  eexists _, _. vm_compute. repeat split.
Qed.

(** ** The calendar fallback *)

Lemma weekday_september y d :
  weekday (Date y 9 d) = (days_before_year y + days_before_month y 9 + d + 6) mod 7.
Proof. reflexivity. Qed.

(** Seven rounds of the loop reach the first Thursday of September. *)
Lemma advance_to_thursday_total y :
  advance_to_thursday 7 (Date y 9 1) = Some (first_thursday_of_september y).
Proof.
  unfold first_thursday_of_september.
  change (py_range 1 8) with [1; 2; 3; 4; 5; 6; 7].
  cbn [advance_to_thursday List.find].
  assert (Hn : forall d, d < 30 -> next_day (Date y 9 d) = Date y 9 (d + 1)).
  { intros d Hd. unfold next_day. cbn [year month day].
    change (days_in_month y 9) with 30.
    destruct (Z.ltb_spec d 30); [reflexivity | lia]. }
  repeat (match goal with
          | |- context [weekday (Date y 9 ?d) =? 3] =>
              destruct (Z.eqb_spec (weekday (Date y 9 d)) 3); cbn [negb]; [reflexivity |]
          end;
          try match goal with
          | |- context [next_day (Date y 9 ?d)] =>
              let d' := eval vm_compute in (d + 1) in
              rewrite (Hn d) by lia; change (d + 1) with d'
          end).
  exfalso.
  rewrite !weekday_september in *.
  set (X := days_before_year y + days_before_month y 9) in *.
  clearbody X. clear Hn. Z.div_mod_to_equations. lia.
Qed.

(** From February on the fallback is the week the specification describes. *)
Lemma fallback_week_from_february today :
  2 <= month today -> fallback_week today = Some (spec_fallback_week today).
Proof.
  intros Hm. unfold fallback_week, spec_fallback_week, fallback_season_year.
  rewrite advance_to_thursday_total. cbn.
  destruct (Z.leb_spec 2 (month today)); [done | lia].
Qed.

(** The fallback always returns: the loop ends within its seven rounds. *)
Lemma fallback_week_total today : is_Some (fallback_week today).
Proof. unfold fallback_week. rewrite advance_to_thursday_total. by eexists. Qed.

(** C7 at its failing input.  On 10 January 2024 with the API down, the
    season year falls back to 2023, whose first Thursday of September is the
    7th: the week the specification describes is 18.  The code counts from
    September of the calendar year 2024 and returns -34. *)
Theorem fallback_week_in_january :
  fst (fetch_current_season_year (env_down (Date 2024 1 10)) empty_world) = Ret 2023
  /\ fst (fetch_current_week (env_down (Date 2024 1 10)) empty_world) = Ret (-34)
  /\ first_thursday_of_september 2023 = Date 2023 9 7
  /\ spec_fallback_week (Date 2024 1 10) = 18.
Proof. vm_compute. repeat split. Qed.

(** ** A week that cannot be fetched *)

Lemma odds_week_failure E TW season week w :
  let r := server E (trace w) (odds_url season week) in
  status_code r <> 200 ->
  odds_week E TW season week w
  = (Ret tt, after_failure w (odds_url season week)
               (odds_failure season week (status_code r))).
Proof.
  intros r Hr. unfold odds_week, bind, requests_get. cbn [fst snd].
  fold r. destruct (Z.eqb_spec (status_code r) 200); [done|]. reflexivity.
Qed.

Lemma scores_week_failure E season week w :
  let r := server E (trace w) (scores_url season week) in
  status_code r <> 200 ->
  scores_week E season week w
  = (Ret tt, after_failure w (scores_url season week)
               (scores_failure season week (status_code r))).
Proof.
  intros r Hr. unfold scores_week, bind, requests_get. cbn [fst snd].
  fold r. destruct (Z.eqb_spec (status_code r) 200); [done|]. reflexivity.
Qed.

Lemma for_each_cons_Ret {A} (body : A -> M unit) a l w w' :
  body a w = (Ret tt, w') -> for_each (a :: l) body w = for_each l body w'.
Proof. intros H. cbn [for_each]. unfold bind. by rewrite H. Qed.

(** C5. A week of the odds or of the scores writer that is answered with a
    status other than 200 raises nothing: the round prints one line made of
    the week, the season and the status, leaves the disk as it was, and the
    loop goes on with the remaining weeks. *)
Theorem non_200_week_is_logged_and_skipped E TW season week rest w :
  (let r := server E (trace w) (odds_url season week) in
   status_code r <> 200 ->
   let w' := after_failure w (odds_url season week)
               (odds_failure season week (status_code r)) in
   odds_week E TW season week w = (Ret tt, w')
   /\ files w' = files w
   /\ log w' = log w ++ [odds_failure season week (status_code r)]
   /\ for_each (week :: rest) (odds_week E TW season) w
      = for_each rest (odds_week E TW season) w')
  /\
  (let r := server E (trace w) (scores_url season week) in
   status_code r <> 200 ->
   let w' := after_failure w (scores_url season week)
               (scores_failure season week (status_code r)) in
   scores_week E season week w = (Ret tt, w')
   /\ files w' = files w
   /\ log w' = log w ++ [scores_failure season week (status_code r)]
   /\ for_each (week :: rest) (scores_week E season) w
      = for_each rest (scores_week E season) w').
Proof.
  split; intros r Hr w'.
  - pose proof (odds_week_failure E TW season week w Hr) as H.
    split; [exact H|]. split; [done|]. split; [done|].
    by apply for_each_cons_Ret.
  - pose proof (scores_week_failure E season week w Hr) as H.
    split; [exact H|]. split; [done|]. split; [done|].
    by apply for_each_cons_Ret.
Qed.

(** C5 on an API that answers 500. *)
Lemma non_200_week_on_a_dead_api :
  let E := env_down (Date 2023 9 21) in
  for_each [1; 2] (odds_week E 3 "2023REG") empty_world
  = for_each [2] (odds_week E 3 "2023REG")
      (after_failure empty_world (odds_url "2023REG" 1)
         "Failed to fetch odds data for Week 1 of Season 2023REG. Status Code: 500")
  /\ for_each [1; 2] (scores_week E "2023REG") empty_world
     = for_each [2] (scores_week E "2023REG")
         (after_failure empty_world (scores_url "2023REG" 1)
            "Failed to fetch scores data for Week 1 of Season 2023REG. Status Code: 500").
Proof.
  split.
  - apply (proj1 (non_200_week_is_logged_and_skipped
                    (env_down (Date 2023 9 21)) 3 "2023REG" 1 [2] empty_world)).
    cbn. lia.
  - apply (proj2 (non_200_week_is_logged_and_skipped
                    (env_down (Date 2023 9 21)) 3 "2023REG" 1 [2] empty_world)).
    cbn. lia.
Defined.

(** ** Where a fetched week is stored *)

Lemma odds_week_stored E TW season week w body week_data :
  status_code (server E (trace w) (odds_url season week)) = 200 ->
  json (server E (trace w) (odds_url season week)) = Some body ->
  flatten_week (passes_group_keys E) body = Ret week_data ->
  odds_week E TW season week w
  = (Ret tt,
     {| files := <[(if TW =? week then current_week_file else odds_file season week)
                   := Csv week_data]> (files w);
        dirs := dirs w; log := log w;
        trace := trace w ++ [odds_url season week] |}).
Proof.
  intros Hs Hj Hflat. unfold odds_week, bind, requests_get. rewrite Hs. cbn.
  unfold lift, json_loads. rewrite Hj, Hflat.
  by destruct (TW =? week).
Qed.

(** C4 at its failing input.  With the current week at 3, caching the
    past season 2022REG with every week answered 200 writes week 3 to
    [odds_data/current_week.csv]: [odds_data/2022REG_3.csv] is never
    written, although the seventeen weeks were all requested. *)
Theorem past_season_week_goes_to_current_slot :
  let run := cache_odds_data (env_odds_only (Date 2023 9 21)) 2023 3 "2022REG" empty_world in
  fst run = Ret tt
  /\ files (snd run) !! "odds_data/2022REG_3.csv" = None
  /\ is_Some (files (snd run) !! "odds_data/2022REG_2.csv")
  /\ is_Some (files (snd run) !! "odds_data/current_week.csv")
  /\ trace (snd run) = odds_url "2022REG" <$> py_range 1 18.
Proof.
  vm_compute. repeat split; eauto.
Qed.

(** ** The requests of a writer *)

Lemma odds_week_trace E TW season week w :
  trace (snd (odds_week E TW season week w)) = trace w ++ [odds_url season week].
Proof.
  unfold odds_week, bind, requests_get, lift. cbn.
  destruct (status_code _ =? 200); [|done].
  destruct (json_loads _); [|done]. destruct (flatten_week _ _); [|done].
  by destruct (negb _).
Qed.

Lemma scores_week_trace E season week w :
  trace (snd (scores_week E season week w)) = trace w ++ [scores_url season week].
Proof.
  unfold scores_week, bind, requests_get, lift. cbn.
  destruct (status_code _ =? 200); [|done]. by destruct (response_frame _).
Qed.

Lemma for_each_trace {A} (body : A -> M unit) (url : A -> string) l w :
  (forall a w, trace (snd (body a w)) = trace w ++ [url a]) ->
  fst (for_each l body w) = Ret tt ->
  trace (snd (for_each l body w)) = trace w ++ (url <$> l).
Proof.
  intros Hbody. revert w. induction l as [|a l IH]; intros w; cbn [for_each].
  - intros _. by rewrite app_nil_r.
  - unfold bind. specialize (Hbody a w).
    destruct (body a w) as [[[]|e] w']; cbn [fst snd] in *; [|discriminate].
    intros H. rewrite (IH w' H), Hbody. by rewrite <- app_assoc.
Qed.

Lemma cache_odds_data_requests E TY TW season w :
  fst (cache_odds_data E TY TW season w) = Ret tt ->
  trace (snd (cache_odds_data E TY TW season w))
  = trace w ++ (odds_url season <$> odds_week_range TY TW season).
Proof.
  unfold cache_odds_data. unfold bind at 1 2.
  destruct (ensure_dir "odds_data" w) as [[[]|e] w1] eqn:Hdir; [|discriminate].
  assert (Ht : trace w1 = trace w).
  { unfold ensure_dir, bind, path_exists in Hdir.
    destruct (exists_in w "odds_data"); cbn in Hdir; by injection Hdir as <-. }
  intros H. rewrite <- Ht. by apply for_each_trace; [apply odds_week_trace|].
Qed.

Lemma cache_scores_data_requests E TY TW season w :
  fst (cache_scores_data E TY TW season w) = Ret tt ->
  trace (snd (cache_scores_data E TY TW season w))
  = trace w ++ (scores_url season <$> scores_week_range TY TW season).
Proof.
  unfold cache_scores_data. unfold bind at 1 2.
  destruct (ensure_dir "scores_data" w) as [[[]|e] w1] eqn:Hdir; [|discriminate].
  assert (Ht : trace w1 = trace w).
  { unfold ensure_dir, bind, path_exists in Hdir.
    destruct (exists_in w "scores_data"); cbn in Hdir; by injection Hdir as <-. }
  intros H. rewrite <- Ht. by apply for_each_trace; [apply scores_week_trace|].
Qed.

(** ** Week ranges *)

Lemma elem_of_py_range lo hi w : w ∈ py_range lo hi <-> lo <= w < hi.
Proof.
  unfold py_range. rewrite list_elem_of_fmap. split.
  - intros (i & -> & Hi). apply elem_of_seq in Hi. lia.
  - intros H. exists (Z.to_nat (w - lo)). split; [lia|]. apply elem_of_seq. lia.
Qed.

Lemma str_int_four_digits n : 1000 <= n <= 9999 -> four_digits (str_int n) = true.
Proof.
  intros H.
  assert (Hall : forallb (fun n => four_digits (str_int n)) (py_range 1000 10000) = true)
    by (vm_compute; reflexivity).
  rewrite forallb_forall in Hall. apply Hall, list_elem_of_In, elem_of_py_range. lia.
Qed.

Lemma prefix_cons a s b t :
  String.prefix (String a s) (String b t) = Ascii.eqb a b && String.prefix s t.
Proof.
  cbn. destruct (Ascii.ascii_dec a b) as [->|Hne].
  - by rewrite Ascii.eqb_refl.
  - apply Ascii.eqb_neq in Hne. by rewrite Hne.
Qed.

Lemma append_cons a s t : String a s +:+ t = String a (s +:+ t).
Proof. reflexivity. Qed.

Lemma append_nil t : "" +:+ t = t.
Proof. reflexivity. Qed.

Lemma four_digits_inv s :
  four_digits s = true ->
  exists a b c d,
    s = String a (String b (String c (String d "")))
    /\ is_digit a = true /\ is_digit b = true /\ is_digit c = true /\ is_digit d = true.
Proof.
  destruct s as [|a [|b [|c [|d [|]]]]]; try discriminate.
  cbn [four_digits]. rewrite !andb_true_iff. intros [[[? ?] ?] ?].
  by exists a, b, c, d.
Qed.

Lemma digit_eqb_false c p : is_digit c = true -> is_digit p = false -> Ascii.eqb p c = false.
Proof. intros Hc Hp. apply Ascii.eqb_neq. intros ->. congruence. Qed.

Lemma str_in_skip_digit p sub c t :
  is_digit c = true -> is_digit p = false ->
  str_in (String p sub) (String c t) = str_in (String p sub) t.
Proof.
  intros Hc Hp. cbn [str_in]. rewrite prefix_cons, (digit_eqb_false c p) by done. done.
Qed.

(** A word that starts with a letter occurs in a four-digit year followed by
    a tag exactly when it occurs in the tag. *)
Lemma str_in_after_year p sub y tag :
  four_digits y = true -> is_digit p = false ->
  str_in (String p sub) (y +:+ tag) = str_in (String p sub) tag.
Proof.
  intros Hy Hp.
  apply four_digits_inv in Hy as (a & b & c & d & -> & Ha & Hb & Hc & Hd).
  rewrite !append_cons, append_nil. by rewrite !str_in_skip_digit.
Qed.

(** A four-digit year occurs in a year followed by REG only as that year. *)
Lemma year_in_reg_season x y :
  four_digits x = true -> four_digits y = true ->
  str_in x (y +:+ "REG") = String.eqb x y.
Proof.
  intros Hx Hy.
  apply four_digits_inv in Hx as (a1 & b1 & c1 & d1 & -> & Ha1 & Hb1 & Hc1 & Hd1).
  apply four_digits_inv in Hy as (a & b & c & d & -> & Ha & Hb & Hc & Hd).
  rewrite !append_cons, append_nil.
  cbn [str_in String.eqb]. rewrite !prefix_cons.
  rewrite !(Ascii.eqb_sym _ "R"%char), !(Ascii.eqb_sym _ "E"%char), !(Ascii.eqb_sym _ "G"%char).
  rewrite !(digit_eqb_false _ "R"%char), !(digit_eqb_false _ "E"%char),
    !(digit_eqb_false _ "G"%char) by done.
  cbn [andb]. rewrite !andb_false_r. cbn [orb String.prefix].
  by destruct (Ascii.eqb a1 a), (Ascii.eqb b1 b), (Ascii.eqb c1 c), (Ascii.eqb d1 d).
Qed.

Lemma year_in_reg_season_iff THIS_YEAR y :
  1000 <= THIS_YEAR <= 9999 -> 1000 <= y <= 9999 ->
  str_in (str_int THIS_YEAR) (str_int y +:+ "REG") = (THIS_YEAR =? y).
Proof.
  intros H1 H2. rewrite year_in_reg_season by by apply str_int_four_digits.
  destruct (Z.eqb_spec THIS_YEAR y) as [->|Hne].
  - apply String.eqb_refl.
  - apply String.eqb_neq. intros Heq. apply Hne. by apply (inj pretty).
Qed.

(** The week range each writer computes, for SeasonIds made of a four-digit
    year and a type: weeks 0..3 for a PRE season and 1..4 for a POST season;
    1..17 for a REG season of another year than [THIS_YEAR]; for the REG
    season of [THIS_YEAR], 1..[THIS_WEEK] in the odds writer and
    1..[THIS_WEEK]-1 in the scores writer. *)
Theorem week_ranges_by_season_type THIS_YEAR THIS_WEEK y :
  1000 <= THIS_YEAR <= 9999 -> 1000 <= y <= 9999 ->
  (odds_week_range THIS_YEAR THIS_WEEK (str_int y +:+ "PRE") = [0; 1; 2; 3]
   /\ scores_week_range THIS_YEAR THIS_WEEK (str_int y +:+ "PRE") = [0; 1; 2; 3])
  /\ (odds_week_range THIS_YEAR THIS_WEEK (str_int y +:+ "POST") = [1; 2; 3; 4]
      /\ scores_week_range THIS_YEAR THIS_WEEK (str_int y +:+ "POST") = [1; 2; 3; 4])
  /\ (y <> THIS_YEAR ->
      odds_week_range THIS_YEAR THIS_WEEK (str_int y +:+ "REG")
      = [1; 2; 3; 4; 5; 6; 7; 8; 9; 10; 11; 12; 13; 14; 15; 16; 17]
      /\ scores_week_range THIS_YEAR THIS_WEEK (str_int y +:+ "REG")
         = [1; 2; 3; 4; 5; 6; 7; 8; 9; 10; 11; 12; 13; 14; 15; 16; 17])
  /\ (odds_week_range THIS_YEAR THIS_WEEK (str_int THIS_YEAR +:+ "REG")
      = py_range 1 (THIS_WEEK + 1)
      /\ scores_week_range THIS_YEAR THIS_WEEK (str_int THIS_YEAR +:+ "REG")
         = py_range 1 THIS_WEEK
      /\ forall week,
           (week ∈ odds_week_range THIS_YEAR THIS_WEEK (str_int THIS_YEAR +:+ "REG")
            <-> 1 <= week <= THIS_WEEK)
           /\ (week ∈ scores_week_range THIS_YEAR THIS_WEEK (str_int THIS_YEAR +:+ "REG")
               <-> 1 <= week <= THIS_WEEK - 1)).
Proof.
  intros HT Hy.
  pose proof (str_int_four_digits y Hy) as Hd.
  pose proof (str_int_four_digits THIS_YEAR HT) as HdT.
  unfold odds_week_range, scores_week_range.
  rewrite !(str_in_after_year "P" _ (str_int y)) by done.
  rewrite !(str_in_after_year "P" _ (str_int THIS_YEAR)) by done.
  rewrite !year_in_reg_season_iff by done.
  rewrite Z.eqb_refl.
  change (str_in "PRE" "PRE") with true. change (str_in "PRE" "POST") with false.
  change (str_in "POST" "POST") with true. change (str_in "PRE" "REG") with false.
  change (str_in "POST" "REG") with false. cbn iota.
  split; [split; reflexivity|]. split; [split; reflexivity|]. split.
  { intros Hne. destruct (Z.eqb_spec THIS_YEAR y); [congruence|]. split; reflexivity. }
  split; [reflexivity|]. split; [reflexivity|].
  intros week. rewrite !elem_of_py_range. lia.
Qed.

(** The ranges in week 3 of 2023. *)
Lemma week_ranges_in_2023 :
  odds_week_range 2023 3 "2023REG" = [1; 2; 3]
  /\ scores_week_range 2023 3 "2023REG" = [1; 2]
  /\ odds_week_range 2023 3 "2024PRE" = [0; 1; 2; 3]
  /\ scores_week_range 2023 3 "2022POST" = [1; 2; 3; 4]
  /\ length (odds_week_range 2023 3 "2022REG") = 17%nat.
Proof.
  pose proof (week_ranges_by_season_type 2023 3 2023 ltac:(lia) ltac:(lia)) as (_ & _ & _ & H1 & H2 & _).
  pose proof (week_ranges_by_season_type 2023 3 2024 ltac:(lia) ltac:(lia)) as ((H3 & _) & _).
  pose proof (week_ranges_by_season_type 2023 3 2022 ltac:(lia) ltac:(lia)) as (_ & (_ & H4) & H5 & _).
  destruct (H5 ltac:(lia)) as [H6 _].
  split; [exact H1|]. split; [exact H2|]. split; [exact H3|]. split; [exact H4|].
  exact (f_equal length H6).
Defined.

(** ** Backfill on a full cache *)

Lemma for_each_noop {A} (body : A -> M unit) l w :
  Forall (fun a => body a w = (Ret tt, w)) l -> for_each l body w = (Ret tt, w).
Proof.
  induction 1 as [|a l Ha _ IH]; [done|].
  cbn [for_each]. unfold bind. by rewrite Ha.
Qed.

Lemma backfill_schedule_cached E season w :
  exists_in w (schedule_file season) = true -> backfill_schedule E season w = (Ret tt, w).
Proof. intros H. unfold backfill_schedule, bind, path_exists. by rewrite H. Qed.

Lemma backfill_odds_week_cached E TY TW season week w :
  exists_in w (odds_file season week) = true ->
  backfill_odds_week E TY TW season week w = (Ret tt, w).
Proof. intros H. unfold backfill_odds_week, bind, path_exists. by rewrite H. Qed.

Lemma backfill_scores_week_cached E TY TW season week w :
  exists_in w (scores_file season week) = true ->
  backfill_scores_week E TY TW season week w = (Ret tt, w).
Proof. intros H. unfold backfill_scores_week, bind, path_exists. by rewrite H. Qed.

(** C6. When the schedule file of every season of [seasons_to_cache] and
    the odds and scores files of each of its weeks exist, the backfill
    returns the world it was given: no request, no file, no line. *)
Theorem backfill_on_full_cache E TY TW w :
  fully_cached w = true ->
  cache_old_data E TY TW w = (Ret tt, w).
Proof.
  unfold fully_cached. rewrite forallb_forall. intros Hall.
  unfold cache_old_data. apply for_each_noop, Forall_forall. intros season Hseason.
  apply list_elem_of_In, Hall in Hseason.
  apply andb_true_iff in Hseason as [Hsched Hweeks].
  rewrite forallb_forall in Hweeks.
  unfold backfill_season, bind.
  rewrite backfill_schedule_cached by done.
  rewrite for_each_noop.
  - apply for_each_noop, Forall_forall. intros week Hweek.
    apply list_elem_of_In, Hweeks, andb_true_iff in Hweek as [_ Hscores].
    by apply backfill_scores_week_cached.
  - apply Forall_forall. intros week Hweek.
    apply list_elem_of_In, Hweeks, andb_true_iff in Hweek as [Hodds _].
    by apply backfill_odds_week_cached.
Qed.

(** C6 on a disk that holds every file the backfill looks for. *)
Lemma backfill_on_the_cached_world :
  cache_old_data (env_down (Date 2023 9 21)) 2023 3 cached_world = (Ret tt, cached_world).
Proof.
  apply (backfill_on_full_cache (env_down (Date 2023 9 21)) 2023 3 cached_world).
  vm_compute. reflexivity.
Defined.

(** ** The ATS window *)

Lemma has_results_exists w path : has_results w path = true -> exists_in w path = true.
Proof.
  unfold has_results, exists_in. destruct (files w !! path) as [c|]; [|discriminate].
  intros _. rewrite bool_decide_eq_true_2; [done | by eexists].
Qed.

Lemma has_results_read w path :
  has_results w path = true ->
  exists f results,
    read_csv path w = (Ret f, w) /\ select_records ats_columns f = Ret results.
Proof.
  unfold has_results, read_csv, select_records.
  destruct (files w !! path) as [[f|]|]; try discriminate.
  intros H. exists f, (project ats_columns <$> rows f). split; [done|].
  destruct (List.find _ ats_columns) as [c|] eqn:Hfind; [|done].
  apply List.find_some in Hfind as [Hin Hc].
  rewrite forallb_forall in H. apply H in Hin. by rewrite Hin in Hc.
Qed.

Lemma ats_walk_skip TW cst week rest n data w :
  exists_in w (odds_file cst week) = false -> TW <> week ->
  ats_walk TW cst (week :: rest) n data w = ats_walk TW cst rest n data w.
Proof.
  intros Hex Hne. cbn [ats_walk]. unfold bind at 1, path_exists. rewrite Hex.
  destruct (Z.eqb_spec TW week); [done|]. reflexivity.
Qed.

Lemma ats_walk_take TW cst week rest n data w :
  exists_in w (odds_file cst week) = true \/ TW = week ->
  has_results w (if exists_in w (odds_file cst week) then odds_file cst week
                 else current_week_file) = true ->
  exists results,
    ats_walk TW cst (week :: rest) n data w
    = if n - 1 =? 0 then (Ret (n - 1, data ++ [week_group cst week results]), w)
      else ats_walk TW cst rest (n - 1) (data ++ [week_group cst week results]) w.
Proof.
  intros Hav Hres.
  apply has_results_read in Hres as (f & results & Hread & Hsel).
  exists results. cbn [ats_walk]. unfold bind at 1, path_exists.
  assert (Hcond : negb (exists_in w (odds_file cst week)) && negb (TW =? week) = false).
  { destruct Hav as [->| ->]; [done|]. rewrite Z.eqb_refl. apply andb_false_r. }
  rewrite Hcond. unfold bind at 1. rewrite Hread.
  unfold bind at 1, lift. rewrite Hsel.
  destruct (n - 1 =? 0); reflexivity.
Qed.

Lemma odds_file_not_ats_dir season week : odds_file season week <> "ats_data".
Proof. unfold odds_file. rewrite !append_cons. discriminate. Qed.

Lemma exists_in_odds_file_frame w w' season week :
  files w' = files w ->
  dirs w' = dirs w \/ dirs w' = {["ats_data"]} ∪ dirs w ->
  exists_in w' (odds_file season week) = exists_in w (odds_file season week).
Proof.
  intros Hf Hd. unfold exists_in. rewrite Hf. f_equal.
  apply bool_decide_ext. destruct Hd as [-> | ->]; [done|].
  rewrite elem_of_union, elem_of_singleton. split; [|by right].
  intros [Heq|Hin]; [|done]. by destruct (odds_file_not_ats_dir season week).
Qed.

Lemma has_results_frame w w' path :
  files w' = files w -> has_results w' path = has_results w path.
Proof. intros Hf. unfold has_results. by rewrite Hf. Qed.

Lemma fetch_current_week_200 E w n :
  status_code (server E (trace w) current_week_url) = 200 ->
  json (server E (trace w) current_week_url) = Some (PInt n) ->
  fetch_current_week E w
  = (Ret n, {| files := files w; dirs := dirs w; log := log w;
               trace := trace w ++ [current_week_url] |}).
Proof.
  intros Hs Hj. unfold fetch_current_week, bind, requests_get.
  rewrite Hs. cbn. unfold lift, json_int, json_loads. by rewrite Hj.
Qed.

Lemma ensure_dir_frame path w :
  exists w', ensure_dir path w = (Ret tt, w')
             /\ files w' = files w /\ trace w' = trace w /\ log w' = log w
             /\ (dirs w' = dirs w \/ dirs w' = {[path]} ∪ dirs w).
Proof.
  unfold ensure_dir, bind, path_exists.
  destruct (exists_in w path); cbn; eexists; (split; [reflexivity|]); cbn; auto 6.
Qed.

Lemma eqb_length_ne s t : String.length s <> String.length t -> String.eqb s t = false.
Proof. intros H. apply String.eqb_neq. intros ->. done. Qed.

Lemma length_append s t :
  String.length (s +:+ t) = (String.length s + String.length t)%nat.
Proof. induction s as [|a s IH]; [done|]. rewrite append_cons. cbn. by rewrite IH. Qed.

Lemma endswith_append y suffix : endswith (y +:+ suffix) suffix = true.
Proof.
  induction y as [|a y IH].
  - rewrite append_nil. destruct suffix; cbn; by rewrite ?Ascii.eqb_refl, ?String.eqb_refl.
  - rewrite append_cons. cbn [endswith]. rewrite IH. by destruct (String.eqb _ _).
Qed.

Lemma endswith_shorter s suffix :
  (String.length s < String.length suffix)%nat -> endswith s suffix = false.
Proof.
  induction s as [|a s IH]; intros Hlen.
  - cbn [endswith]. rewrite eqb_length_ne; [done | cbn in *; lia].
  - cbn [endswith]. rewrite eqb_length_ne by lia. apply IH. cbn in Hlen. lia.
Qed.

Lemma endswith_other_tag y tag suffix :
  String.length tag = String.length suffix -> tag <> suffix ->
  endswith (y +:+ tag) suffix = false.
Proof.
  intros Hlen Hne. induction y as [|a y IH].
  - rewrite append_nil. destruct tag as [|b tag]; cbn [endswith].
    + by apply String.eqb_neq in Hne as ->.
    + apply String.eqb_neq in Hne as ->. apply endswith_shorter. cbn in Hlen. lia.
  - rewrite append_cons. cbn [endswith]. rewrite eqb_length_ne; [done|].
    cbn. rewrite length_append. lia.
Qed.

Lemma ats_loop_done TW fuel year cst end_week start_week data :
  ats_loop TW fuel year cst end_week start_week 0 data = mret (Some data).
Proof. by destruct fuel. Qed.

(** The two rounds of the walk when the current week is 2. *)
Lemma ats_loop_at_week_two fuel year w :
  let reg := str_int year +:+ "REG" in
  let pre := str_int year +:+ "PRE" in
  has_results w (if exists_in w (odds_file reg 2) then odds_file reg 2
                 else current_week_file) = true ->
  Forall (fun path => has_results w path = true)
    [odds_file reg 1; odds_file pre 3; odds_file pre 2; odds_file pre 1] ->
  (exists_in w (odds_file pre 0) = true -> has_results w (odds_file pre 0) = true) ->
  Forall (fun week => exists_in w (odds_file reg week) = false) (py_range_down 0 (-8)) ->
  Forall (fun week => exists_in w (odds_file pre week) = false) (py_range_down (-1) (-5)) ->
  (2 <= fuel)%nat ->
  exists weeks_data,
    ats_loop 2 fuel year reg 2 (2 - 10 + 1) 10 [] w = (Ret (Some weeks_data), w)
    /\ omap group_key weeks_data
       = [(reg, 2); (reg, 1); (pre, 3); (pre, 2); (pre, 1)]
           ++ (if exists_in w (odds_file pre 0) then [(pre, 0)] else []).
Proof.
  intros reg pre Hreg2 Hfiles Hpre0 Hreg_none Hpre_none Hfuel.
  destruct fuel as [|[|fuel]]; [lia | lia |].
  change (py_range_down 0 (-8)) with [0; -1; -2; -3; -4; -5; -6; -7] in Hreg_none.
  change (py_range_down (-1) (-5)) with [-1; -2; -3; -4] in Hpre_none.
  rewrite !Forall_cons in Hfiles. rewrite !Forall_cons in Hreg_none. rewrite !Forall_cons in Hpre_none.
  destruct Hfiles as (Hr1 & Hp3 & Hp2 & Hp1 & _).
  destruct Hreg_none as (R0 & R1 & R2 & R3 & R4 & R5 & R6 & R7 & _).
  destruct Hpre_none as (P1 & P2 & P3 & P4 & _).
  (* first round: the REG season *)
  cbn [ats_loop]. change (0 <? 10) with true. cbn iota.
  change (py_range_down 2 (2 - 10 + 1 - 1)) with [2; 1; 0; -1; -2; -3; -4; -5; -6; -7].
  unfold bind at 1.
  destruct (ats_walk_take 2 reg 2 [1; 0; -1; -2; -3; -4; -5; -6; -7] 10 [] w)
    as (r2 & ->); [by right | done |].
  change (10 - 1 =? 0) with false. cbn iota. change (10 - 1) with 9. cbn [app].
  destruct (ats_walk_take 2 reg 1 [0; -1; -2; -3; -4; -5; -6; -7] 9 [week_group reg 2 r2] w)
    as (r1 & ->); [left; by apply has_results_exists | |].
  { by rewrite (has_results_exists _ _ Hr1). }
  change (9 - 1 =? 0) with false. cbn iota. change (9 - 1) with 8. cbn [app].
  rewrite !ats_walk_skip by (done || lia).
  cbn [ats_walk mret]. change (0 <? 8) with true. cbn iota.
  unfold reg at 1. rewrite endswith_append.
  (* second round: the PRE season of the same year *)
  fold pre. change (py_range_down 3 (3 - 8 + 1 - 1)) with [3; 2; 1; 0; -1; -2; -3; -4].
  unfold bind at 1.
  destruct (ats_walk_take 2 pre 3 [2; 1; 0; -1; -2; -3; -4] 8
              [week_group reg 2 r2; week_group reg 1 r1] w)
    as (p3 & ->); [left; by apply has_results_exists | |].
  { by rewrite (has_results_exists _ _ Hp3). }
  change (8 - 1 =? 0) with false. cbn iota. change (8 - 1) with 7. cbn [app].
  destruct (ats_walk_take 2 pre 2 [1; 0; -1; -2; -3; -4] 7
              [week_group reg 2 r2; week_group reg 1 r1; week_group pre 3 p3] w)
    as (p2 & ->); [left; by apply has_results_exists | |].
  { by rewrite (has_results_exists _ _ Hp2). }
  change (7 - 1 =? 0) with false. cbn iota. change (7 - 1) with 6. cbn [app].
  destruct (ats_walk_take 2 pre 1 [0; -1; -2; -3; -4] 6
              [week_group reg 2 r2; week_group reg 1 r1; week_group pre 3 p3;
               week_group pre 2 p2] w)
    as (p1 & ->); [left; by apply has_results_exists | |].
  { by rewrite (has_results_exists _ _ Hp1). }
  change (6 - 1 =? 0) with false. cbn iota. change (6 - 1) with 5. cbn [app].
  assert (Hpre_reg : endswith pre "REG" = false)
    by (apply endswith_other_tag; [reflexivity | discriminate]).
  assert (Hpre_pre : endswith pre "PRE" = true) by apply endswith_append.
  destruct (exists_in w (odds_file pre 0)) eqn:Hzero.
  - destruct (ats_walk_take 2 pre 0 [-1; -2; -3; -4] 5
                [week_group reg 2 r2; week_group reg 1 r1; week_group pre 3 p3;
                 week_group pre 2 p2; week_group pre 1 p1] w)
      as (p0 & ->); [by left | by rewrite Hzero; apply Hpre0 |].
    change (5 - 1 =? 0) with false. cbn iota. change (5 - 1) with 4. cbn [app].
    rewrite !ats_walk_skip by (done || lia).
    cbn [ats_walk mret]. change (0 <? 4) with true. cbn iota.
    rewrite Hpre_reg, Hpre_pre, ats_loop_done.
    eexists. split; [reflexivity|]. reflexivity.
  - rewrite !ats_walk_skip by (done || lia).
    cbn [ats_walk mret]. change (0 <? 5) with true. cbn iota.
    rewrite Hpre_reg, Hpre_pre, ats_loop_done.
    eexists. split; [reflexivity|]. reflexivity.
Qed.

(** C8, as amended.  When the current week is 2 and the cache holds REG
    weeks 2 (dated, or in the current-week slot) and 1 and PRE weeks 3, 2
    and 1, and no file of an earlier week number, the builder returns
    without error and writes the groups REG 2, REG 1, PRE 3, PRE 2, PRE 1,
    followed by PRE 0 when that file exists: five groups, or six. *)
Theorem ats_window_at_week_two E fuel year w :
  let reg := str_int year +:+ "REG" in
  let pre := str_int year +:+ "PRE" in
  status_code (server E (trace w) current_week_url) = 200 ->
  json (server E (trace w) current_week_url) = Some (PInt 2) ->
  has_results w (if exists_in w (odds_file reg 2) then odds_file reg 2
                 else current_week_file) = true ->
  Forall (fun path => has_results w path = true)
    [odds_file reg 1; odds_file pre 3; odds_file pre 2; odds_file pre 1] ->
  (exists_in w (odds_file pre 0) = true -> has_results w (odds_file pre 0) = true) ->
  Forall (fun week => exists_in w (odds_file reg week) = false) (py_range_down 0 (-8)) ->
  Forall (fun week => exists_in w (odds_file pre week) = false) (py_range_down (-1) (-5)) ->
  (2 <= fuel)%nat ->
  exists w' doc,
    cache_ats_data E 2 fuel reg year w = (Ret (Some tt), w')
    /\ files w' !! ats_file = Some doc
    /\ group_keys doc
       = [(reg, 2); (reg, 1); (pre, 3); (pre, 2); (pre, 1)]
           ++ (if exists_in w (odds_file pre 0) then [(pre, 0)] else []).
Proof.
  intros reg pre Hstatus Hjson Hreg2 Hfiles Hpre0 Hreg_none Hpre_none Hfuel.
  subst reg pre. unfold cache_ats_data.
  destruct (ensure_dir_frame "ats_data" w) as (w1 & Hdir & Hf1 & Ht1 & _ & Hd1).
  unfold bind at 1. rewrite Hdir.
  unfold bind at 1. rewrite fetch_current_week_200 with (n := 2) by by rewrite Ht1.
  set (w2 := {| files := files w1; dirs := dirs w1; log := log w1;
                trace := trace w1 ++ [current_week_url] |}).
  assert (Hex : forall season week,
             exists_in w2 (odds_file season week) = exists_in w (odds_file season week))
    by (intros; by apply exists_in_odds_file_frame).
  assert (Hres : forall path, has_results w2 path = has_results w path)
    by (intros; by apply has_results_frame).
  destruct (ats_loop_at_week_two fuel year w2) as (weeks_data & Hloop & Hkeys).
  - rewrite Hex, Hres. exact Hreg2.
  - eapply Forall_impl; [exact Hfiles|]. intros path. by rewrite Hres.
  - rewrite Hex, Hres. exact Hpre0.
  - eapply Forall_impl; [exact Hreg_none|]. intros week. by rewrite Hex.
  - eapply Forall_impl; [exact Hpre_none|]. intros week. by rewrite Hex.
  - exact Hfuel.
  - cbv zeta. unfold bind at 1. fold w2. rewrite Hloop.
    unfold bind, write_file, mret. eexists _, _. split; [reflexivity|].
    cbn [files]. split; [apply lookup_insert_eq|].
    cbn [group_keys]. rewrite Hkeys. by rewrite Hex.
Qed.

(** C8 on a cache without the preseason week 0: five groups. *)
Lemma ats_window_without_preseason_week_zero :
  exists w' doc,
    cache_ats_data env_week_two 2 2 "2023REG" 2023 ats_cache_five = (Ret (Some tt), w')
    /\ files w' !! ats_file = Some doc
    /\ group_keys doc
       = [("2023REG", 2); ("2023REG", 1); ("2023PRE", 3); ("2023PRE", 2); ("2023PRE", 1)].
Proof.
  apply (ats_window_at_week_two env_week_two 2 2023 ats_cache_five).
  all: try (vm_compute; reflexivity).
  all: try (repeat constructor; fail).
  all: try lia.
  intros H. vm_compute in H. discriminate.
Defined.

(** C8 as stated fails: with every file of the preseason on disk, week 0
    included, the builder writes six groups. *)
Lemma ats_window_with_preseason_week_zero :
  let run := cache_ats_data env_week_two 2 5 "2023REG" 2023 ats_cache_full in
  fst run = Ret (Some tt)
  /\ (group_keys <$> files (snd run) !! ats_file)
     = Some [("2023REG", 2); ("2023REG", 1); ("2023PRE", 3); ("2023PRE", 2);
             ("2023PRE", 1); ("2023PRE", 0)].
Proof. vm_compute. split; reflexivity. Qed.

(** ** The requests to the resolver endpoints *)

Lemma resolver_requests_app us vs :
  resolver_requests (us ++ vs) = resolver_requests us ++ resolver_requests vs.
Proof. apply List.filter_app. Qed.

Lemma asks_silent {A} (c : M A) :
  (forall w, trace (snd (c w)) = trace w) -> asks c [].
Proof.
  intros H w. exists [], 0%nat. rewrite app_nil_r. split; [apply H|]. done.
Qed.

Lemma asks_bind {A B} (c : M A) (k : A -> M B) l1 l2 :
  asks c l1 -> (forall a, asks (k a) l2) -> asks (bind c k) (l1 ++ l2).
Proof.
  intros Hc Hk w. destruct (Hc w) as (us & n & Ht & Hn & Hret).
  unfold bind. destruct (c w) as [[a|e] w'] eqn:Hcw; cbn [fst snd] in *.
  - destruct (Hk a w') as (vs & m & Ht' & Hm & Hret').
    exists (us ++ vs), (length l1 + m)%nat.
    split; [by rewrite Ht', Ht, app_assoc|].
    rewrite resolver_requests_app, (Hret a eq_refl). split.
    + by rewrite take_app_add, Hm.
    + intros b Hb. by rewrite (Hret' b Hb).
  - exists us, (n `min` length l1)%nat. split; [done|]. split; [|done].
    rewrite Hn. rewrite take_app_le by lia.
    destruct (Nat.min_spec n (length l1)) as [[? ->]|[? ->]]; [done|].
    by rewrite !take_ge by lia.
Qed.

Lemma asks_eq {A} (c : M A) l l' : asks c l -> l = l' -> asks c l'.
Proof. by intros H <-. Qed.

Lemma asks_request E url :
  asks (requests_get E url) (resolver_requests [url]).
Proof.
  intros w. exists [url], (length (resolver_requests [url])).
  split; [done|]. split; [by rewrite firstn_all|done].
Qed.

Lemma asks_for_each {A} (l : list A) (body : A -> M unit) :
  (forall a, asks (body a) []) -> asks (for_each l body) [].
Proof.
  intros Hb. induction l as [|a l IH]; cbn [for_each].
  - by apply asks_silent.
  - apply (asks_bind _ _ [] []); auto.
Qed.

#[local] Ltac silent := apply asks_silent; intros ?; reflexivity.

Lemma asks_print line : asks (print line) [].
Proof. silent. Qed.
Lemma asks_mret {A} (a : A) : asks (mret a) [].
Proof. silent. Qed.
Lemma asks_mraise {A} e : asks (@mraise A e) [].
Proof. silent. Qed.
Lemma asks_lift {A} (o : outcome A) : asks (lift o) [].
Proof. silent. Qed.
Lemma asks_now E : asks (now E) [].
Proof. silent. Qed.
Lemma asks_path_exists path : asks (path_exists path) [].
Proof. silent. Qed.
Lemma asks_makedirs path : asks (makedirs path) [].
Proof. silent. Qed.
Lemma asks_write_file path c : asks (write_file path c) [].
Proof. silent. Qed.
Lemma asks_read_csv path : asks (read_csv path) [].
Proof.
  apply asks_silent. intros w. unfold read_csv. by destruct (files w !! path) as [[]|].
Qed.

Lemma asks_ensure_dir path : asks (ensure_dir path) [].
Proof.
  unfold ensure_dir. apply (asks_bind _ _ [] []); [apply asks_path_exists|].
  intros []; [apply asks_makedirs || apply asks_mret | apply asks_makedirs || apply asks_mret].
Qed.

Lemma asks_bind_silent {A B} (c : M A) (k : A -> M B) :
  asks c [] -> (forall a, asks (k a) []) -> asks (bind c k) [].
Proof. apply (asks_bind c k [] []). Qed.

Lemma odds_url_not_resolver season week : is_resolver_url (odds_url season week) = false.
Proof.
  unfold is_resolver_url, odds_url. rewrite !append_cons.
  set (a := current_season_url). set (b := current_week_url).
  vm_compute in a, b. subst a b. reflexivity.
Qed.

Lemma scores_url_not_resolver season week : is_resolver_url (scores_url season week) = false.
Proof.
  unfold is_resolver_url, scores_url. rewrite !append_cons.
  set (a := current_season_url). set (b := current_week_url).
  vm_compute in a, b. subst a b. reflexivity.
Qed.

Lemma schedule_url_not_resolver season : is_resolver_url (schedule_url season) = false.
Proof.
  unfold is_resolver_url, schedule_url. rewrite !append_cons.
  set (a := current_season_url). set (b := current_week_url).
  vm_compute in a, b. subst a b. reflexivity.
Qed.

Lemma asks_other_request E url : is_resolver_url url = false -> asks (requests_get E url) [].
Proof.
  intros H. eapply asks_eq; [apply asks_request|].
  unfold resolver_requests. cbn. by rewrite H.
Qed.

#[local] Ltac quiet_with leaf :=
  cbv beta;
  lazymatch goal with
  | |- asks (bind _ _) _ =>
      apply asks_bind_silent; [quiet_with leaf | intros ?; quiet_with leaf]
  | |- asks (for_each _ _) _ => apply asks_for_each; intros ?; quiet_with leaf
  | |- asks (print _) _ => apply asks_print
  | |- asks (mret _) _ => apply asks_mret
  | |- asks (mraise _) _ => apply asks_mraise
  | |- asks (lift _) _ => apply asks_lift
  | |- asks (now _) _ => apply asks_now
  | |- asks (path_exists _) _ => apply asks_path_exists
  | |- asks (makedirs _) _ => apply asks_makedirs
  | |- asks (write_file _ _) _ => apply asks_write_file
  | |- asks (to_csv _ _) _ => apply asks_write_file
  | |- asks (read_csv _) _ => apply asks_read_csv
  | |- asks (ensure_dir _) _ => apply asks_ensure_dir
  | |- asks (requests_get _ (odds_url _ _)) _ =>
      apply asks_other_request, odds_url_not_resolver
  | |- asks (requests_get _ (scores_url _ _)) _ =>
      apply asks_other_request, scores_url_not_resolver
  | |- asks (requests_get _ (schedule_url _)) _ =>
      apply asks_other_request, schedule_url_not_resolver
  | |- asks (if ?b then _ else _) _ => destruct b; quiet_with leaf
  | |- asks (match ?o with Some _ => _ | None => _ end) _ => destruct o; quiet_with leaf
  | |- asks (let '(_, _) := ?p in _) _ => destruct p; quiet_with leaf
  | |- _ => leaf
  end.

#[local] Ltac quiet := quiet_with idtac.

Lemma asks_odds_week E TW season week : asks (odds_week E TW season week) [].
Proof. unfold odds_week. quiet. Qed.

Lemma asks_cache_odds_data E TY TW season : asks (cache_odds_data E TY TW season) [].
Proof. unfold cache_odds_data. quiet_with ltac:(idtac; apply asks_odds_week). Qed.

Lemma asks_scores_week E season week : asks (scores_week E season week) [].
Proof. unfold scores_week. quiet. Qed.

Lemma asks_cache_scores_data E TY TW season : asks (cache_scores_data E TY TW season) [].
Proof. unfold cache_scores_data. quiet_with ltac:(idtac; apply asks_scores_week). Qed.

Lemma asks_cache_schedule_data E season : asks (cache_schedule_data E season) [].
Proof. unfold cache_schedule_data. quiet. Qed.

Lemma asks_cache_old_data E TY TW : asks (cache_old_data E TY TW) [].
Proof.
  unfold cache_old_data, backfill_season, backfill_schedule, backfill_odds_week,
    backfill_scores_week.
  quiet_with ltac:(idtac; lazymatch goal with
                   | |- asks (cache_schedule_data _ _) _ => apply asks_cache_schedule_data
                   | |- asks (cache_odds_data _ _ _ _) _ => apply asks_cache_odds_data
                   | |- asks (cache_scores_data _ _ _ _) _ => apply asks_cache_scores_data
                   end).
Qed.

Lemma asks_ats_walk TW cst weeks n data : asks (ats_walk TW cst weeks n data) [].
Proof.
  revert n data. induction weeks as [|week rest IH]; intros n data; cbn [ats_walk].
  - apply asks_mret.
  - quiet_with ltac:(idtac; apply IH).
Qed.

Lemma asks_ats_loop TW fuel year cst e s n data : asks (ats_loop TW fuel year cst e s n data) [].
Proof.
  revert cst e s n data. induction fuel as [|fuel IH]; intros cst e s n data; cbn [ats_loop].
  - quiet.
  - destruct (0 <? n); [|apply asks_mret].
    apply asks_bind_silent; [apply asks_ats_walk|]. intros [n' data'].
    quiet_with ltac:(idtac; apply IH).
Qed.

Lemma asks_fetch_current_season_year E :
  asks (fetch_current_season_year E) [current_season_url].
Proof.
  unfold fetch_current_season_year.
  apply (asks_bind _ _ [current_season_url] []); [apply asks_request|].
  intros r. quiet.
Qed.

Lemma asks_fetch_current_week E : asks (fetch_current_week E) [current_week_url].
Proof.
  unfold fetch_current_week.
  apply (asks_bind _ _ [current_week_url] []); [apply asks_request|].
  intros r. quiet.
Qed.

Lemma asks_cache_ats_data E TW fuel cst year :
  asks (cache_ats_data E TW fuel cst year) [current_week_url].
Proof.
  unfold cache_ats_data.
  apply (asks_bind _ _ [] [current_week_url]); [apply asks_ensure_dir|]. intros _.
  apply (asks_bind _ _ [current_week_url] []); [apply asks_fetch_current_week|]. intros n.
  apply asks_bind_silent; [apply asks_ats_loop|]. intros walked. quiet.
Qed.

Lemma asks_main_block E TY TW fuel :
  asks (main_block E TY TW fuel) [current_season_url; current_week_url].
Proof.
  unfold main_block.
  apply (asks_bind _ _ [current_season_url] [current_week_url]);
    [apply asks_fetch_current_season_year|]. intros year.
  repeat (apply (asks_bind _ _ [] [current_week_url]);
          [lazymatch goal with
           | |- asks cache_old_data _ => apply asks_cache_old_data
           | |- asks (cache_old_data _ _ _) _ => apply asks_cache_old_data
           | |- asks (print _) _ => apply asks_print
           | |- asks (cache_schedule_data _ _) _ => apply asks_cache_schedule_data
           | |- asks (cache_odds_data _ _ _ _) _ => apply asks_cache_odds_data
           | |- asks (cache_scores_data _ _ _ _) _ => apply asks_cache_scores_data
           end | intros _]).
  apply (asks_bind _ _ [current_week_url] []); [apply asks_cache_ats_data|].
  intros finished. quiet.
Qed.

(** C9, as amended.  A run binds [THIS_YEAR] and [THIS_WEEK] once, and they
    reach the writers and the backfill as they were bound; but it asks the
    resolver endpoints again: the requests a run sends to them are, in
    order, season, week (the module constants), season (the driver's
    [season_year]) and week (the ATS builder's [end_week]), all four of them
    whenever the run returns. *)
Theorem resolver_is_asked_twice E fuel w :
  exists urls (k : nat),
    trace (snd (script E fuel w)) = trace w ++ urls
    /\ resolver_requests urls
       = take k [current_season_url; current_week_url; current_season_url; current_week_url]
    /\ forall a, fst (script E fuel w) = Ret a ->
         resolver_requests urls
         = [current_season_url; current_week_url; current_season_url; current_week_url].
Proof.
  revert w. change (asks (script E fuel)
    [current_season_url; current_week_url; current_season_url; current_week_url]).
  unfold script.
  apply (asks_bind _ _ [current_season_url]
           [current_week_url; current_season_url; current_week_url]);
    [apply asks_fetch_current_season_year|]. intros TY.
  apply (asks_bind _ _ [current_week_url] [current_season_url; current_week_url]);
    [apply asks_fetch_current_week|]. intros TW.
  apply asks_main_block.
Qed.

(** C9 as stated fails: on an API that says week 2 and then week 1, the
    writers store week 2 in the current-week slot while the ATS builder
    starts its window at week 1. *)
Lemma week_is_resolved_again :
  let run := script env_week_changes 5 empty_world in
  fst run = Ret (Some tt)
  /\ resolver_requests (trace (snd run))
     = [current_season_url; current_week_url; current_season_url; current_week_url]
  /\ fst (fetch_current_week env_week_changes
            {| files := ∅; dirs := ∅; log := []; trace := [current_season_url] |}) = Ret 2
  /\ files (snd run) !! odds_file "2023REG" 2 = None
  /\ is_Some (files (snd run) !! current_week_file)
  /\ (take 1 ∘ group_keys <$> files (snd run) !! ats_file) = Some [("2023REG", 1)].
Proof. vm_compute. repeat split; eauto. Qed.

(** ** The weeks a writer requests *)

Lemma for_each_requests {A} (body : A -> M unit) (url : A -> string) l w :
  (forall a w, trace (snd (body a w)) = trace w ++ [url a]) ->
  exists k : nat,
    trace (snd (for_each l body w)) = trace w ++ (url <$> take k l)
    /\ (l <> [] -> (0 < k)%nat).
Proof.
  intros Hbody. revert w. induction l as [|a l IH]; intros w; cbn [for_each].
  - exists 0%nat. cbn. by rewrite app_nil_r.
  - unfold bind. specialize (Hbody a w).
    destruct (body a w) as [[[]|e] w']; cbn [fst snd] in *.
    + destruct (IH w') as (k & Hk & _). exists (S k). split; [|lia].
      rewrite Hk, Hbody. cbn [take fmap list_fmap]. by rewrite <- app_assoc.
    + exists 1%nat. split; [|lia]. rewrite Hbody. cbn [take fmap list_fmap]. by rewrite take_0.
Qed.

Lemma cache_odds_data_requests_weeks E TY TW season :
  requests_weeks (cache_odds_data E TY TW season) (odds_url season)
    (odds_week_range TY TW season).
Proof.
  intros w. split; [|intros []; apply cache_odds_data_requests].
  unfold cache_odds_data. unfold bind.
  destruct (ensure_dir_frame "odds_data" w) as (w1 & -> & _ & <- & _).
  apply for_each_requests, odds_week_trace.
Qed.

Lemma cache_scores_data_requests_weeks E TY TW season :
  requests_weeks (cache_scores_data E TY TW season) (scores_url season)
    (scores_week_range TY TW season).
Proof.
  intros w. split; [|intros []; apply cache_scores_data_requests].
  unfold cache_scores_data. unfold bind.
  destruct (ensure_dir_frame "scores_data" w) as (w1 & -> & _ & <- & _).
  apply for_each_requests, scores_week_trace.
Qed.

Lemma append_inj_r s1 s2 t : s1 +:+ t = s2 +:+ t -> s1 = s2.
Proof.
  revert s2. induction s1 as [|a s1 IH]; intros [|b s2] H.
  - done.
  - apply (f_equal String.length) in H. rewrite !length_append in H.
    cbn [String.length] in H. lia.
  - apply (f_equal String.length) in H. rewrite !length_append in H.
    cbn [String.length] in H. lia.
  - rewrite !append_cons in H. injection H as -> H. f_equal. by apply IH.
Qed.

Lemma scores_url_inj season week week' :
  scores_url season week = scores_url season week' -> week = week'.
Proof.
  unfold scores_url. intros H.
  apply String.app_inj, String.app_inj, String.app_inj in H.
  apply append_inj_r in H. by apply (inj pretty).
Qed.

(** C3. The weeks a cache writer requests are fixed by the type of the
    SeasonId and the current week.  For SeasonIds made of a four-digit year
    and a type, and whatever the API answers: each writer requests, in
    order, weeks 0, 1, 2, 3 of a PRE season and weeks 1, 2, 3, 4 of a POST
    season; weeks 1..17 of a REG season of another year than [THIS_YEAR];
    and of the REG season of [THIS_YEAR] the odds writer requests weeks
    1..[THIS_WEEK] and the scores writer weeks 1..[THIS_WEEK]-1.  A run
    that returns has requested all of them and nothing else, a run that
    raises the first ones; the scores of the current week are never
    requested. *)
Theorem requested_weeks_by_season_type E THIS_YEAR THIS_WEEK y :
  1000 <= THIS_YEAR <= 9999 -> 1000 <= y <= 9999 ->
  (requests_weeks (cache_odds_data E THIS_YEAR THIS_WEEK (str_int y +:+ "PRE"))
     (odds_url (str_int y +:+ "PRE")) [0; 1; 2; 3]
   /\ requests_weeks (cache_scores_data E THIS_YEAR THIS_WEEK (str_int y +:+ "PRE"))
        (scores_url (str_int y +:+ "PRE")) [0; 1; 2; 3])
  /\ (requests_weeks (cache_odds_data E THIS_YEAR THIS_WEEK (str_int y +:+ "POST"))
        (odds_url (str_int y +:+ "POST")) [1; 2; 3; 4]
      /\ requests_weeks (cache_scores_data E THIS_YEAR THIS_WEEK (str_int y +:+ "POST"))
           (scores_url (str_int y +:+ "POST")) [1; 2; 3; 4])
  /\ (y <> THIS_YEAR ->
      requests_weeks (cache_odds_data E THIS_YEAR THIS_WEEK (str_int y +:+ "REG"))
        (odds_url (str_int y +:+ "REG"))
        [1; 2; 3; 4; 5; 6; 7; 8; 9; 10; 11; 12; 13; 14; 15; 16; 17]
      /\ requests_weeks (cache_scores_data E THIS_YEAR THIS_WEEK (str_int y +:+ "REG"))
           (scores_url (str_int y +:+ "REG"))
           [1; 2; 3; 4; 5; 6; 7; 8; 9; 10; 11; 12; 13; 14; 15; 16; 17])
  /\ (requests_weeks
        (cache_odds_data E THIS_YEAR THIS_WEEK (str_int THIS_YEAR +:+ "REG"))
        (odds_url (str_int THIS_YEAR +:+ "REG")) (py_range 1 (THIS_WEEK + 1))
      /\ requests_weeks
           (cache_scores_data E THIS_YEAR THIS_WEEK (str_int THIS_YEAR +:+ "REG"))
           (scores_url (str_int THIS_YEAR +:+ "REG")) (py_range 1 THIS_WEEK)
      /\ (forall week,
            (week ∈ py_range 1 (THIS_WEEK + 1) <-> 1 <= week <= THIS_WEEK)
            /\ (week ∈ py_range 1 THIS_WEEK <-> 1 <= week <= THIS_WEEK - 1))
      /\ forall w,
           scores_url (str_int THIS_YEAR +:+ "REG") THIS_WEEK
           ∉ drop (length (trace w))
               (trace (snd (cache_scores_data E THIS_YEAR THIS_WEEK
                              (str_int THIS_YEAR +:+ "REG") w)))).
Proof.
  intros HT Hy.
  destruct (week_ranges_by_season_type THIS_YEAR THIS_WEEK y HT Hy)
    as ((Hpre1 & Hpre2) & (Hpost1 & Hpost2) & Hreg & Hcur1 & Hcur2 & _).
  pose proof (cache_odds_data_requests_weeks E THIS_YEAR THIS_WEEK) as Hodds.
  pose proof (cache_scores_data_requests_weeks E THIS_YEAR THIS_WEEK) as Hscores.
  split; [split; [rewrite <- Hpre1 | rewrite <- Hpre2]; done|].
  split; [split; [rewrite <- Hpost1 | rewrite <- Hpost2]; done|].
  split.
  { intros Hne. destruct (Hreg Hne) as [H1 H2].
    split; [rewrite <- H1 | rewrite <- H2]; done. }
  split; [rewrite <- Hcur1; done|]. split; [rewrite <- Hcur2; done|].
  split; [intros week; rewrite !elem_of_py_range; lia|].
  intros w.
  destruct (Hscores (str_int THIS_YEAR +:+ "REG") w) as [(k & -> & _) _].
  rewrite Hcur2, drop_app_length. intros Hin.
  apply list_elem_of_fmap in Hin as (week & Heq & Hin).
  apply scores_url_inj in Heq as <-.
  apply elem_of_take in Hin as (i & Hin & _).
  apply list_elem_of_lookup_2, elem_of_py_range in Hin. lia.
Qed.

(** C3 in week 3 of 2023, with an API that answers 500. *)
Lemma requested_weeks_in_2023 :
  trace (snd (cache_odds_data (env_down (Date 2023 9 20)) 2023 3 "2023REG" empty_world))
  = trace empty_world ++ (odds_url "2023REG" <$> [1; 2; 3])
  /\ trace (snd (cache_scores_data (env_down (Date 2023 9 20)) 2023 3 "2023REG" empty_world))
     = trace empty_world ++ (scores_url "2023REG" <$> [1; 2])
  /\ trace (snd (cache_odds_data (env_down (Date 2023 9 20)) 2023 3 "2022PRE" empty_world))
     = trace empty_world ++ (odds_url "2022PRE" <$> [0; 1; 2; 3])
  /\ trace (snd (cache_scores_data (env_down (Date 2023 9 20)) 2023 3 "2022POST" empty_world))
     = trace empty_world ++ (scores_url "2022POST" <$> [1; 2; 3; 4])
  /\ trace (snd (cache_odds_data (env_down (Date 2023 9 20)) 2023 3 "2022REG" empty_world))
     = trace empty_world
       ++ (odds_url "2022REG"
             <$> [1; 2; 3; 4; 5; 6; 7; 8; 9; 10; 11; 12; 13; 14; 15; 16; 17]).
Proof.
  destruct (requested_weeks_by_season_type (env_down (Date 2023 9 20)) 2023 3 2022
              ltac:(lia) ltac:(lia))
    as ((Hpre & _) & (_ & Hpost) & Hreg & Hcur_odds & Hcur_scores & _).
  destruct (Hreg ltac:(lia)) as [Hreg_odds _].
  split; [apply (proj2 (Hcur_odds empty_world) tt); vm_compute; reflexivity|].
  split; [apply (proj2 (Hcur_scores empty_world) tt); vm_compute; reflexivity|].
  split; [apply (proj2 (Hpre empty_world) tt); vm_compute; reflexivity|].
  split; [apply (proj2 (Hpost empty_world) tt); vm_compute; reflexivity|].
  apply (proj2 (Hreg_odds empty_world) tt); vm_compute; reflexivity.
Defined.

(** * Further properties of the code *)

(** ** The consensus spread *)

Lemma consensus_spread_skips before rest :
  forallb is_other_book before = true ->
  consensus_spread (before ++ rest) = consensus_spread rest.
Proof.
  induction before as [|v before IH]; [done|]. cbn [forallb app].
  intros H. apply andb_true_iff in H as [Hv Hb].
  destruct v as [| | | | | | |d]; try discriminate. cbn [consensus_spread is_other_book] in *.
  unfold dict_item. destruct (dict_get "Sportsbook" d) as [book|]; [|discriminate].
  cbn [obind]. apply negb_true_iff in Hv. rewrite Hv. by apply IH.
Qed.

(** X4. The loop over [PregameOdds] stops at the first Consensus quote: when
    every quote before it names another sportsbook, the spread is that
    quote's [HomePointSpread] ([None] if it has none), whatever follows. *)
Theorem first_consensus_quote_decides before d rest :
  forallb is_other_book before = true ->
  dict_get "Sportsbook" d = Some (PStr "Consensus") ->
  consensus_spread (before ++ PDict d :: rest)
  = Ret (default PNone (dict_get "HomePointSpread" d)).
Proof.
  intros Hb Hd. rewrite consensus_spread_skips by done.
  cbn [consensus_spread]. unfold dict_item. by rewrite Hd.
Qed.

(** X4 on a list with two Consensus quotes: the first one decides. *)
Lemma first_consensus_quote_of_two :
  consensus_spread
    ([sample_quote "Bovada" (PFloat (-3))]
       ++ PDict [("Sportsbook", PStr "Consensus"); ("HomePointSpread", PFloat (-7 # 2))]
       :: [sample_quote "Consensus" (PFloat 1)])
  = Ret (PFloat (-7 # 2)).
Proof.
  apply (first_consensus_quote_decides [sample_quote "Bovada" (PFloat (-3))]
           [("Sportsbook", PStr "Consensus"); ("HomePointSpread", PFloat (-7 # 2))]
           [sample_quote "Consensus" (PFloat 1)]); reflexivity.
Defined.

(** X5. A row that has the five keys the function reads and whose quotes all
    name a sportsbook other than Consensus is reported as "No Data",
    whatever its scores. *)
Theorem no_consensus_quote_is_no_data row home away hs as_ odds :
  dict_get "HomeTeamName" row = Some home ->
  dict_get "AwayTeamName" row = Some away ->
  dict_get "HomeTeamScore" row = Some hs ->
  dict_get "AwayTeamScore" row = Some as_ ->
  dict_get "PregameOdds" row = Some (PList odds) ->
  forallb is_other_book odds = true ->
  compute_covered_team row = Ret (PStr "No Data").
Proof.
  intros Hhome Haway Hhs Has Hodds Hother.
  unfold compute_covered_team, dict_item.
  rewrite Hhome, Haway, Hhs, Has, Hodds. cbn [obind py_iter].
  rewrite <- (app_nil_r odds), consensus_spread_skips by done. reflexivity.
Qed.

(** X5 on a final game quoted by Bovada and FanDuel only. *)
Lemma no_consensus_quote_sample :
  compute_covered_team
    (sample_game "KC" "DET" (PStr "Final") (PInt 20) (PInt 17)
       [sample_quote "Bovada" (PFloat (-3)); sample_quote "FanDuel" (PFloat (-3))])
  = Ret (PStr "No Data").
Proof.
  apply (no_consensus_quote_is_no_data _ (PStr "KC") (PStr "DET") (PInt 20) (PInt 17)
           [sample_quote "Bovada" (PFloat (-3)); sample_quote "FanDuel" (PFloat (-3))]);
    reflexivity.
Defined.

(** X6. A quote without a [Sportsbook] key that is reached before any
    Consensus quote makes the loop raise [KeyError('Sportsbook')]: the loop
    subscripts the key, it does not use [get]. *)
Theorem quote_without_sportsbook_raises before d rest :
  forallb is_other_book before = true ->
  dict_get "Sportsbook" d = None ->
  consensus_spread (before ++ PDict d :: rest) = Raise (KeyError "Sportsbook").
Proof.
  intros Hb Hd. rewrite consensus_spread_skips by done.
  cbn [consensus_spread]. unfold dict_item. by rewrite Hd.
Qed.

(** X6 on a list whose second quote has no [Sportsbook]. *)
Lemma quote_without_sportsbook_sample :
  consensus_spread
    ([sample_quote "Bovada" (PFloat (-3))]
       ++ PDict [("HomePointSpread", PFloat (-7 # 2))]
       :: [sample_quote "Consensus" (PFloat 1)])
  = Raise (KeyError "Sportsbook").
Proof.
  apply (quote_without_sportsbook_raises [sample_quote "Bovada" (PFloat (-3))]
           [("HomePointSpread", PFloat (-7 # 2))] [sample_quote "Consensus" (PFloat 1)]);
    reflexivity.
Defined.

(** X7. [compute_covered_team] subscripts the two team names, the two
    scores and [PregameOdds], in this order: the first of these keys that
    the row lacks is the [KeyError] it raises. *)
Theorem missing_key_raises row k :
  List.find (lacks row) required_keys = Some k ->
  compute_covered_team row = Raise (KeyError k).
Proof.
  unfold required_keys, lacks, compute_covered_team, dict_item. cbn [List.find].
  destruct (dict_get "HomeTeamName" row); [|intros [= <-]; reflexivity].
  destruct (dict_get "AwayTeamName" row); [|intros [= <-]; reflexivity].
  destruct (dict_get "HomeTeamScore" row); [|intros [= <-]; reflexivity].
  destruct (dict_get "AwayTeamScore" row); [|intros [= <-]; reflexivity].
  destruct (dict_get "PregameOdds" row); [discriminate|intros [= <-]; reflexivity].
Qed.

(** X7 on a row without [HomeTeamScore]. *)
Lemma missing_score_key_raises :
  compute_covered_team
    [("HomeTeamName", PStr "KC"); ("AwayTeamName", PStr "DET");
     ("AwayTeamScore", PInt 17); ("PregameOdds", PList [])]
  = Raise (KeyError "HomeTeamScore").
Proof.
  apply (missing_key_raises
           [("HomeTeamName", PStr "KC"); ("AwayTeamName", PStr "DET");
            ("AwayTeamScore", PInt 17); ("PregameOdds", PList [])] "HomeTeamScore").
  reflexivity.
Defined.

(** X1 on the sample game: 20 - 3.5 < 17, the away team covers. *)
Lemma covered_team_kc_det :
  compute_covered_team game_kc_det = Ret (PStr "DET").
Proof.
  apply (compute_covered_team_numbers game_kc_det (PStr "KC") (PStr "DET") (PInt 20)
           (PInt 17)
           [sample_quote "Bovada" (PFloat (-3)); sample_quote "Consensus" (PFloat (-7 # 2))]
           (PFloat (-7 # 2)) 20 17 (-7 # 2)); reflexivity.
Defined.

(** X2 on a row whose home score is [None]. *)
Lemma covered_team_null_score :
  compute_covered_team game_nyj_buf = Ret (PStr "No Data").
Proof.
  apply (compute_covered_team_no_data game_nyj_buf (PStr "NYJ") (PStr "BUF") PNone
           (PInt 16)
           [sample_quote "Consensus" (PFloat (5 # 2)); sample_quote "FanDuel" (PFloat 3)]
           (PFloat (5 # 2))); try reflexivity.
  right. by left.
Defined.

(** X3 on a row whose home score is NaN. *)
Lemma covered_team_nan_score :
  compute_covered_team
    (sample_game "NYJ" "BUF" (PStr "Final") PNaN (PInt 16)
       [sample_quote "Consensus" (PFloat (5 # 2))])
  = Ret (PStr "Push").
Proof.
  apply (compute_covered_team_nan_score _ (PStr "NYJ") (PStr "BUF") (PInt 16)
           [sample_quote "Consensus" (PFloat (5 # 2))] (PFloat (5 # 2)) 16 (5 # 2));
    reflexivity.
Defined.

(** ** Columns and cells of a frame *)

(** *** The keys of a frame *)

Lemma elem_of_add_key k acc k' : k ∈ add_key acc k' <-> k ∈ acc \/ k = k'.
Proof.
  unfold add_key. destruct (mem k' acc) eqn:Hm.
  - apply mem_true in Hm. split; [by left|]. intros [H| ->]; done.
  - rewrite elem_of_app, list_elem_of_singleton. done.
Qed.

Lemma elem_of_add_keys k acc ks : k ∈ foldl add_key acc ks <-> k ∈ acc \/ k ∈ ks.
Proof.
  revert acc. induction ks as [|k' ks IH]; intros acc; cbn [foldl].
  - rewrite elem_of_nil. tauto.
  - rewrite IH, elem_of_add_key, elem_of_cons. tauto.
Qed.

Lemma elem_of_union_keys_acc k acc records :
  k ∈ foldl (fun acc r => foldl add_key acc (dict_keys r)) acc records
  <-> k ∈ acc \/ exists r, r ∈ records /\ k ∈ dict_keys r.
Proof.
  revert acc. induction records as [|r records IH]; intros acc; cbn [foldl].
  - split; [by left|]. intros [H|(r & Hr & _)]; [done|]. by apply elem_of_nil in Hr.
  - rewrite IH, elem_of_add_keys. split.
    + intros [[H|H]|(r' & Hr' & Hk)]; [by left | right | right].
      * exists r. split; [apply list_elem_of_here | done].
      * exists r'. split; [by apply list_elem_of_further | done].
    + intros [H|(r' & Hr' & Hk)]; [by left; left|].
      apply elem_of_cons in Hr' as [-> | Hr']; [by left; right|].
      right. by exists r'.
Qed.

(** A column of the frame is a key of one of the records. *)
Lemma elem_of_union_keys k records :
  k ∈ union_keys records <-> exists r, r ∈ records /\ k ∈ dict_keys r.
Proof.
  unfold union_keys. rewrite elem_of_union_keys_acc, elem_of_nil. tauto.
Qed.

Lemma dict_get_Some_keys k d v : dict_get k d = Some v -> k ∈ dict_keys d.
Proof.
  intros H. destruct (decide (k ∈ dict_keys d)) as [|Hn]; [done|].
  apply dict_get_None_keys in Hn. congruence.
Qed.

(** The cell of a record that has the key: the value as it is, or its float. *)
Lemma DataFrame_cell records (i : nat) g k v :
  records !! i = Some g -> dict_get k g = Some v ->
  exists r0,
    rows (DataFrame records) !! i = Some r0
    /\ (dict_get k r0 = Some v \/ dict_get k r0 = Some (to_float v)).
Proof.
  intros Hg Hk. unfold DataFrame. cbn [rows].
  eexists. split; [by rewrite list_lookup_fmap, Hg|].
  rewrite dict_get_tabulate.
  assert (Hm : mem k (union_keys records) = true).
  { apply mem_true, elem_of_union_keys. exists g.
    split; [by eapply list_elem_of_lookup_2 | by eapply dict_get_Some_keys]. }
  rewrite Hm. unfold cell. rewrite Hk. cbn.
  match goal with |- context [if ?b then _ else _] => destruct b end; auto.
Qed.

(** ** The [Odds] cell of each game *)

Lemma lookup_group_miss j grouped :
  (forall j' v, (j', v) ∈ grouped -> j' <> j) -> lookup_group j grouped = PNaN.
Proof.
  induction grouped as [|[j' v] grouped IH]; intros H; cbn; [done|].
  destruct (Z.eqb_spec j j') as [->|_].
  - destruct (H j' v); [apply list_elem_of_here | done].
  - apply IH. intros j'' v' Hin. apply (H j'' v'). by apply list_elem_of_further.
Qed.

Lemma odds_groups_keys ig (n : nat) frames j v :
  (j, v) ∈ odds_groups ig (zip (Z.of_nat <$> seq n (length frames)) frames) ->
  Z.of_nat n <= j.
Proof.
  intros H. apply odds_groups_elem in H as (f & Hf & _).
  apply list_elem_of_lookup in Hf as [i Hi].
  apply lookup_zip_with_Some in Hi as (j' & f' & Heq & Hj & _). injection Heq as <- <-.
  rewrite list_lookup_fmap in Hj.
  destruct (seq n (length frames) !! i) as [m|] eqn:Hm; [|discriminate].
  apply lookup_seq in Hm as [-> _]. cbn in Hj. injection Hj as <-. lia.
Qed.

(** The group looked up for a game is the one made of its own quotes, and
    NaN when none was kept. *)
Lemma lookup_group_odds_groups ig frames (n i : nat) f :
  frames !! i = Some f ->
  lookup_group (Z.of_nat (n + i))
    (odds_groups ig (zip (Z.of_nat <$> seq n (length frames)) frames))
  = if Nat.eqb (length (rows f)) 0 then PNaN else group_records ig f.
Proof.
  revert n i. induction frames as [|f0 frames IH]; intros n i Hf; [done|].
  cbn [length seq fmap list_fmap zip zip_with].
  unfold odds_groups. cbn [List.filter]. fold (odds_groups ig).
  destruct i as [|i]; cbn in Hf.
  - injection Hf as ->. rewrite Nat.add_0_r.
    destruct (Nat.eqb (length (rows f)) 0); cbn [negb fmap list_fmap lookup_group].
    + apply lookup_group_miss. intros j' v Hin.
      apply odds_groups_keys in Hin. lia.
    + by rewrite Z.eqb_refl.
  - replace (n + S i)%nat with (S n + i)%nat by lia.
    destruct (negb (Nat.eqb (length (rows f0)) 0));
      cbn [fmap list_fmap lookup_group].
    + destruct (Z.eqb_spec (Z.of_nat (S n + i)) (Z.of_nat n)); [lia|].
      by apply IH.
    + by apply IH.
Qed.

(** The flattened week, row by row: each game's quotes are framed on their
    own, its [Odds] cell is the group of the quotes that were kept (NaN when
    there is none), and its [CoveredTeam] cell is computed on the row that
    carries both. *)
Lemma flatten_week_exact ig body records fr :
  as_records body = Ret records ->
  flatten_week ig body = Ret fr ->
  forall (i : nat) r0,
    rows (DataFrame records) !! i = Some r0 ->
    exists pregame f c,
      dict_get "PregameOdds" r0 = Some pregame
      /\ pregame_frame (Z.of_nat i) pregame = Ret f
      /\ covered_team_cell
           (dict_set "Odds"
              (if Nat.eqb (length (rows f)) 0 then PNaN else group_records ig f)
              (dict_set "index" (PInt (Z.of_nat i)) r0)) = Ret c
      /\ rows fr !! i
         = Some (flattened_row (Z.of_nat i) r0
                   (if Nat.eqb (length (rows f)) 0 then PNaN else group_records ig f) c).
Proof.
  intros Hrec Hflat. unfold flatten_week in Hflat. rewrite Hrec in Hflat.
  cbn [obind] in Hflat.
  set (idx := Z.of_nat <$> seq 0 (length records)) in *.
  set (week_data := set_column "index" (PInt <$> idx) (DataFrame records)) in *.
  apply obind_Ret in Hflat as (frames & Hframes & Hflat).
  pose proof (omap_list_Forall2 _ _ _ Hframes) as Hall.
  assert (Hwl : length (rows week_data) = length records) by apply week_rows_length.
  assert (Hil : length idx = length records).
  { subst idx. by rewrite length_fmap, length_seq. }
  assert (Hfl : length frames = length records).
  { rewrite <- (Forall2_length _ _ _ Hall), length_zip_with. lia. }
  destruct frames as [|f0 frames0] eqn:Hfr; [discriminate|]. rewrite <- Hfr in *.
  destruct (odds_groups ig (zip idx frames)) as [|[j first] grouped] eqn:Hgroups;
    [by subst frames|].
  assert (Hflat' : obind
            (if Nat.eqb (length (rows week_data)) 1
             then Ret (set_column "Odds" [first] week_data)
             else merge_odds week_data idx ((j, first) :: grouped))
            (fun week_data' =>
               obind (omap_list covered_team_cell (rows week_data'))
                 (fun covered =>
                    drop_columns dropped_columns
                      (set_column "CoveredTeam" covered week_data'))) = Ret fr).
  { subst frames. exact Hflat. }
  clear Hflat. clear Hfr f0 frames0.
  apply obind_Ret in Hflat' as (week_data' & Hattach & Hflat).
  apply obind_Ret in Hflat as (covered & Hcovered & Hdrop).
  apply drop_columns_rows in Hdrop. cbn [rows set_column] in Hdrop.
  apply omap_list_Forall2 in Hcovered.
  intros i r0 Hr0.
  pose proof (week_rows_lookup records i r0 Hr0) as Hwi.
  fold idx in Hwi. fold week_data in Hwi.
  assert (Hi : (i < length records)%nat) by (apply lookup_lt_Some in Hwi; lia).
  assert (Hidx : idx !! i = Some (Z.of_nat i)).
  { subst idx. by rewrite list_lookup_fmap, lookup_seq_lt. }
  (* the frame of the game's quotes *)
  assert (Hzip : zip idx (rows week_data) !! i
                 = Some (Z.of_nat i, dict_set "index" (PInt (Z.of_nat i)) r0)).
  { apply lookup_zip_with_Some. eauto. }
  destruct (Forall2_lookup_l _ _ _ _ _ Hall Hzip) as (f & Hf & Hframe).
  cbn in Hframe. apply obind_Ret in Hframe as (pregame & Hitem & Hframe).
  unfold dict_item in Hitem. rewrite dict_get_set_ne in Hitem by done.
  destruct (dict_get "PregameOdds" r0) as [pregame'|] eqn:Hpre; [|discriminate].
  injection Hitem as ->.
  set (o := if Nat.eqb (length (rows f)) 0 then PNaN else group_records ig f).
  assert (Habsent : mem "Odds" (columns week_data) = false ->
                    dict_get "Odds" (dict_set "index" (PInt (Z.of_nat i)) r0) = None).
  { intros Hm. subst week_data. cbn [columns set_column] in Hm. apply mem_add_key in Hm.
    rewrite dict_get_set_ne by done. apply dict_get_None_keys.
    rewrite (DataFrame_rows_keys records) by (eapply list_elem_of_lookup_2; eauto).
    by apply mem_false. }
  clearbody week_data.
  (* the row with its Odds cell *)
  assert (Hw'i : rows week_data' !! i
                 = Some (dict_set "Odds" o (dict_set "index" (PInt (Z.of_nat i)) r0))).
  { destruct (Nat.eqb_spec (length (rows week_data)) 1) as [Hone|Hmany].
    - injection Hattach as <-. cbn [rows set_column].
      assert (i = 0)%nat as -> by lia.
      destruct frames as [|f' [|]]; cbn in Hfl; try lia. cbn in Hf. injection Hf as ->.
      rewrite lookup_zip_with, Hwi. cbn.
      assert (Hl : length records = 1%nat) by lia.
      subst idx. rewrite Hl in Hgroups. cbn in Hgroups. subst o.
      unfold odds_groups in Hgroups. cbn in Hgroups.
      destruct (Nat.eqb (length (rows f)) 0); cbn in Hgroups; [discriminate|].
      by injection Hgroups as _ <- _.
    - unfold merge_odds in Hattach.
      destruct (mem "Odds" (columns week_data)) eqn:Hm; [discriminate|].
      injection Hattach as <-. unfold rows at 1.
      apply lookup_zip_with_Some.
      exists (dict_set "index" (PInt (Z.of_nat i)) r0), (Z.of_nat i).
      split; [|by split]. cbv beta.
      rewrite (dict_set_absent "Odds") by by apply Habsent.
      assert (Ho : lookup_group (Z.of_nat i) ((j, first) :: grouped) = o).
      { rewrite <- Hgroups. subst idx o.
        rewrite <- Hfl. apply (lookup_group_odds_groups ig frames 0 i f Hf). }
      cbn [lookup_group] in Ho. by rewrite Ho. }
  destruct (Forall2_lookup_l _ _ _ _ _ Hcovered Hw'i) as (c & Hc & Hcell).
  exists pregame, f, c. split; [done|]. split; [done|]. split; [exact Hcell|].
  rewrite Hdrop, list_lookup_fmap, lookup_zip_with, Hw'i. cbn. by rewrite Hc.
Qed.

(** ** The flattened week *)

(** X8. The frame a week is flattened to has one row per game of the
    response; no row keeps any of the ten dropped columns, and every row has
    an [Odds] and a [CoveredTeam] cell. *)
Theorem flattened_rows_shape ig body fr :
  flatten_week ig body = Ret fr ->
  exists records,
    as_records body = Ret records
    /\ length (rows fr) = length records
    /\ forall row, row ∈ rows fr ->
         (forall k, k ∈ dropped_columns -> dict_get k row = None)
         /\ is_Some (dict_get "Odds" row)
         /\ is_Some (dict_get "CoveredTeam" row).
Proof.
  intros Hflat. destruct (flatten_week_records _ _ _ Hflat) as (records & Hrec).
  exists records. split; [done|].
  destruct (flatten_week_rows _ _ _ _ Hrec Hflat) as [Hlen Hrows].
  split; [done|]. intros row Hrow.
  apply list_elem_of_lookup in Hrow as [i Hi].
  destruct (lookup_lt_is_Some_2 (rows (DataFrame records)) i) as [r0 Hr0].
  { apply lookup_lt_Some in Hi. unfold DataFrame. cbn [rows]. rewrite length_fmap. lia. }
  destruct (Hrows i r0 Hr0) as (o & c & Hrow & _).
  rewrite Hi in Hrow. injection Hrow as ->. unfold flattened_row.
  split; [|split].
  - intros k Hk. rewrite dict_get_del. apply mem_true in Hk. by rewrite Hk.
  - rewrite dict_get_del. change (mem "Odds" dropped_columns) with false. cbn iota.
    rewrite dict_get_set_ne, dict_get_set_eq by done. by eexists.
  - rewrite dict_get_del. change (mem "CoveredTeam" dropped_columns) with false. cbn iota.
    rewrite dict_get_set_eq. by eexists.
Qed.

(** X8 on the sample week of three games. *)
Lemma flattened_sample_shape :
  exists records,
    as_records week_three_games = Ret records
    /\ length (rows flattened_three) = length records
    /\ forall row, row ∈ rows flattened_three ->
         (forall k, k ∈ dropped_columns -> dict_get k row = None)
         /\ is_Some (dict_get "Odds" row)
         /\ is_Some (dict_get "CoveredTeam" row).
Proof.
  apply (flattened_rows_shape true week_three_games flattened_three).
  vm_compute. reflexivity.
Defined.

(** X9. Every other field of a game is carried over to the game's row, at
    the same position: the row holds the value of the response, or its
    float form where the constructor made the column numeric. *)
Theorem game_fields_carry_over ig games fr (i : nat) g k v :
  flatten_week ig (PList games) = Ret fr ->
  games !! i = Some (PDict g) ->
  dict_get k g = Some v ->
  k ∉ dropped_columns -> k <> "Odds" -> k <> "CoveredTeam" ->
  exists row,
    rows fr !! i = Some row
    /\ (dict_get k row = Some v \/ dict_get k row = Some (to_float v)).
Proof.
  intros Hflat Hg Hk Hdrop Ho Hc.
  destruct (flatten_week_records _ _ _ Hflat) as (records & Hrec).
  pose proof (as_records_lookup _ _ _ _ Hrec Hg) as Hgi.
  destruct (DataFrame_cell _ _ _ _ _ Hgi Hk) as (r0 & Hr0 & Hcell).
  destruct (flatten_week_rows _ _ _ _ Hrec Hflat) as [_ Hrows].
  destruct (Hrows i r0 Hr0) as (o & c & Hrow & _).
  eexists. split; [exact Hrow|].
  rewrite dict_get_flattened_row; [done | by apply mem_false | done | done].
Qed.

(** X9 for the home team of the third sample game. *)
Lemma team_name_carries_over :
  exists row,
    rows flattened_three !! 2%nat = Some row
    /\ (dict_get "HomeTeamName" row = Some (PStr "NYJ")
        \/ dict_get "HomeTeamName" row = Some (to_float (PStr "NYJ"))).
Proof.
  apply (game_fields_carry_over true
           [PDict game_kc_det; PDict game_sf_ari; PDict game_nyj_buf]
           flattened_three 2 game_nyj_buf "HomeTeamName" (PStr "NYJ")).
  - vm_compute. reflexivity.
  - reflexivity.
  - reflexivity.
  - apply mem_false. reflexivity.
  - discriminate.
  - discriminate.
Defined.

Lemma to_float_PList l : to_float (PList l) = PList l.
Proof. reflexivity. Qed.

(** X11. A week with a game whose [PregameOdds] is the empty list cannot be
    flattened: the frame of no quotes has no [Sportsbook] column, and the
    200 branch raises. *)
Theorem game_without_quotes_fails ig games (i : nat) g :
  games !! i = Some (PDict g) ->
  dict_get "PregameOdds" g = Some (PList []) ->
  exists e, flatten_week ig (PList games) = Raise e.
Proof.
  intros Hg Hq.
  destruct (flatten_week ig (PList games)) as [fr|e] eqn:Hflat; [exfalso | by exists e].
  destruct (flatten_week_records _ _ _ Hflat) as (records & Hrec).
  pose proof (as_records_lookup _ _ _ _ Hrec Hg) as Hgi.
  destruct (DataFrame_cell _ _ _ _ _ Hgi Hq) as (r0 & Hr0 & Hcell).
  destruct (flatten_week_exact _ _ _ _ Hrec Hflat i r0 Hr0)
    as (pregame & f & c & Hpre & Hframe & _).
  rewrite to_float_PList in Hcell.
  assert (pregame = PList []) as -> by (destruct Hcell; congruence).
  discriminate.
Qed.

(** X11 on a week whose second game has no quote yet. *)
Lemma week_with_a_quoteless_game_fails :
  exists e,
    flatten_week true
      (PList [PDict game_kc_det;
              PDict (sample_game "NYJ" "BUF" (PStr "Scheduled") PNone PNone [])])
    = Raise e.
Proof.
  apply (game_without_quotes_fails true
           [PDict game_kc_det;
            PDict (sample_game "NYJ" "BUF" (PStr "Scheduled") PNone PNone [])]
           1 (sample_game "NYJ" "BUF" (PStr "Scheduled") PNone PNone []));
    reflexivity.
Defined.

(** ** The quotes a game keeps *)

Lemma isin_to_float v books : isin (to_float v) books = isin v books.
Proof. by destruct v. Qed.

Lemma filter_fmap_bool {A B} (f : A -> B) (P : B -> bool) l :
  List.filter P (f <$> l) = f <$> List.filter (fun a => P (f a)) l.
Proof.
  induction l as [|a l IH]; cbn; [done|].
  destruct (P (f a)); cbn; by rewrite IH.
Qed.

Lemma filter_ext_bool {A} (P Q : A -> bool) l :
  (forall a, P a = Q a) -> List.filter P l = List.filter Q l.
Proof.
  intros H. induction l as [|a l IH]; cbn; [done|]. by rewrite H, IH.
Qed.

Lemma as_record_list quotes entries :
  omap_list as_record quotes = Ret entries -> quotes = PDict <$> entries.
Proof.
  intros H. apply omap_list_Forall2 in H.
  induction H as [|q e quotes entries Hq _ IH]; cbn; [done|].
  destruct q; try discriminate. injection Hq as ->. by rewrite IH.
Qed.

Lemma pregame_frame_kept index quotes f :
  pregame_frame index (PList quotes) = Ret f ->
  Forall2 (fun quote r =>
             exists q r',
               quote = PDict q
               /\ r = project columns_to_keep r' ++ [("index", PInt index)]
               /\ cell "Sportsbook" r' = cell "Sportsbook" q
               /\ forall c, c ∈ columns_to_keep ->
                    cell c r' = cell c q \/ cell c r' = to_float (cell c q))
    (List.filter accepted_quote quotes) (rows f).
Proof.
  unfold pregame_frame. intros H.
  apply obind_Ret in H as (entries & Hent & H).
  cbn in Hent. apply as_record_list in Hent as ->.
  destruct (mem "Sportsbook" (columns (DataFrame entries))) eqn:Hmem; [|discriminate].
  cbn [negb] in H.
  destruct (List.find _ columns_to_keep) eqn:Hfind; [discriminate|].
  injection H as <-. cbn [rows].
  assert (Hcols : forall c, c ∈ columns_to_keep -> mem c (union_keys entries) = true).
  { intros c Hc. apply list_elem_of_In in Hc.
    pose proof (List.find_none _ _ Hfind c Hc) as Hn. cbn beta in Hn.
    by apply negb_false_iff in Hn. }
  unfold DataFrame in *. cbn [rows columns] in *.
  set (tab := fun r : dict => (fun c : string => (c, _)) <$> union_keys entries).
  assert (Hcell : forall c e, mem c (union_keys entries) = true ->
            cell c (tab e) = cell c e \/ cell c (tab e) = to_float (cell c e)).
  { intros c e Hc. unfold cell at 1 3, tab. rewrite dict_get_tabulate, Hc. cbn.
    match goal with |- context [if ?b then _ else _] => destruct b end; auto. }
  rewrite !filter_fmap_bool.
  rewrite (filter_ext_bool (fun a => isin (cell "Sportsbook" (tab a)) accepted_books)
             (fun a => accepted_quote (PDict a))).
  2:{ intros e. cbn [accepted_quote].
      destruct (Hcell "Sportsbook" e Hmem) as [-> | ->]; [done | apply isin_to_float]. }
  rewrite <- list_fmap_compose.
  apply Forall2_fmap, Forall_Forall2_diag, Forall_forall. intros e He.
  apply list_elem_of_In, List.filter_In in He as [_ He]. cbn [accepted_quote] in He.
  exists e, (tab e). split; [done|]. split; [done|]. split.
  - destruct (Hcell "Sportsbook" e Hmem) as [-> | ->]; [done|].
    destruct (cell "Sportsbook" e); try discriminate. done.
  - intros c Hc. by apply Hcell, Hcols.
Qed.

Lemma group_records_entries ig index quotes f :
  pregame_frame index (PList quotes) = Ret f ->
  exists entries,
    group_records ig f = PList entries
    /\ Forall2 (entry_of_quote ig) (List.filter accepted_quote quotes) entries.
Proof.
  intros Hf. apply pregame_frame_kept in Hf.
  unfold group_records. eexists. split; [reflexivity|].
  apply Forall2_fmap_r. eapply Forall2_impl; [exact Hf|].
  intros quote r (q & r' & -> & -> & Hbook & Hvals). cbn beta.
  assert (Hget : forall c, c ∈ columns_to_keep ->
            dict_get c (project columns_to_keep r') = Some (cell c r')).
  { intros c Hc. rewrite dict_get_project. apply mem_true in Hc. by rewrite Hc. }
  assert (Hsb : "Sportsbook" ∈ columns_to_keep) by (apply mem_true; reflexivity).
  exists q. destruct ig.
  - eexists. split; [done|]. split; [done|]. split; [|split].
    + unfold dict_keys. rewrite fmap_app. fold (dict_keys (project columns_to_keep r')).
      by rewrite dict_keys_project.
    + rewrite dict_get_app, (Hget _ Hsb). by rewrite Hbook.
    + intros c Hc. rewrite dict_get_app, (Hget _ Hc).
      destruct (Hvals c Hc) as [-> | ->]; auto.
  - rewrite dict_keys_del_last by (apply mem_false; reflexivity).
    eexists. split; [done|]. split; [done|]. split; [|split].
    + by rewrite dict_keys_project, app_nil_r.
    + rewrite (Hget _ Hsb). by rewrite Hbook.
    + intros c Hc. rewrite (Hget _ Hc). destruct (Hvals c Hc) as [-> | ->]; auto.
Qed.

(** X10. The [Odds] cell of a game lists the game's quotes of the accepted
    sportsbooks, one entry per quote, in the order of the response and none
    else: each entry has the keys of [columns_to_keep] (and [index], see C2),
    the sportsbook of its quote, and under each key the value of the quote
    (NaN for a key the quote lacks), as it is or as a float.  A game without
    such a quote gets NaN. *)
Theorem odds_cell_lists_accepted_quotes ig games fr (i : nat) g quotes :
  flatten_week ig (PList games) = Ret fr ->
  games !! i = Some (PDict g) ->
  dict_get "PregameOdds" g = Some (PList quotes) ->
  exists row odds,
    rows fr !! i = Some row
    /\ dict_get "Odds" row = Some odds
    /\ match List.filter accepted_quote quotes with
       | [] => odds = PNaN
       | kept => exists entries,
                   odds = PList entries /\ Forall2 (entry_of_quote ig) kept entries
       end.
Proof.
  intros Hflat Hg Hq.
  destruct (flatten_week_records _ _ _ Hflat) as (records & Hrec).
  pose proof (as_records_lookup _ _ _ _ Hrec Hg) as Hgi.
  destruct (DataFrame_cell _ _ _ _ _ Hgi Hq) as (r0 & Hr0 & Hcell).
  destruct (flatten_week_exact _ _ _ _ Hrec Hflat i r0 Hr0)
    as (pregame & f & c & Hpre & Hframe & _ & Hrow).
  rewrite to_float_PList in Hcell.
  assert (pregame = PList quotes) as -> by (destruct Hcell; congruence).
  destruct (group_records_entries ig _ _ _ Hframe) as (entries & Hgrp & Hentries).
  eexists _, _. split; [exact Hrow|]. split.
  { unfold flattened_row. rewrite dict_get_del.
    change (mem "Odds" dropped_columns) with false. cbn iota.
    rewrite dict_get_set_ne, dict_get_set_eq by done. done. }
  rewrite Hgrp.
  destruct (List.filter accepted_quote quotes) as [|q kept] eqn:Hkept.
  - apply Forall2_nil_inv_l in Hentries as ->.
    assert (rows f = []) as ->; [|done].
    unfold group_records in Hgrp. injection Hgrp as Hgrp.
    by apply fmap_nil_inv in Hgrp.
  - assert (rows f <> []) as Hne.
    { intros Hnil. unfold group_records in Hgrp. rewrite Hnil in Hgrp.
      injection Hgrp as <-. by apply Forall2_nil_inv_r in Hentries. }
    destruct (rows f); [done|]. cbn [length Nat.eqb]. by exists entries.
Qed.

(** X10 for the third sample game: Consensus, then FanDuel. *)
Lemma odds_cell_of_the_third_game :
  exists row odds,
    rows flattened_three !! 2%nat = Some row
    /\ dict_get "Odds" row = Some odds
    /\ exists entries,
         odds = PList entries
         /\ Forall2 (entry_of_quote true)
              [sample_quote "Consensus" (PFloat (5 # 2)); sample_quote "FanDuel" (PFloat 3)]
              entries.
Proof.
  apply (odds_cell_lists_accepted_quotes true
           [PDict game_kc_det; PDict game_sf_ari; PDict game_nyj_buf]
           flattened_three 2 game_nyj_buf
           [sample_quote "Consensus" (PFloat (5 # 2)); sample_quote "FanDuel" (PFloat 3)]).
  - vm_compute. reflexivity.
  - reflexivity.
  - reflexivity.
Defined.

(** ** What the writers store *)

(** X12. An odds week answered 200 with an empty array is not skipped: there
    is nothing to concatenate, the round raises [ValueError] and the loop
    ends there.  No file is written, nothing is printed, and the remaining
    weeks are not requested. *)
Theorem empty_odds_week_stops_the_writer E TW season week rest w :
  status_code (server E (trace w) (odds_url season week)) = 200 ->
  json (server E (trace w) (odds_url season week)) = Some (PList []) ->
  for_each (week :: rest) (odds_week E TW season) w
  = (Raise ValueError,
     {| files := files w; dirs := dirs w; log := log w;
        trace := trace w ++ [odds_url season week] |}).
Proof.
  intros Hs Hj. cbn [for_each]. unfold bind at 1.
  unfold odds_week, bind, requests_get. rewrite Hs. cbn.
  unfold lift, json_loads. rewrite Hj. reflexivity.
Qed.

(** X12 on the first week of a preseason. *)
Lemma empty_odds_week_in_preseason :
  for_each [0; 1; 2; 3] (odds_week env_empty_weeks 3 "2023PRE") empty_world
  = (Raise ValueError,
     {| files := files empty_world; dirs := dirs empty_world; log := log empty_world;
        trace := trace empty_world ++ [odds_url "2023PRE" 0] |}).
Proof.
  apply (empty_odds_week_stops_the_writer env_empty_weeks 3 "2023PRE" 0 [1; 2; 3]
           empty_world); reflexivity.
Defined.

Lemma as_records_PDict records : as_records (PList (PDict <$> records)) = Ret records.
Proof.
  cbn. induction records as [|r records IH]; cbn; [done|]. by rewrite IH.
Qed.

Lemma scores_week_stored E season week w records :
  status_code (server E (trace w) (scores_url season week)) = 200 ->
  json (server E (trace w) (scores_url season week)) = Some (PList (PDict <$> records)) ->
  scores_week E season week w
  = (Ret tt,
     {| files := <[scores_file season week := Csv (DataFrame records)]> (files w);
        dirs := dirs w; log := log w;
        trace := trace w ++ [scores_url season week] |}).
Proof.
  intros Hs Hj. unfold scores_week, bind, requests_get. rewrite Hs. cbn.
  unfold lift, response_frame, json_loads. rewrite Hj. cbn [obind].
  rewrite as_records_PDict. reflexivity.
Qed.

Lemma holds_frame_insert w w' path p f :
  files w' = <[p := Csv f]> (files w) ->
  holds_frame w path = true -> holds_frame w' path = true.
Proof.
  unfold holds_frame. intros ->.
  destruct (decide (p = path)) as [->|Hne].
  - by rewrite lookup_insert_eq.
  - by rewrite lookup_insert_ne.
Qed.

Lemma scores_weeks_stored E season l w :
  (forall tr week, week ∈ l ->
     status_code (server E tr (scores_url season week)) = 200
     /\ exists records,
          json (server E tr (scores_url season week)) = Some (PList (PDict <$> records))) ->
  exists w',
    for_each l (scores_week E season) w = (Ret tt, w')
    /\ (forall week, week ∈ l -> holds_frame w' (scores_file season week) = true)
    /\ (forall path, holds_frame w path = true -> holds_frame w' path = true)
    /\ log w' = log w /\ dirs w' = dirs w.
Proof.
  revert w. induction l as [|week l IH]; intros w Hall.
  - exists w. cbn. split; [done|]. split; [|done]. intros week Hin. by apply elem_of_nil in Hin.
  - destruct (Hall (trace w) week) as (Hs & records & Hj); [left|].
    pose proof (scores_week_stored E season week w records Hs Hj) as Hweek.
    rewrite (for_each_cons_Ret _ _ _ _ _ Hweek).
    match type of Hweek with _ = (_, ?w1) => set (w1' := w1) in * end.
    destruct (IH w1') as (w' & Hrun & Hnew & Hold & Hlog & Hdirs).
    { intros tr wk Hin. apply Hall. by right. }
    exists w'. split; [done|]. split; [|split; [|done]].
    + intros wk Hin. apply elem_of_cons in Hin as [->|Hin]; [|by apply Hnew].
      apply Hold. unfold holds_frame, w1'. cbn [files]. by rewrite lookup_insert_eq.
    + intros path Hp. apply Hold. by eapply (holds_frame_insert w w1'); [reflexivity|].
Qed.

(** X13. When every week of the range is answered 200 with an array of
    objects (an empty one included), the scores writer returns, every week of
    the range has its file, the current week like any other, no file that
    held a frame is lost, and nothing is printed. *)
Theorem answered_scores_weeks_are_stored E TY TW season w :
  (forall tr week, week ∈ scores_week_range TY TW season ->
     status_code (server E tr (scores_url season week)) = 200
     /\ exists records,
          json (server E tr (scores_url season week)) = Some (PList (PDict <$> records))) ->
  exists w',
    cache_scores_data E TY TW season w = (Ret tt, w')
    /\ (forall week, week ∈ scores_week_range TY TW season ->
          holds_frame w' (scores_file season week) = true)
    /\ (forall path, holds_frame w path = true -> holds_frame w' path = true)
    /\ log w' = log w.
Proof.
  intros Hall. unfold cache_scores_data. unfold bind at 1.
  destruct (ensure_dir_frame "scores_data" w) as (w1 & -> & Hf & _ & Hl & _).
  destruct (scores_weeks_stored E season _ w1 Hall) as (w' & Hrun & Hnew & Hold & Hlog & _).
  exists w'. split; [done|]. split; [done|]. split; [|congruence].
  intros path Hp. apply Hold. unfold holds_frame in *. by rewrite Hf.
Qed.

(** X13 on a postseason whose weeks are all answered with an empty array. *)
Lemma answered_postseason_scores_are_stored :
  exists w',
    cache_scores_data env_empty_weeks 2023 3 "2022POST" empty_world = (Ret tt, w')
    /\ (forall week, week ∈ scores_week_range 2023 3 "2022POST" ->
          holds_frame w' (scores_file "2022POST" week) = true)
    /\ (forall path, holds_frame empty_world path = true -> holds_frame w' path = true)
    /\ log w' = log empty_world.
Proof.
  apply (answered_scores_weeks_are_stored env_empty_weeks 2023 3 "2022POST" empty_world).
  intros tr week _. split; [reflexivity|]. exists []. reflexivity.
Defined.

(** X14. The schedule writer sends exactly one request and leaves the
    directory [schedule_data] in place.  On a status other than 200 it
    returns, writes no file and prints the failure line with the season and
    the status; on 200 it prints nothing, and with an array of objects as
    body it stores their frame under [schedule_data/<season>.csv]. *)
Theorem schedule_request_outcome E season w :
  trace (snd (cache_schedule_data E season w)) = trace w ++ [schedule_url season]
  /\ exists_in (snd (cache_schedule_data E season w)) "schedule_data" = true
  /\ (status_code (server E (trace w) (schedule_url season)) <> 200 ->
      fst (cache_schedule_data E season w) = Ret tt
      /\ files (snd (cache_schedule_data E season w)) = files w
      /\ log (snd (cache_schedule_data E season w))
         = log w ++ [schedule_failure season
                       (status_code (server E (trace w) (schedule_url season)))])
  /\ (status_code (server E (trace w) (schedule_url season)) = 200 ->
      log (snd (cache_schedule_data E season w)) = log w
      /\ forall records,
           json (server E (trace w) (schedule_url season)) = Some (PList (PDict <$> records)) ->
           fst (cache_schedule_data E season w) = Ret tt
           /\ files (snd (cache_schedule_data E season w))
              = <[schedule_file season := Csv (DataFrame records)]> (files w)).
Proof.
  assert (Hdir : exists w1, ensure_dir "schedule_data" w = (Ret tt, w1)
                   /\ files w1 = files w /\ trace w1 = trace w /\ log w1 = log w
                   /\ exists_in w1 "schedule_data" = true).
  { unfold ensure_dir, bind, path_exists.
    destruct (exists_in w "schedule_data") eqn:Hex; cbn; eexists; (split; [reflexivity|]);
      cbn; repeat split; try done.
    unfold exists_in. cbn [dirs]. apply orb_true_iff. right.
    apply bool_decide_eq_true. apply elem_of_union. left. by apply elem_of_singleton. }
  destruct Hdir as (w1 & Hdir & Hf & Ht & Hl & Hex).
  set (r := server E (trace w) (schedule_url season)).
  set (w2 := {| files := files w1; dirs := dirs w1; log := log w1;
                trace := trace w ++ [schedule_url season] |}).
  assert (Hres : cache_schedule_data E season w
                 = if status_code r =? 200
                   then match response_frame r with
                        | Ret f => to_csv (schedule_file season) f w2
                        | Raise e => (Raise e, w2)
                        end
                   else print (schedule_failure season (status_code r)) w2).
  { unfold cache_schedule_data, bind, requests_get. rewrite Hdir. cbn beta iota.
    rewrite Ht. fold r. fold w2. destruct (status_code r =? 200); [|done].
    unfold lift. by destruct (response_frame r). }
  rewrite Hres. clear Hres Hdir.
  assert (Hex2 : forall f,
            exists_in (snd (to_csv (schedule_file season) f w2)) "schedule_data" = true).
  { intros f. unfold exists_in in *. cbn [to_csv write_file snd files dirs w2].
    apply orb_true_iff in Hex as [Hex|Hex]; apply orb_true_iff; [left|by right].
    apply bool_decide_eq_true. apply bool_decide_eq_true in Hex.
    destruct (decide (schedule_file season = "schedule_data")) as [->|Hne].
    - rewrite lookup_insert_eq. by eexists.
    - by rewrite lookup_insert_ne. }
  destruct (Z.eqb_spec (status_code r) 200) as [H200|Hne].
  - split; [|split; [|split; [done|]]].
    + by destruct (response_frame r).
    + destruct (response_frame r); [apply Hex2 | done].
    + intros _. split.
      * destruct (response_frame r); cbn; done.
      * intros records Hj. unfold response_frame, json_loads. rewrite Hj. cbn [obind].
        rewrite as_records_PDict. cbn. by rewrite Hf.
  - split; [done|]. split; [done|]. split; [|done].
    intros _. cbn. by rewrite Hf, Hl.
Qed.

(** ** Weeks that need no request *)

Lemma py_range_empty lo hi : hi <= lo -> py_range lo hi = [].
Proof. intros H. unfold py_range. by replace (Z.to_nat (hi - lo)) with 0%nat by lia. Qed.

Lemma bind_ensure_dir_done path w :
  bind (ensure_dir path) (fun _ => for_each (@nil Z) (fun _ => mret tt)) w = ensure_dir path w.
Proof.
  unfold bind. destruct (ensure_dir_frame path w) as (w1 & -> & _). reflexivity.
Qed.

(** X15. For the regular season of the current year, a current week of 0 or
    less leaves the odds writer with an empty range, and a current week of 1
    or less the scores writer: the writer makes sure its directory exists
    and does nothing else. *)
Theorem no_week_to_fetch_before_the_season E TY TW season w :
  str_in "PRE" season = false ->
  str_in "POST" season = false ->
  str_in (str_int TY) season = true ->
  (TW <= 0 -> cache_odds_data E TY TW season w = ensure_dir "odds_data" w)
  /\ (TW <= 1 -> cache_scores_data E TY TW season w = ensure_dir "scores_data" w).
Proof.
  intros Hpre Hpost Hyear. split; intros Hweek.
  - unfold cache_odds_data, odds_week_range. rewrite Hpre, Hpost, Hyear.
    rewrite py_range_empty by lia. apply bind_ensure_dir_done.
  - unfold cache_scores_data, scores_week_range. rewrite Hpre, Hpost, Hyear.
    rewrite py_range_empty by lia. apply bind_ensure_dir_done.
Qed.

(** X15 with the week the fallback computes in January. *)
Lemma no_week_to_fetch_in_week_minus_34 :
  cache_odds_data (env_down (Date 2024 1 10)) 2024 (-34) "2024REG" empty_world
  = ensure_dir "odds_data" empty_world
  /\ cache_scores_data (env_down (Date 2024 1 10)) 2024 (-34) "2024REG" empty_world
     = ensure_dir "scores_data" empty_world.
Proof.
  destruct (no_week_to_fetch_before_the_season (env_down (Date 2024 1 10)) 2024 (-34)
              "2024REG" empty_world) as [Hodds Hscores]; try reflexivity.
  split; [apply Hodds | apply Hscores]; lia.
Defined.

(** ** The backfill of one missing week *)

(** X16. One missing odds file is backfilled by a run of the odds writer on
    the whole season: when the backfill of that week returns, it has
    requested every week of the season's range, in order. *)
Theorem missing_week_refetches_the_season E TY TW season week w :
  exists_in w (odds_file season week) = false ->
  fst (backfill_odds_week E TY TW season week w) = Ret tt ->
  trace (snd (backfill_odds_week E TY TW season week w))
  = trace w ++ (odds_url season <$> odds_week_range TY TW season).
Proof.
  intros Hex.
  set (w1 := {| files := files w; dirs := dirs w;
                log := log w ++ ["Caching odds data for " +:+ season +:+ " Week "
                                 +:+ str_int week];
                trace := trace w |}).
  assert (Hrun : backfill_odds_week E TY TW season week w
                 = match cache_odds_data E TY TW season w1 with
                   | (Ret _, w2) =>
                       print ("Done. Odds data cached for " +:+ season +:+ " Week "
                              +:+ str_int week) w2
                   | (Raise e, w2) => (Raise e, w2)
                   end).
  { unfold backfill_odds_week, bind, path_exists. rewrite Hex. reflexivity. }
  rewrite Hrun. clear Hrun.
  pose proof (cache_odds_data_requests E TY TW season w1) as Hreq.
  destruct (cache_odds_data E TY TW season w1) as [[[]|e] w2]; cbn [fst snd] in *;
    [|discriminate].
  intros _. by apply Hreq.
Qed.

(** X16 for week 2 of a preseason on an empty disk. *)
Lemma missing_preseason_week_refetches_four :
  trace (snd (backfill_odds_week (env_down (Date 2023 9 14)) 2023 3 "2022PRE" 2 empty_world))
  = trace empty_world
    ++ (odds_url "2022PRE" <$> odds_week_range 2023 3 "2022PRE").
Proof.
  apply (missing_week_refetches_the_season (env_down (Date 2023 9 14)) 2023 3 "2022PRE" 2
           empty_world); vm_compute; reflexivity.
Defined.

(** ** The fallback of the week resolver *)

Lemma first_thursday_is_a_thursday y : weekday (first_thursday_of_september y) = 3.
Proof.
  unfold first_thursday_of_september.
  destruct (List.find _ _) as [d|] eqn:Hfind.
  - apply List.find_some in Hfind as [_ Hd]. by apply Z.eqb_eq.
  - exfalso.
    assert (Hall : forall d, 1 <= d < 8 -> weekday (Date y 9 d) <> 3).
    { intros d Hd. apply Z.eqb_neq.
      apply (List.find_none _ _ Hfind d), list_elem_of_In, elem_of_py_range. lia. }
    unfold weekday, toordinal in Hall. cbn [year month day] in Hall.
    set (K := days_before_year y + days_before_month y 9) in Hall. clearbody K.
    pose proof (Hall 1). pose proof (Hall 2). pose proof (Hall 3). pose proof (Hall 4).
    pose proof (Hall 5). pose proof (Hall 6). pose proof (Hall 7). clear Hall.
    Z.div_mod_to_equations. lia.
Qed.

(** X17. When the week endpoint answers with a status other than 200, the
    resolver always returns: the loop to the first Thursday of September
    ends, and the week is the number of whole weeks from that Thursday of the
    calendar year to today, plus one (floor division). *)
Theorem week_fallback_counts_from_september E w :
  status_code (server E (trace w) current_week_url) <> 200 ->
  fetch_current_week E w
  = (Ret ((toordinal (clock E (trace w ++ [current_week_url]))
           - toordinal (first_thursday_of_september
                          (year (clock E (trace w ++ [current_week_url]))))) / 7 + 1),
     {| files := files w; dirs := dirs w; log := log w;
        trace := trace w ++ [current_week_url] |})
  /\ weekday (first_thursday_of_september
                (year (clock E (trace w ++ [current_week_url])))) = 3.
Proof.
  intros Hs. split; [|apply first_thursday_is_a_thursday].
  unfold fetch_current_week, bind, requests_get. cbn beta iota.
  destruct (Z.eqb_spec (status_code (server E (trace w) current_week_url)) 200); [done|].
  unfold now. cbn [trace]. unfold fallback_week.
  rewrite advance_to_thursday_total. reflexivity.
Qed.

(** X17 on 23 November 2023 with the API down. *)
Lemma week_fallback_in_november :
  fetch_current_week (env_down (Date 2023 11 23)) empty_world
  = (Ret ((toordinal (Date 2023 11 23)
           - toordinal (first_thursday_of_september 2023)) / 7 + 1),
     {| files := files empty_world; dirs := dirs empty_world; log := log empty_world;
        trace := trace empty_world ++ [current_week_url] |})
  /\ weekday (first_thursday_of_september 2023) = 3.
Proof.
  apply (week_fallback_counts_from_september (env_down (Date 2023 11 23)) empty_world).
  vm_compute. discriminate.
Defined.

(** ** The ATS builder reads the disk and writes one file *)

Lemma read_csv_world path w : snd (read_csv path w) = w.
Proof. unfold read_csv. by destruct (files w !! path) as [[]|]. Qed.

Lemma ats_walk_world TW cst weeks n data w :
  snd (ats_walk TW cst weeks n data w) = w.
Proof.
  revert n data. induction weeks as [|week rest IH]; intros n data; cbn [ats_walk]; [done|].
  unfold bind at 1, path_exists. cbn beta iota.
  destruct (negb _ && negb _); [apply IH|].
  unfold bind at 1.
  pose proof (read_csv_world
                (if exists_in w (odds_file cst week) then odds_file cst week
                 else current_week_file) w) as Hread.
  destruct (read_csv _ w) as [[f|e] w1]; cbn [snd] in Hread; subst w1; [|done].
  unfold bind at 1, lift.
  destruct (select_records ats_columns f) as [results|e]; [|done].
  cbn beta iota zeta. destruct (n - 1 =? 0); [done | apply IH].
Qed.

Lemma ats_loop_world TW fuel year cst e s n data w :
  snd (ats_loop TW fuel year cst e s n data w) = w.
Proof.
  revert cst e s n data. induction fuel as [|fuel IH]; intros cst e s n data;
    cbn [ats_loop]; (destruct (0 <? n); [|done]); [done|].
  unfold bind.
  pose proof (ats_walk_world TW cst (py_range_down e (s - 1)) n data w) as Hwalk.
  destruct (ats_walk _ _ _ _ _ w) as [[[n1 data1]|err] w1]; cbn [snd] in Hwalk; subst w1;
    [|done].
  destruct (0 <? n1); [|apply IH].
  destruct (endswith cst "REG"); [apply IH|].
  destruct (endswith cst "PRE"); apply IH.
Qed.

Lemma fetch_current_week_world E w :
  files (snd (fetch_current_week E w)) = files w
  /\ dirs (snd (fetch_current_week E w)) = dirs w
  /\ log (snd (fetch_current_week E w)) = log w
  /\ trace (snd (fetch_current_week E w)) = trace w ++ [current_week_url].
Proof.
  unfold fetch_current_week, bind, requests_get. cbn beta iota.
  destruct (status_code _ =? 200).
  - unfold lift. by destruct (json_int _).
  - unfold now. by destruct (fallback_week _).
Qed.

Lemma cache_ats_data_world E TW fuel cst year w :
  trace (snd (cache_ats_data E TW fuel cst year w)) = trace w ++ [current_week_url]
  /\ log (snd (cache_ats_data E TW fuel cst year w)) = log w
  /\ (fst (cache_ats_data E TW fuel cst year w) = Ret (Some tt)
       /\ (exists doc, files (snd (cache_ats_data E TW fuel cst year w))
                       = <[ats_file := doc]> (files w))
      \/ files (snd (cache_ats_data E TW fuel cst year w)) = files w).
Proof.
  unfold cache_ats_data. unfold bind.
  destruct (ensure_dir_frame "ats_data" w) as (w1 & -> & Hf & Ht & Hl & _).
  destruct (fetch_current_week_world E w1) as (Hf2 & _ & Hl2 & Ht2).
  destruct (fetch_current_week E w1) as [[end_week|e] w2]; cbn [snd] in *;
    [|by rewrite Ht2, Ht, Hl2, Hl, Hf2, Hf; auto].
  pose proof (ats_loop_world TW fuel year cst end_week (end_week - 10 + 1) 10 [] w2) as Hloop.
  destruct (ats_loop _ _ _ _ _ _ _ _ w2) as [[[groups|]|e] w3]; cbn [snd] in Hloop; subst w3;
    cbn [fst snd write_file mret files log trace];
    rewrite ?Ht2, ?Ht, ?Hl2, ?Hl, ?Hf2, ?Hf; auto.
  repeat split; auto. left. split; [done|]. by eexists.
Qed.

(** X19. The ATS builder sends one request, to the week endpoint, and
    prints nothing, whether it returns or raises; it leaves every file other
    than the ATS document as it was, and the document too unless it runs to
    its end. *)
Theorem ats_builder_footprint E TW fuel cst year w path :
  path <> ats_file ->
  trace (snd (cache_ats_data E TW fuel cst year w)) = trace w ++ [current_week_url]
  /\ log (snd (cache_ats_data E TW fuel cst year w)) = log w
  /\ files (snd (cache_ats_data E TW fuel cst year w)) !! path = files w !! path
  /\ (fst (cache_ats_data E TW fuel cst year w) <> Ret (Some tt) ->
      files (snd (cache_ats_data E TW fuel cst year w)) = files w).
Proof.
  intros Hpath.
  destruct (cache_ats_data_world E TW fuel cst year w) as (Ht & Hl & Hfiles).
  split; [done|]. split; [done|].
  destruct Hfiles as [[Hok [doc ->]] | ->].
  - split; [by rewrite lookup_insert_ne | done].
  - done.
Qed.

(** X19 for the current-week slot of a cache in its twelfth week. *)
Lemma ats_builder_footprint_in_week_twelve :
  trace (snd (cache_ats_data (env_at_week 12) 12 3 "2023REG" 2023 ats_cache_twelve))
  = trace ats_cache_twelve ++ [current_week_url]
  /\ log (snd (cache_ats_data (env_at_week 12) 12 3 "2023REG" 2023 ats_cache_twelve))
     = log ats_cache_twelve
  /\ files (snd (cache_ats_data (env_at_week 12) 12 3 "2023REG" 2023 ats_cache_twelve))
       !! current_week_file
     = files ats_cache_twelve !! current_week_file
  /\ (fst (cache_ats_data (env_at_week 12) 12 3 "2023REG" 2023 ats_cache_twelve)
      <> Ret (Some tt) ->
      files (snd (cache_ats_data (env_at_week 12) 12 3 "2023REG" 2023 ats_cache_twelve))
      = files ats_cache_twelve).
Proof.
  apply (ats_builder_footprint (env_at_week 12) 12 3 "2023REG" 2023 ats_cache_twelve
           current_week_file).
  discriminate.
Defined.

(** ** The size of the ATS document *)

Lemma ats_walk_count TW cst weeks n data w n1 data1 :
  0 < n ->
  fst (ats_walk TW cst weeks n data w) = Ret (n1, data1) ->
  0 <= n1
  /\ Z.of_nat (length data1) + n1 = Z.of_nat (length data) + n
  /\ forall types, group_types_among types data -> cst ∈ types ->
                   group_types_among types data1.
Proof.
  revert n data. induction weeks as [|week rest IH]; intros n data Hn; cbn [ats_walk].
  - cbn. intros [= <- <-]. repeat split; auto; lia.
  - unfold bind at 1, path_exists. cbn beta iota.
    destruct (negb _ && negb _); [by apply IH|].
    unfold bind at 1.
    pose proof (read_csv_world
                  (if exists_in w (odds_file cst week) then odds_file cst week
                   else current_week_file) w) as Hread.
    destruct (read_csv _ w) as [[f|e] w1]; cbn [snd] in Hread; subst w1; [|done].
    unfold bind at 1, lift.
    destruct (select_records ats_columns f) as [results|e]; [|done].
    cbn beta iota zeta.
    assert (Hgrow : forall types, group_types_among types data -> cst ∈ types ->
              group_types_among types (data ++ [week_group cst week results])).
    { intros types Hd Hin. apply Forall_app. split; [done|].
      constructor; [|constructor]. exists cst, week. split; [reflexivity | done]. }
    destruct (Z.eqb_spec (n - 1) 0) as [Hz|Hz].
    + cbn. intros [= <- <-]. rewrite length_app. cbn [length].
      repeat split; try lia. apply Hgrow.
    + intros Hrun. apply IH in Hrun as (Hn1 & Hlen & Htypes); [|lia].
      rewrite length_app in Hlen. cbn [length] in Hlen.
      repeat split; try lia.
      intros types Hd Hin. apply Htypes; [|done]. by apply Hgrow.
Qed.

Lemma ats_loop_count TW fuel year cst e s n data w groups :
  0 <= n ->
  fst (ats_loop TW fuel year cst e s n data w) = Ret (Some groups) ->
  forall types,
    group_types_among types data -> cst ∈ types -> str_int year +:+ "PRE" ∈ types ->
    Z.of_nat (length groups) <= Z.of_nat (length data) + n
    /\ group_types_among types groups.
Proof.
  revert cst e s n data. induction fuel as [|fuel IH]; intros cst e s n data Hn;
    cbn [ats_loop]; (destruct (Z.ltb_spec 0 n) as [Hpos|Hpos];
                     [|cbn; intros [= <-] types Hd _ _; split; [lia | done]]);
    [done|].
  unfold bind.
  pose proof (ats_walk_world TW cst (py_range_down e (s - 1)) n data w) as Hwalk.
  pose proof (ats_walk_count TW cst (py_range_down e (s - 1)) n data w) as Hcount.
  destruct (ats_walk _ _ _ _ _ w) as [[[n1 data1]|err] w1]; cbn [fst snd] in *; subst w1;
    [|done].
  destruct (Hcount n1 data1 Hpos eq_refl) as (Hn1 & Hlen & Htypes).
  intros Hrun types Hd Hcst Hpre.
  specialize (Htypes types Hd Hcst).
  destruct (0 <? n1).
  - destruct (endswith cst "REG").
    + apply IH with (types := types) in Hrun as [Hle Hty]; try done. split; [lia | done].
    + destruct (endswith cst "PRE").
      * apply IH with (types := types) in Hrun as [Hle Hty]; try done. split; [lia | done].
      * apply IH with (types := types) in Hrun as [Hle Hty]; try done. split; [lia | done].
  - apply IH with (types := types) in Hrun as [Hle Hty]; try done. split; [lia | done].
Qed.

(** X20. The document the ATS builder writes holds at most ten week-groups,
    each labelled with the season type it was called with or with the
    preseason of the given year. *)
Theorem ats_document_has_at_most_ten_groups E TW fuel cst year w :
  fst (cache_ats_data E TW fuel cst year w) = Ret (Some tt) ->
  exists groups,
    files (snd (cache_ats_data E TW fuel cst year w)) !! ats_file
    = Some (JsonDoc (PList groups))
    /\ (length groups <= 10)%nat
    /\ group_types_among [cst; str_int year +:+ "PRE"] groups.
Proof.
  unfold cache_ats_data. unfold bind.
  destruct (ensure_dir "ats_data" w) as [[[]|e0] w1]; [|done].
  destruct (fetch_current_week E w1) as [[end_week|e] w2]; [|done].
  pose proof (ats_loop_count TW fuel year cst end_week (end_week - 10 + 1) 10 [] w2) as Hcount.
  destruct (ats_loop _ _ _ _ _ _ _ _ w2) as [[[groups|]|e] w3]; cbn [fst snd] in *;
    try done.
  intros _. exists groups. cbn [write_file mret files snd].
  rewrite lookup_insert_eq. split; [done|].
  destruct (Hcount groups ltac:(lia) eq_refl [cst; str_int year +:+ "PRE"]) as [Hle Hty].
  - constructor.
  - by left.
  - right. by left.
  - cbn [length] in Hle. split; [lia | done].
Qed.

(** X20 on a cache that holds twelve weeks of the regular season. *)
Lemma ats_document_in_week_twelve :
  exists groups,
    files (snd (cache_ats_data (env_at_week 12) 12 3 "2023REG" 2023 ats_cache_twelve))
      !! ats_file
    = Some (JsonDoc (PList groups))
    /\ (length groups <= 10)%nat
    /\ group_types_among ["2023REG"; str_int 2023 +:+ "PRE"] groups.
Proof.
  apply (ats_document_has_at_most_ten_groups (env_at_week 12) 12 3 "2023REG" 2023
           ats_cache_twelve).
  vm_compute. reflexivity.
Defined.

(** ** A current week without a file *)

Lemma py_range_down_cons hi lo :
  lo < hi -> py_range_down hi lo = hi :: py_range_down (hi - 1) lo.
Proof.
  intros H. unfold py_range_down.
  replace (Z.to_nat (hi - lo)) with (S (Z.to_nat (hi - 1 - lo))) by lia.
  cbn [seq fmap list_fmap]. rewrite Z.sub_0_r. f_equal.
  rewrite <- seq_shift, <- list_fmap_compose.
  apply list_fmap_ext. intros _ i _. cbn. lia.
Qed.

(** X21. When the week endpoint confirms [THIS_WEEK] and the odds cache has
    neither the dated file of that week nor [current_week.csv], the ATS
    builder raises [FileNotFoundError] for [odds_data/current_week.csv] and
    writes no file. *)
Theorem current_week_without_a_file_raises E TW fuel cst year w :
  status_code (server E (trace w) current_week_url) = 200 ->
  json (server E (trace w) current_week_url) = Some (PInt TW) ->
  exists_in w (odds_file cst TW) = false ->
  files w !! current_week_file = None ->
  fst (cache_ats_data E TW (S fuel) cst year w) = Raise (FileNotFoundError current_week_file)
  /\ files (snd (cache_ats_data E TW (S fuel) cst year w)) = files w.
Proof.
  intros Hs Hj Hex Hcur.
  assert (Hrun : exists w2,
            cache_ats_data E TW (S fuel) cst year w
            = (Raise (FileNotFoundError current_week_file), w2)
            /\ files w2 = files w).
  { unfold cache_ats_data. unfold bind at 1.
    destruct (ensure_dir_frame "ats_data" w) as (w1 & -> & Hf & Ht & Hl & Hd).
    unfold bind at 1. rewrite fetch_current_week_200 with (n := TW) by by rewrite Ht.
    set (w2 := {| files := files w1; dirs := dirs w1; log := log w1;
                  trace := trace w1 ++ [current_week_url] |}).
    exists w2. split; [|done].
    unfold bind at 1. cbn [ats_loop]. change (0 <? 10) with true. cbn iota.
    unfold bind at 1. rewrite py_range_down_cons by lia. cbn [ats_walk].
    unfold bind at 1, path_exists.
    assert (Hex2 : exists_in w2 (odds_file cst TW) = false).
    { rewrite <- Hex. apply exists_in_odds_file_frame; [by rewrite <- Hf | done]. }
    rewrite Hex2, Z.eqb_refl. cbn [negb andb].
    unfold bind at 1, read_csv. cbn [files w2]. rewrite Hf, Hcur. reflexivity. }
  destruct Hrun as (w2 & -> & Hf). done.
Qed.

(** X21 on an empty disk. *)
Lemma current_week_without_a_file_on_an_empty_disk :
  fst (cache_ats_data (env_at_week 12) 12 1 "2023REG" 2023 empty_world)
  = Raise (FileNotFoundError current_week_file)
  /\ files (snd (cache_ats_data (env_at_week 12) 12 1 "2023REG" 2023 empty_world))
     = files empty_world.
Proof.
  apply (current_week_without_a_file_raises (env_at_week 12) 12 0 "2023REG" 2023
           empty_world); reflexivity.
Defined.

(** X18. The fallback week is 1 or more exactly from the first Thursday of
    September of the calendar year on; on every earlier day of the year it
    is 0 or negative. *)
Theorem fallback_week_before_the_first_thursday today week :
  fallback_week today = Some week ->
  (1 <= week <-> toordinal (first_thursday_of_september (year today)) <= toordinal today).
Proof.
  unfold fallback_week. rewrite advance_to_thursday_total. cbn. intros [= <-].
  set (a := toordinal today). set (b := toordinal _). clearbody a b.
  Z.div_mod_to_equations. lia.
Qed.

(** X18 on 20 August 2023, where the fallback week is -2. *)
Lemma fallback_week_in_august :
  1 <= -2 <-> toordinal (first_thursday_of_september 2023) <= toordinal (Date 2023 8 20).
Proof.
  apply (fallback_week_before_the_first_thursday (Date 2023 8 20) (-2)).
  vm_compute. reflexivity.
Defined.

(** ** The requests of a run, phase by phase *)

Lemma trace_extends {A} (c : M A) expected w :
  asks c expected -> exists urls, trace (snd (c w)) = trace w ++ urls.
Proof. intros H. destruct (H w) as (urls & _ & Ht & _). by exists urls. Qed.

Lemma cache_schedule_data_trace E season w :
  trace (snd (cache_schedule_data E season w)) = trace w ++ [schedule_url season].
Proof.
  unfold cache_schedule_data. unfold bind at 1.
  destruct (ensure_dir_frame "schedule_data" w) as (w1 & -> & _ & Ht & _).
  unfold bind, requests_get. cbn beta iota. rewrite Ht.
  destruct (status_code _ =? 200); [|done].
  unfold lift. by destruct (response_frame _).
Qed.

Lemma fetch_current_season_year_trace E w :
  trace (snd (fetch_current_season_year E w)) = trace w ++ [current_season_url].
Proof.
  unfold fetch_current_season_year, bind, requests_get. cbn beta iota.
  destruct (status_code _ =? 200); [|done].
  unfold lift. by destruct (json_int _).
Qed.

(** X22. The requests of a [__main__] block that returns, in order: the
    season endpoint; the requests of the backfill, that is, those that
    [cache_old_data] sends when it is run after the season request; the
    schedule of the regular season of the year just resolved, its odds
    weeks, its scores weeks; and the week endpoint for the ATS builder. *)
Theorem main_block_requests E TY TW fuel w finished :
  fst (main_block E TY TW fuel w) = Ret finished ->
  exists season_year backfill,
    fst (fetch_current_season_year E w) = Ret season_year
    /\ trace (snd (cache_old_data E TY TW (snd (fetch_current_season_year E w))))
       = trace w ++ [current_season_url] ++ backfill
    /\ trace (snd (main_block E TY TW fuel w))
       = trace w ++ [current_season_url] ++ backfill
         ++ [schedule_url (str_int season_year +:+ "REG")]
         ++ (odds_url (str_int season_year +:+ "REG")
               <$> odds_week_range TY TW (str_int season_year +:+ "REG"))
         ++ (scores_url (str_int season_year +:+ "REG")
               <$> scores_week_range TY TW (str_int season_year +:+ "REG"))
         ++ [current_week_url].
Proof.
  destruct (main_block E TY TW fuel w) as [r w'] eqn:Hrun. cbn [fst snd]. intros ->.
  unfold main_block in Hrun. unfold bind at 1 in Hrun.
  pose proof (fetch_current_season_year_trace E w) as Ht1.
  destruct (fetch_current_season_year E w) as [[season_year|e] w1]; cbn [fst snd] in *;
    [|discriminate].
  set (season := str_int season_year +:+ "REG") in *.
  unfold bind at 1 in Hrun.
  destruct (trace_extends (cache_old_data E TY TW) [] w1 (asks_cache_old_data E TY TW))
    as (backfill & Ht2).
  destruct (cache_old_data E TY TW w1) as [[[]|e] w2]; cbn [fst snd] in *; [|discriminate].
  unfold bind at 1, print at 1 in Hrun. cbn beta iota in Hrun.
  unfold bind at 1 in Hrun.
  match type of Hrun with context [cache_schedule_data E season ?w] =>
    pose proof (cache_schedule_data_trace E season w) as Ht3;
    destruct (cache_schedule_data E season w) as [[[]|e] w3]; cbn [fst snd trace] in *;
      [|discriminate]
  end.
  unfold bind at 1, print at 1 in Hrun. cbn beta iota in Hrun.
  unfold bind at 1 in Hrun.
  match type of Hrun with context [cache_odds_data E TY TW season ?w] =>
    pose proof (cache_odds_data_requests E TY TW season w) as Ht4;
    destruct (cache_odds_data E TY TW season w) as [[[]|e] w4]; cbn [fst snd trace] in *;
      [|discriminate]
  end.
  unfold bind at 1, print at 1 in Hrun. cbn beta iota in Hrun.
  unfold bind at 1 in Hrun.
  match type of Hrun with context [cache_scores_data E TY TW season ?w] =>
    pose proof (cache_scores_data_requests E TY TW season w) as Ht5;
    destruct (cache_scores_data E TY TW season w) as [[[]|e] w5]; cbn [fst snd trace] in *;
      [|discriminate]
  end.
  unfold bind at 1, print at 1 in Hrun. cbn beta iota in Hrun.
  unfold bind at 1 in Hrun.
  match type of Hrun with context [cache_ats_data E TW fuel season season_year ?w] =>
    destruct (cache_ats_data_world E TW fuel season season_year w) as (Ht6 & _);
    destruct (cache_ats_data E TW fuel season season_year w) as [[done|e] w6];
      cbn [fst snd trace] in *; [|discriminate]
  end.
  exists season_year, backfill. split; [done|].
  split; [by rewrite Ht2, Ht1, <- app_assoc|].
  assert (Hfinal : trace w6 = trace w ++ [current_season_url] ++ backfill
                     ++ [schedule_url season]
                     ++ (odds_url season <$> odds_week_range TY TW season)
                     ++ (scores_url season <$> scores_week_range TY TW season)
                     ++ [current_week_url]).
  { rewrite Ht6, (Ht5 eq_refl), (Ht4 eq_refl), Ht3, Ht2, Ht1.
    by rewrite <- !app_assoc. }
  destruct done as [[]|]; cbn in Hrun; injection Hrun as _ <-; exact Hfinal.
Qed.

(** X22 with the API down and a disk that holds the five odds files the ATS
    builder reads and nothing else, so that the backfill requests every
    season it looks after. *)
Lemma main_block_requests_on_a_dead_api :
  exists season_year backfill,
    fst (fetch_current_season_year (env_down (Date 2023 9 14)) ats_cache_five)
    = Ret season_year
    /\ trace (snd (cache_old_data (env_down (Date 2023 9 14)) 2023 2
                     (snd (fetch_current_season_year (env_down (Date 2023 9 14))
                             ats_cache_five))))
       = trace ats_cache_five ++ [current_season_url] ++ backfill
    /\ trace (snd (main_block (env_down (Date 2023 9 14)) 2023 2 3 ats_cache_five))
       = trace ats_cache_five
         ++ [current_season_url] ++ backfill
         ++ [schedule_url (str_int season_year +:+ "REG")]
         ++ (odds_url (str_int season_year +:+ "REG")
               <$> odds_week_range 2023 2 (str_int season_year +:+ "REG"))
         ++ (scores_url (str_int season_year +:+ "REG")
               <$> scores_week_range 2023 2 (str_int season_year +:+ "REG"))
         ++ [current_week_url].
Proof.
  apply (main_block_requests (env_down (Date 2023 9 14)) 2023 2 3 ats_cache_five (Some tt)).
  vm_compute. reflexivity.
Defined.
